(** * EDA web client: upload, summary refresh and table rendering

    A shallow embedding of the client scripts of the repository:

    - [ScriptJs]  : Phase-1-Foundation/eda-app/static/js/script.js
                    (upload page, plain [fetch]);
    - [Part004]   : the upload page script with [fetchWithTimeoutAndRetries];
    - [Part000]   : the summary page script (four-column table);
    - [Part005]   : the summary page script with descriptive statistics
                    and [displayCharts].

    JavaScript values are an inductive type, objects are association lists
    in [Object.keys] order, exceptions are an error monad, the page (DOM
    regions the scripts write to, module-level variables, console) is a
    record threaded explicitly, and the network is a script of outcomes,
    one per [fetch] call. *)

From Stdlib Require Import String Ascii List ZArith NArith Bool Lia DecimalString.
Import ListNotations.
Set Warnings "-register-all".
Open Scope string_scope.

(* ===================================================================== *)
(** ** JavaScript values *)
(* ===================================================================== *)

Module Js.

(** Numbers: the integer-valued doubles and NaN.  Non-integer doubles differ
    from these only in the digits that [String] and [toFixed] print. *)
Inductive number : Type :=
| NaN
| Int (z : Z).

Inductive value : Type :=
| VUndefined
| VNull
| VBool (b : bool)
| VNum (n : number)
| VStr (s : string)
| VArr (items : list value)
| VObj (fields : list (string * value)).

(** A thrown [Error]: its [name] and [message]. *)
Record Error : Type := mkError { name : string; message : string }.

Definition newError (msg : string) : Error := mkError "Error" msg.
Definition TypeError (msg : string) : Error := mkError "TypeError" msg.
Definition SyntaxError (msg : string) : Error := mkError "SyntaxError" msg.

(** Completion of a computation: a value or a thrown error. *)
Inductive result (A : Type) : Type :=
| Ok (a : A)
| Throw (e : Error).
Arguments Ok {A} a.
Arguments Throw {A} e.

Definition bind {A B} (r : result A) (k : A -> result B) : result B :=
  match r with
  | Ok a => k a
  | Throw e => Throw e
  end.

(** [try { r } catch (e) { h e }] *)
Definition try_catch {A} (r : result A) (h : Error -> result A) : result A :=
  match r with
  | Ok a => Ok a
  | Throw e => h e
  end.

Definition dquote : ascii := "034"%char.

Definition Z_to_string (z : Z) : string := NilZero.string_of_int (Z.to_int z).

Definition number_toString (n : number) : string :=
  match n with
  | NaN => "NaN"
  | Int z => Z_to_string z
  end.

(** [n.toFixed(2)] *)
Definition toFixed2 (n : number) : string :=
  match n with
  | NaN => "NaN"
  | Int z => Z_to_string z ++ ".00"
  end.

Definition isNaN (n : number) : bool :=
  match n with
  | NaN => true
  | Int _ => false
  end.

(** ToBoolean *)
Definition truthy (v : value) : bool :=
  match v with
  | VUndefined | VNull => false
  | VBool b => b
  | VNum NaN => false
  | VNum (Int z) => negb (z =? 0)%Z
  | VStr s => negb (s =? "")
  | VArr _ | VObj _ => true
  end.

(** [a || b] *)
Definition or_else (a b : value) : value := if truthy a then a else b.

Fixpoint join (sep : string) (l : list string) : string :=
  match l with
  | [] => ""
  | [x] => x
  | x :: r => x ++ sep ++ join sep r
  end.

(** [String(v)], also the conversion of a template literal's [${v}]. *)
Fixpoint toString (v : value) : string :=
  match v with
  | VUndefined => "undefined"
  | VNull => "null"
  | VBool true => "true"
  | VBool false => "false"
  | VNum n => number_toString n
  | VStr s => s
  | VArr items =>
      join "," (map (fun x => match x with
                              | VUndefined | VNull => ""
                              | _ => toString x
                              end) items)
  | VObj _ => "[object Object]"
  end.

(** Own-property lookup in an object literal. *)
Fixpoint lookup (k : string) (fields : list (string * value)) : option value :=
  match fields with
  | [] => None
  | (k', v) :: rest => if k =? k' then Some v else lookup k rest
  end.

Fixpoint chars (s : string) : list value :=
  match s with
  | EmptyString => []
  | String a rest => VStr (String a EmptyString) :: chars rest
  end.

Fixpoint index_keys (start : nat) (l : list value) : list (string * value) :=
  match l with
  | [] => []
  | x :: rest => (Z_to_string (Z.of_nat start), x) :: index_keys (S start) rest
  end.

(** The own enumerable properties of a value, in [Object.keys] order: the
    fields of an object, the indices of an array or of a string. *)
Definition entries (v : value) : list (string * value) :=
  match v with
  | VObj fields => fields
  | VArr items => index_keys 0 items
  | VStr s => index_keys 0 (chars s)
  | _ => []
  end.

(** [v.length] of a value that is not [undefined] or [null]. *)
Definition length_of (v : value) : value :=
  match v with
  | VArr items => VNum (Int (Z.of_nat (List.length items)))
  | VStr s => VNum (Int (Z.of_nat (String.length s)))
  | VObj fields => match lookup "length" fields with Some x => x | None => VUndefined end
  | _ => VUndefined
  end.

(** [v[k]] and [v.k]: a TypeError on [undefined] and [null]; otherwise the
    own property, the [length] of an array or string, and [undefined] for
    any other key.  Keys are the field names the scripts use and column
    names; the other members inherited from a prototype are not
    modelled. *)
Definition get (v : value) (k : string) : result value :=
  match v with
  | VUndefined | VNull =>
      Throw (TypeError ("Cannot read properties of " ++ toString v))
  | _ =>
      Ok (match lookup k (entries v) with
          | Some x => x
          | None => if k =? "length" then length_of v else VUndefined
          end)
  end.

(** [v[i]] for an array index. *)
Definition index (v : value) (i : nat) : result value :=
  match v with
  | VArr items => Ok (nth i items VUndefined)
  | _ => get v (Z_to_string (Z.of_nat i))
  end.

(** [Object.keys(v)] of an object. *)
Definition keys (fields : list (string * value)) : list string :=
  map fst fields.

(** [s.replace(/c/g, rep)] for a one-character pattern. *)
Fixpoint replace_char (c : ascii) (rep : string) (s : string) : string :=
  match s with
  | EmptyString => EmptyString
  | String a rest =>
      if Ascii.eqb a c then rep ++ replace_char c rep rest
      else String a (replace_char c rep rest)
  end.

(** [s.startsWith(p)] *)
Definition startsWith (s p : string) : bool := String.prefix p s.

Fixpoint drop (n : nat) (s : string) : string :=
  match n, s with
  | O, _ => s
  | S n', String _ rest => drop n' rest
  | S _, EmptyString => EmptyString
  end.

End Js.

Import Js.

(* ===================================================================== *)
(** ** HTML escaping (shared by the three scripts that escape) *)
(* ===================================================================== *)

Module Html.

(** Five global replacements in the order of the source: ampersand, less
    than, greater than, double quote, single quote. *)
Definition escapeHtml (str : string) : string :=
  replace_char "'" "&#39;"
    (replace_char dquote "&quot;"
      (replace_char ">" "&gt;"
        (replace_char "<" "&lt;"
          (replace_char "&" "&amp;" str)))).

(** The summary page version starts with [String(str)]. *)
Definition escapeHtml_value (v : value) : string := escapeHtml (toString v).

(** The characters that open or close markup or an attribute value. *)
Definition markup_chars : list ascii := ["<"; ">"; dquote; "'"]%char.

(** What follows the ampersand in the five entities. *)
Definition entity_tails : list string := ["amp;"; "lt;"; "gt;"; "quot;"; "#39;"].

(** One-pass view of the escaping: the image of a single character. *)
Definition escape_char (a : ascii) : string :=
  if Ascii.eqb a "&" then "&amp;"
  else if Ascii.eqb a "<" then "&lt;"
  else if Ascii.eqb a ">" then "&gt;"
  else if Ascii.eqb a dquote then "&quot;"
  else if Ascii.eqb a "'" then "&#39;"
  else String a EmptyString.

Fixpoint occurs (c : ascii) (s : string) : bool :=
  match s with
  | EmptyString => false
  | String a rest => Ascii.eqb a c || occurs c rest
  end.

(** Every ampersand of [s] is followed by an entity tail. *)
Fixpoint amp_ok (s : string) : bool :=
  match s with
  | EmptyString => true
  | String a rest =>
      (negb (Ascii.eqb a "&") || existsb (fun e => String.prefix e rest) entity_tails)
      && amp_ok rest
  end.

End Html.

(* ===================================================================== *)
(** ** Text helpers of the platform used by the scripts *)
(* ===================================================================== *)

Module Text.

Definition is_space (a : ascii) : bool :=
  let n := nat_of_ascii a in
  (Nat.eqb n 32) || ((9 <=? n)%nat && (n <=? 13)%nat).

Fixpoint trimStart (s : string) : string :=
  match s with
  | EmptyString => EmptyString
  | String a rest => if is_space a then trimStart rest else s
  end.

Fixpoint trimEnd (s : string) : string :=
  match s with
  | EmptyString => EmptyString
  | String a rest =>
      let rest' := trimEnd rest in
      if is_space a && (rest' =? "") then EmptyString else String a rest'
  end.

(** [s.trim()] *)
Definition trim (s : string) : string := trimEnd (trimStart s).

Definition lower_char (a : ascii) : ascii :=
  let n := nat_of_ascii a in
  if (65 <=? n)%nat && (n <=? 90)%nat then ascii_of_nat (n + 32) else a.

(** [s.toLowerCase()] *)
Fixpoint toLowerCase (s : string) : string :=
  match s with
  | EmptyString => EmptyString
  | String a rest => String (lower_char a) (toLowerCase rest)
  end.

(** [s.includes(sub)] *)
Fixpoint includes (s sub : string) : bool :=
  String.prefix sub s ||
  match s with
  | EmptyString => false
  | String _ rest => includes rest sub
  end.

(** [s.endsWith(suffix)] *)
Definition endsWith (s suffix : string) : bool :=
  (String.length suffix <=? String.length s)%nat &&
  (drop (String.length s - String.length suffix) s =? suffix).

Definition N_to_string (n : N) : string := Z_to_string (Z.of_N n).

End Text.

Import Text.

(* ===================================================================== *)
(** ** The runtime and the network *)
(* ===================================================================== *)

Module Net.

(** What the scripts take from the browser: [JSON.parse] ([None] when it
    throws a SyntaxError), the string-to-number conversion behind
    [Number(s)], the locale formatting of [toLocaleString] and
    [navigator.onLine]. *)
Record Runtime : Type := mkRuntime {
  JSON_parse : string -> option value;
  StringToNumber : string -> number;
  toLocaleString : number -> string;
  onLine : bool
}.

Record Response : Type := mkResponse {
  status : N;
  statusText : string;
  text : string
}.

(** [res.ok]: the status is in the range 200-299. *)
Definition ok (res : Response) : bool :=
  (200 <=? status res)%N && (status res <=? 299)%N.

(** What one call of [fetch] meets: a response or a network failure after
    some milliseconds, or a request that never settles. *)
Inductive outcome : Type :=
| Responds (after : N) (res : Response)
| Rejects (after : N) (e : Error)
| Hangs.

(** The outcomes of the successive calls of [fetch]; a call beyond the
    script never settles. *)
Definition network : Type := list outcome.

Definition next (net : network) : outcome := hd Hangs net.

Definition AbortError : Error := mkError "AbortError" "The operation was aborted.".

(** [fetch(url, {signal})] with [setTimeout(() => controller.abort(), timeout)]
    armed before the call and cleared when the promise settles: the
    completion and the milliseconds waited. *)
Definition fetch_with_abort (o : outcome) (timeout : N) : result Response * N :=
  match o with
  | Responds after res =>
      if (after <? timeout)%N then (Ok res, after) else (Throw AbortError, timeout)
  | Rejects after e =>
      if (after <? timeout)%N then (Throw e, after) else (Throw AbortError, timeout)
  | Hangs => (Throw AbortError, timeout)
  end.

(** [fetch(url, options)] without a signal: [None] when it never settles. *)
Definition fetch_plain (o : outcome) : option (result Response * N) :=
  match o with
  | Responds after res => Some (Ok res, after)
  | Rejects after e => Some (Throw e, after)
  | Hangs => None
  end.

(** [JSON.parse(text)] as a completion; the empty text is never JSON. *)
Definition parse (rt : Runtime) (text : string) : result value :=
  if text =? "" then Throw (SyntaxError "Unexpected end of JSON input")
  else match JSON_parse rt text with
       | Some v => Ok v
       | None => Throw (SyntaxError "Unexpected token in JSON")
       end.

(** [`Server error ${res.status} ${res.statusText}`] *)
Definition server_error_line (res : Response) : string :=
  "Server error " ++ N_to_string (status res) ++ " " ++ statusText res.

End Net.

Import Net.

(* ===================================================================== *)
(** ** More of the value language: arrays, enumeration, numbers *)
(* ===================================================================== *)

Module JsLib.

(** The receiver of [forEach] and [map] must be an array. *)
Definition as_array (v : value) : result (list value) :=
  match v with
  | VArr items => Ok items
  | VUndefined | VNull =>
      Throw (TypeError ("Cannot read properties of " ++ toString v))
  | _ => Throw (TypeError "forEach is not a function")
  end.

(** [Object.values(v)] *)
Definition values (v : value) : list value := map snd (entries v).

(** [Number(v)] *)
Definition Number (rt : Runtime) (v : value) : number :=
  match v with
  | VUndefined => NaN
  | VNull => Int 0
  | VBool b => Int (if b then 1 else 0)
  | VNum n => n
  | VStr s => StringToNumber rt s
  | VArr _ | VObj _ => StringToNumber rt (toString v)
  end.

(** [Number(v) || 0] *)
Definition Number_or_0 (rt : Runtime) (v : value) : Z :=
  match Number rt v with
  | NaN => 0%Z
  | Int z => z
  end.

(** [Object.values(m).reduce((s, v) => s + (Number(v) || 0), 0)] *)
Definition sum_numbers (rt : Runtime) (m : value) : number :=
  Int (fold_left (fun s v => (s + Number_or_0 rt v)%Z) (values m) 0%Z).

(** [v.toLocaleString()] *)
Definition toLocale (rt : Runtime) (v : value) : result string :=
  match v with
  | VUndefined | VNull =>
      Throw (TypeError ("Cannot read properties of " ++ toString v))
  | VNum n => Ok (toLocaleString rt n)
  | _ => Ok (toString v)
  end.

(** The string an element shows after [el.textContent = v]. *)
Definition textContent_of (v : value) : string :=
  match v with
  | VUndefined | VNull => ""
  | _ => toString v
  end.

(** [typeof v === 'object'] *)
Definition is_object (v : value) : bool :=
  match v with
  | VNull | VArr _ | VObj _ => true
  | _ => false
  end.

(** [a && b], with [b] already evaluated (it cannot throw where used). *)
Definition and_then (a b : value) : value := if truthy a then b else a.

(** Traversal of a list by a callback that may throw. *)
Fixpoint mapM {A B} (f : A -> result B) (l : list A) : result (list B) :=
  match l with
  | [] => Ok []
  | x :: rest =>
      bind (f x) (fun y => bind (mapM f rest) (fun ys => Ok (y :: ys)))
  end.

End JsLib.

Import JsLib.

(* ===================================================================== *)
(** ** Statements: state threaded explicitly, with exceptions *)
(* ===================================================================== *)

Module Eff.

Section WithState.
Context {S : Type}.

(** A statement reads and writes the state and may throw; what was
    written before a throw stays written. *)
Definition M (A : Type) : Type := S -> result A * S.

Definition ret {A} (a : A) : M A := fun s => (Ok a, s).
Definition lift {A} (r : result A) : M A := fun s => (r, s).
Definition modify (f : S -> S) : M unit := fun s => (Ok tt, f s).
Definition read {A} (f : S -> A) : M A := fun s => (Ok (f s), s).

Definition bindM {A B} (c : M A) (k : A -> M B) : M B :=
  fun s => match c s with
           | (Ok a, s') => k a s'
           | (Throw e, s') => (Throw e, s')
           end.

(** [try { c } catch (e) { h e }] *)
Definition try_ {A} (c : M A) (h : Error -> M A) : M A :=
  fun s => match c s with
           | (Ok a, s') => (Ok a, s')
           | (Throw e, s') => h e s'
           end.

(** [if (el) c]: the statement runs only when the element exists. *)
Definition when_present {A} (el : option A) (c : M unit) : M unit :=
  match el with
  | Some _ => c
  | None => ret tt
  end.
End WithState.

Arguments M : clear implicits.

Declare Scope page_scope.
Delimit Scope page_scope with page.
Notation "x <- c ;; k" := (bindM c (fun x => k))
  (at level 61, c at next level, right associativity) : page_scope.
Notation "c ;;; k" := (bindM c (fun _ => k))
  (at level 61, right associativity) : page_scope.

End Eff.

Import Eff.

(* ===================================================================== *)
(** ** The upload page: state shared by the two versions of script.js *)
(* ===================================================================== *)

Module UploadPage.

(** A [File] of the file input or of a drop. *)
Record File : Type := mkFile { file_name : string; file_size : N }.

(** The page as the script sees it.  [currentSummary] and [currentFilename]
    are the module-level variables; a card is [None] when the page has no
    such element; the three rendered regions keep the interpolated texts
    of their markup (the constant tags around them are not represented):
    [summary_info] the rows, columns and memory texts, [columns_table] one
    list of four texts per row, [sample_head] and [sample_body] the header
    and the cells of the sample table. *)
Record Page : Type := mkPage {
  currentSummary : value;
  currentFilename : value;
  error_text : string;
  error_hidden : bool;
  loading_hidden : bool;
  results_hidden : bool;
  card_columns : option string;
  card_rows : option string;
  card_missing : option string;
  card_size : option string;
  summary_info : list string;
  columns_table : list (list string);
  sample_head : list string;
  sample_body : list (list string);
  console : list string
}.

Definition set_currentSummary (v : value) (p : Page) : Page :=
  mkPage v (currentFilename p) (error_text p) (error_hidden p) (loading_hidden p)
    (results_hidden p) (card_columns p) (card_rows p) (card_missing p) (card_size p)
    (summary_info p) (columns_table p) (sample_head p) (sample_body p) (console p).

Definition set_currentFilename (v : value) (p : Page) : Page :=
  mkPage (currentSummary p) v (error_text p) (error_hidden p) (loading_hidden p)
    (results_hidden p) (card_columns p) (card_rows p) (card_missing p) (card_size p)
    (summary_info p) (columns_table p) (sample_head p) (sample_body p) (console p).

Definition set_error_text (t : string) (p : Page) : Page :=
  mkPage (currentSummary p) (currentFilename p) t (error_hidden p) (loading_hidden p)
    (results_hidden p) (card_columns p) (card_rows p) (card_missing p) (card_size p)
    (summary_info p) (columns_table p) (sample_head p) (sample_body p) (console p).

Definition set_error_hidden (b : bool) (p : Page) : Page :=
  mkPage (currentSummary p) (currentFilename p) (error_text p) b (loading_hidden p)
    (results_hidden p) (card_columns p) (card_rows p) (card_missing p) (card_size p)
    (summary_info p) (columns_table p) (sample_head p) (sample_body p) (console p).

Definition set_loading_hidden (b : bool) (p : Page) : Page :=
  mkPage (currentSummary p) (currentFilename p) (error_text p) (error_hidden p) b
    (results_hidden p) (card_columns p) (card_rows p) (card_missing p) (card_size p)
    (summary_info p) (columns_table p) (sample_head p) (sample_body p) (console p).

Definition set_results_hidden (b : bool) (p : Page) : Page :=
  mkPage (currentSummary p) (currentFilename p) (error_text p) (error_hidden p)
    (loading_hidden p) b (card_columns p) (card_rows p) (card_missing p) (card_size p)
    (summary_info p) (columns_table p) (sample_head p) (sample_body p) (console p).

(** [el.textContent = t] on an element that may be absent, under the guard
    [if (el)] of the source. *)
Definition write_card (el : option string) (t : string) : option string :=
  match el with
  | Some _ => Some t
  | None => None
  end.

Definition set_card_columns (t : string) (p : Page) : Page :=
  mkPage (currentSummary p) (currentFilename p) (error_text p) (error_hidden p)
    (loading_hidden p) (results_hidden p) (write_card (card_columns p) t) (card_rows p)
    (card_missing p) (card_size p)
    (summary_info p) (columns_table p) (sample_head p) (sample_body p) (console p).

Definition set_card_rows (t : string) (p : Page) : Page :=
  mkPage (currentSummary p) (currentFilename p) (error_text p) (error_hidden p)
    (loading_hidden p) (results_hidden p) (card_columns p) (write_card (card_rows p) t)
    (card_missing p) (card_size p)
    (summary_info p) (columns_table p) (sample_head p) (sample_body p) (console p).

Definition set_card_missing (t : string) (p : Page) : Page :=
  mkPage (currentSummary p) (currentFilename p) (error_text p) (error_hidden p)
    (loading_hidden p) (results_hidden p) (card_columns p) (card_rows p)
    (write_card (card_missing p) t) (card_size p)
    (summary_info p) (columns_table p) (sample_head p) (sample_body p) (console p).

Definition set_card_size (t : string) (p : Page) : Page :=
  mkPage (currentSummary p) (currentFilename p) (error_text p) (error_hidden p)
    (loading_hidden p) (results_hidden p) (card_columns p) (card_rows p)
    (card_missing p) (write_card (card_size p) t)
    (summary_info p) (columns_table p) (sample_head p) (sample_body p) (console p).

Definition set_summary_info (l : list string) (p : Page) : Page :=
  mkPage (currentSummary p) (currentFilename p) (error_text p) (error_hidden p)
    (loading_hidden p) (results_hidden p) (card_columns p) (card_rows p)
    (card_missing p) (card_size p)
    l (columns_table p) (sample_head p) (sample_body p) (console p).

Definition set_columns_table (rows : list (list string)) (p : Page) : Page :=
  mkPage (currentSummary p) (currentFilename p) (error_text p) (error_hidden p)
    (loading_hidden p) (results_hidden p) (card_columns p) (card_rows p)
    (card_missing p) (card_size p)
    (summary_info p) rows (sample_head p) (sample_body p) (console p).

Definition set_sample_table (head : list string) (body : list (list string))
    (p : Page) : Page :=
  mkPage (currentSummary p) (currentFilename p) (error_text p) (error_hidden p)
    (loading_hidden p) (results_hidden p) (card_columns p) (card_rows p)
    (card_missing p) (card_size p)
    (summary_info p) (columns_table p) head body (console p).

Definition log (line : string) (p : Page) : Page :=
  mkPage (currentSummary p) (currentFilename p) (error_text p) (error_hidden p)
    (loading_hidden p) (results_hidden p) (card_columns p) (card_rows p)
    (card_missing p) (card_size p)
    (summary_info p) (columns_table p) (sample_head p) (sample_body p)
    (console p ++ [line]).

(** What [displayResults] renders from the summary. *)
Definition rendered (p : Page) :
    list string * list (list string) * list string * list (list string) :=
  (summary_info p, columns_table p, sample_head p, sample_body p).

(** The statements of the script run over this page. *)
Definition M (A : Type) : Type := Eff.M Page A.

(** [showError(msg)]: [errorAlert.textContent = msg] and the alert is shown. *)
Definition showError (msg : value) (p : Page) : Page :=
  set_error_hidden false (set_error_text (textContent_of msg) p).

(** [hideError()] *)
Definition hideError (p : Page) : Page := set_error_hidden true p.

(** [file.name.match(/\.(csv|xlsx)$/i)] *)
Definition has_accepted_extension (nm : string) : bool :=
  endsWith (toLowerCase nm) ".csv" || endsWith (toLowerCase nm) ".xlsx".

(** [10 * 1024 * 1024] *)
Definition max_size : N := 10 * 1024 * 1024.

End UploadPage.

(* ===================================================================== *)
(** ** Phase-1-Foundation/eda-app/static/js/script.js *)
(* ===================================================================== *)

Module ScriptJs.
Import UploadPage.
Local Open Scope page_scope.

(** The cell of the sample table:
    [${row[col] !== null ? row[col] : '<em>null</em>'}] *)
Definition sample_cell (val : value) : string :=
  match val with
  | VNull => "<em>null</em>"
  | _ => toString val
  end.

Definition column_row (summary col : value) : result (list string) :=
  bind (get summary "data_types") (fun dts =>
  bind (get dts (toString col)) (fun dt =>
  bind (get summary "missing_values") (fun mvs =>
  bind (get mvs (toString col)) (fun mv =>
  bind (get summary "unique_counts") (fun ucs =>
  bind (get ucs (toString col)) (fun uc =>
  Ok [toString col; toString dt; toString mv; toString uc])))))).

Definition sample_row (cols : list value) (row : value) : result (list string) :=
  mapM (fun col => bind (get row (toString col)) (fun val => Ok (sample_cell val))) cols.

(** [displayResults(summary)] *)
Definition displayResults (summary : value) : M unit :=
  shape <- lift (get summary "shape") ;;
  rows <- lift (index shape 0) ;;
  ncols <- lift (index shape 1) ;;
  memory <- lift (get summary "memory_usage") ;;
  modify (set_summary_info [toString rows; toString ncols; toString memory]) ;;;
  colsv <- lift (get summary "columns") ;;
  cols <- lift (as_array colsv) ;;
  colRows <- lift (mapM (column_row summary) cols) ;;
  modify (set_columns_table colRows) ;;;
  sdv <- lift (get summary "sample_data") ;;
  sd <- lift (as_array sdv) ;;
  body <- lift (mapM (sample_row cols) sd) ;;
  modify (set_sample_table (map toString cols) body).

(** The second [.then] handler of [uploadFile]. *)
Definition upload_then (file : File) (data : value) : M unit :=
  modify (set_loading_hidden true) ;;;
  success <- lift (get data "success") ;;
  if truthy success then
    summary <- lift (get data "summary") ;;
    modify (set_currentSummary summary) ;;;
    modify (set_currentFilename (VStr (file_name file))) ;;;
    displayResults summary ;;;
    modify (set_results_hidden false)
  else
    derr <- lift (get data "error") ;;
    modify (showError (or_else derr (VStr "Unknown error"))).

(** The [.catch] handler of [uploadFile]. *)
Definition upload_catch (p : Page) : Page :=
  showError (VStr "Network error. Please try again.") (set_loading_hidden true p).

(** [uploadFile(file)]: one [fetch] of /upload without a timeout; the page
    once the promise chain has settled, or as the synchronous part left it
    when the request never settles, and the number of requests sent. *)
Definition uploadFile (rt : Runtime) (o : outcome) (file : File) (p : Page)
    : Page * nat :=
  let p := hideError p in
  let p := set_loading_hidden false p in
  let p := set_results_hidden true p in
  match fetch_plain o with
  | None => (p, 1%nat)
  | Some (Throw _, _) => (upload_catch p, 1%nat)
  | Some (Ok res, _) =>
      match parse rt (text res) with
      | Throw _ => (upload_catch p, 1%nat)
      | Ok data =>
          match upload_then file data p with
          | (Ok _, p') => (p', 1%nat)
          | (Throw _, p') => (upload_catch p', 1%nat)
          end
      end
  end.

(** [handleFiles(files)] *)
Definition handleFiles (rt : Runtime) (o : outcome) (files : list File)
    (p : Page) : Page * nat :=
  match files with
  | [] => (p, 0%nat)
  | file :: _ =>
      if negb (has_accepted_extension (file_name file)) then
        (showError (VStr "Please upload a .csv or .xlsx file.") p, 0%nat)
      else if (max_size <? file_size file)%N then
        (showError (VStr "File size must be under 10MB.") p, 0%nat)
      else uploadFile rt o file p
  end.

End ScriptJs.

(* ===================================================================== *)
(** ** script.js of the upload page, with timeout and retries *)
(* ===================================================================== *)

Module Part004.
Import UploadPage.
Local Open Scope page_scope.

(** Lines 217-230 of the helper: the body is read as text, parsed when it
    is not empty, and an error is thrown for a response that is not ok.
    The [throw] of the inner [try] is caught by the [catch (parseErr)] that
    encloses it. *)
Definition read_body (rt : Runtime) (res : Response) : result value :=
  try_catch
    (bind (if text res =? "" then Ok VNull else parse rt (text res)) (fun json =>
       if negb (ok res) then
         Throw (newError (toString
           (or_else
              (and_then json
                 (or_else (match get json "error" with Ok v => v | Throw _ => VUndefined end)
                          (match get json "message" with Ok v => v | Throw _ => VUndefined end)))
              (VStr (server_error_line res)))))
       else Ok json))
    (fun parseErr =>
       if negb (ok res) then
         let trimmed := trim (text res) in
         Throw (newError (if negb (trimmed =? "") then trimmed
                          else server_error_line res))
       else Ok (VStr (text res))).

(** [err.name === 'AbortError' ||
     (err.message && err.message.toLowerCase().includes('timeout'))] *)
Definition is_abort_or_timeout (err : Error) : bool :=
  (name err =? "AbortError") ||
  (negb (message err =? "") && includes (toLowerCase (message err)) "timeout").

(** One run of the helper: its completion, the number of calls of [fetch]
    and the milliseconds spent inside these calls, from [setTimeout] to the
    [clearTimeout] that follows when [fetch] settles.  That is all the
    abort timer covers: [res.text()] is awaited after the timer has been
    cleared, and the time of that read is not counted here. *)
Record Run : Type := mkRun {
  completion : result value;
  attempts : nat;
  fetch_waited : N
}.

(** The [for (let attempt = 0; attempt <= retries; attempt++)] loop;
    [fuel] is [retries + 1 - attempt], so the loop test holds exactly when
    [fuel] is a successor.  The statement after the loop throws [lastErr],
    or the unknown-error message when no attempt was made. *)
Fixpoint attempt_loop (rt : Runtime) (timeout : N) (retries : nat)
    (fuel attempt : nat) (lastErr : option Error) (net : network) : Run :=
  match fuel with
  | O =>
      mkRun (Throw (match lastErr with
                    | Some e => e
                    | None => newError "Unknown network error"
                    end)) 0 0
  | S fuel' =>
      let (fetched, t) := fetch_with_abort (next net) timeout in
      match bind fetched (read_body rt) with
      | Ok v => mkRun (Ok v) 1 t
      | Throw err =>
          if is_abort_or_timeout err && (attempt <? retries)%nat then
            let r := attempt_loop rt timeout retries fuel' (S attempt) (Some err) (tl net) in
            mkRun (completion r) (S (attempts r)) (t + fetch_waited r)
          else if (attempt <? retries)%nat then
            let r := attempt_loop rt timeout retries fuel' (S attempt) (Some err) (tl net) in
            mkRun (completion r) (S (attempts r)) (t + fetch_waited r)
          else mkRun (Throw err) 1 t
      end
  end.

(** The completion of one iteration of the loop on the outcome [o]: the
    [fetch] under the abort timer, then the reading of the body. *)
Definition attempt_result (rt : Runtime) (timeout : N) (o : outcome) : result value :=
  bind (fst (fetch_with_abort o timeout)) (read_body rt).

(** [fetchWithTimeoutAndRetries(url, options, timeout, retries)] *)
Definition fetchWithTimeoutAndRetries (rt : Runtime) (net : network)
    (timeout : N) (retries : nat) : Run :=
  attempt_loop rt timeout retries (S retries) 0 None net.

(** The cell of the sample table for the value [row[col]]. *)
Definition sample_cell (val : value) : string :=
  let isMissing :=
    match val with
    | VNull | VUndefined => true
    | VNum n => isNaN n
    | _ => false
    end in
  if isMissing then "<em>null</em>" else Html.escapeHtml (toString val).

(** The block that fills the four summary cards, inside its own [try]. *)
Definition fill_cards (rt : Runtime) (summary : value) : M unit :=
  try_
    (colsEl <- read card_columns ;;
     rowsEl <- read card_rows ;;
     missEl <- read card_missing ;;
     sizeEl <- read card_size ;;
     when_present colsEl
       (shape <- lift (get summary "shape") ;;
        v <- (if truthy shape then lift (index shape 1)
              else cols <- lift (get summary "columns") ;;
                   ret (if truthy cols then length_of cols else VStr "-")) ;;
        modify (set_card_columns (textContent_of v))) ;;;
     when_present rowsEl
       (shape <- lift (get summary "shape") ;;
        t <- (if truthy shape
              then r <- lift (index shape 0) ;; t <- lift (toLocale rt r) ;; ret t
              else ret "-") ;;
        modify (set_card_rows t)) ;;;
     when_present missEl
       (mv <- lift (get summary "missing_values") ;;
        let totalMissing := sum_numbers rt (or_else mv (VObj [])) in
        modify (set_card_missing (toLocaleString rt totalMissing))) ;;;
     when_present sizeEl
       (fi <- lift (get summary "file_info") ;;
        v <- (if truthy fi then lift (get fi "size_readable") else ret (VStr "-")) ;;
        modify (set_card_size (textContent_of v))))
    (fun e => modify (log ("Could not populate top cards: " ++ message e))).

(** One row of the columns table: the texts of [${col}],
    [${summary.data_types[col]}], [${summary.missing_values[col]}] and
    [${summary.unique_counts[col]}]. *)
Definition column_row (summary col : value) : result (list string) :=
  bind (get summary "data_types") (fun dts =>
  bind (get dts (toString col)) (fun dt =>
  bind (get summary "missing_values") (fun mvs =>
  bind (get mvs (toString col)) (fun mv =>
  bind (get summary "unique_counts") (fun ucs =>
  bind (get ucs (toString col)) (fun uc =>
  Ok [toString col; toString dt; toString mv; toString uc])))))).

(** One row of the sample table. *)
Definition sample_row (cols : list value) (row : value) : result (list string) :=
  mapM (fun col => bind (get row (toString col)) (fun val => Ok (sample_cell val))) cols.

(** [displayResults(summary)] *)
Definition displayResults (rt : Runtime) (summary : value) : M unit :=
  fill_cards rt summary ;;;
  shape <- lift (get summary "shape") ;;
  rows <- lift (index shape 0) ;;
  ncols <- lift (index shape 1) ;;
  memory <- lift (get summary "memory_usage") ;;
  modify (set_summary_info [toString rows; toString ncols; toString memory]) ;;;
  colsv <- lift (get summary "columns") ;;
  cols <- lift (as_array colsv) ;;
  colRows <- lift (mapM (column_row summary) cols) ;;
  modify (set_columns_table colRows) ;;;
  sdv <- lift (get summary "sample_data") ;;
  sd <- lift (as_array sdv) ;;
  body <- lift (mapM (sample_row cols) sd) ;;
  modify (set_sample_table (map toString cols) body).

(** The [.then] handler of [uploadFile]. *)
Definition upload_then (rt : Runtime) (file : File) (data : value) : M unit :=
  modify (set_loading_hidden true) ;;;
  let success := match get data "success" with Ok v => v | Throw _ => VUndefined end in
  if truthy data && truthy success then
    summary <- lift (get data "summary") ;;
    modify (set_currentSummary summary) ;;;
    modify (set_currentFilename (VStr (file_name file))) ;;;
    displayResults rt summary ;;;
    modify (set_results_hidden false)
  else
    match data with
    | VStr raw =>
        try_
          (parsed <- lift (parse rt raw) ;;
           let psuccess :=
             match get parsed "success" with Ok v => v | Throw _ => VUndefined end in
           if truthy parsed && truthy psuccess then
             summary <- lift (get parsed "summary") ;;
             modify (set_currentSummary summary) ;;;
             modify (set_currentFilename (VStr (file_name file))) ;;;
             displayResults rt summary ;;;
             modify (set_results_hidden false)
           else
             perr <- lift (get parsed "error") ;;
             pmsg <- lift (get parsed "message") ;;
             modify (showError
               (or_else perr (or_else pmsg
                  (or_else data (VStr "Unexpected server response"))))))
          (fun e =>
             modify (showError (or_else data (VStr "Unexpected server response"))))
    | _ =>
        let derr := match get data "error" with Ok v => v | Throw _ => VUndefined end in
        modify (showError
          (or_else (and_then data derr) (VStr "Unexpected server response")))
    end.

(** The [.catch] handler of [uploadFile]. *)
Definition upload_catch (rt : Runtime) (err : Error) (p : Page) : Page :=
  let p := set_loading_hidden true p in
  let p := log ("Upload error: " ++ message err) p in
  if negb (onLine rt) then
    showError (VStr "No network connection. Please check your internet and try again.") p
  else
    showError (or_else (VStr (message err)) (VStr "Network error. Please try again.")) p.

(** [uploadFile(file)]: the page after the promise chain has settled and
    the number of requests sent to /upload. *)
Definition uploadFile (rt : Runtime) (net : network) (file : File) (p : Page)
    : Page * nat :=
  let p := hideError p in
  let p := set_loading_hidden false p in
  let p := set_results_hidden true p in
  let run := fetchWithTimeoutAndRetries rt net 30000 2 in
  match completion run with
  | Ok data =>
      match upload_then rt file data p with
      | (Ok _, p') => (p', attempts run)
      | (Throw err, p') => (upload_catch rt err p', attempts run)
      end
  | Throw err => (upload_catch rt err p, attempts run)
  end.

(** [handleFiles(files)] *)
Definition handleFiles (rt : Runtime) (net : network) (files : list File)
    (p : Page) : Page * nat :=
  match files with
  | [] => (p, 0%nat)
  | file :: _ =>
      if negb (has_accepted_extension (file_name file)) then
        (showError (VStr "Please upload a .csv or .xlsx file.") p, 0%nat)
      else if (max_size <? file_size file)%N then
        (showError (VStr "File size must be under 10MB.") p, 0%nat)
      else uploadFile rt net file p
  end.

End Part004.

(* ===================================================================== *)
(** ** The summary page: state shared by the two versions of its script *)
(* ===================================================================== *)

Module SummaryPage.

(** The DataTables widget bound to #columns-table: the rows it holds, and
    whether its API calls throw. *)
Record DataTable : Type := mkDataTable {
  dt_rows : list (list value);
  dt_throws : bool
}.

(** One chart card: the text of its title and the base64 text of its
    image source. *)
Record Card : Type := mkCard { title : string; src : string }.

(** The content of #charts-container: the markup of the page as loaded,
    a sequence of cards, or the notice that no chart could be generated. *)
Inductive ChartsHtml : Type :=
| InitialMarkup
| Cards (cards : list Card)
| NoChartsNotice.

(** The page as the script sees it.  [dataTableInstance] is the
    module-level variable ([None] for [null]); [$.fn.dataTable.isDataTable]
    holds of the table exactly when an instance was created on it;
    [tbody] keeps one list of cell markups per row of the plain table. *)
Record Page : Type := mkPage {
  status_text : string;
  status_danger : bool;
  card_columns : string;
  card_rows : string;
  card_missing : string;
  card_size : string;
  tbody : list (list string);
  dataTableInstance : option DataTable;
  plugin_loaded : bool;
  type_options : list string;
  charts_container : ChartsHtml;
  charts_display : string;
  download_cleaned_display : string;
  upload_disabled : bool;
  banner : bool;
  console : list string
}.

Definition set_status_text (x : string) (p : Page) : Page :=
  mkPage x (status_danger p) (card_columns p) (card_rows p) (card_missing p)
    (card_size p) (tbody p) (dataTableInstance p) (plugin_loaded p) (type_options p)
    (charts_container p) (charts_display p) (download_cleaned_display p) (upload_disabled p) (banner p) (console p).

Definition set_status_danger (x : bool) (p : Page) : Page :=
  mkPage (status_text p) x (card_columns p) (card_rows p) (card_missing p)
    (card_size p) (tbody p) (dataTableInstance p) (plugin_loaded p) (type_options p)
    (charts_container p) (charts_display p) (download_cleaned_display p) (upload_disabled p) (banner p) (console p).

Definition set_card_columns (x : string) (p : Page) : Page :=
  mkPage (status_text p) (status_danger p) x (card_rows p) (card_missing p)
    (card_size p) (tbody p) (dataTableInstance p) (plugin_loaded p) (type_options p)
    (charts_container p) (charts_display p) (download_cleaned_display p) (upload_disabled p) (banner p) (console p).

Definition set_card_rows (x : string) (p : Page) : Page :=
  mkPage (status_text p) (status_danger p) (card_columns p) x (card_missing p)
    (card_size p) (tbody p) (dataTableInstance p) (plugin_loaded p) (type_options p)
    (charts_container p) (charts_display p) (download_cleaned_display p) (upload_disabled p) (banner p) (console p).

Definition set_card_missing (x : string) (p : Page) : Page :=
  mkPage (status_text p) (status_danger p) (card_columns p) (card_rows p) x
    (card_size p) (tbody p) (dataTableInstance p) (plugin_loaded p) (type_options p)
    (charts_container p) (charts_display p) (download_cleaned_display p) (upload_disabled p) (banner p) (console p).

Definition set_card_size (x : string) (p : Page) : Page :=
  mkPage (status_text p) (status_danger p) (card_columns p) (card_rows p) (card_missing p)
    x (tbody p) (dataTableInstance p) (plugin_loaded p) (type_options p)
    (charts_container p) (charts_display p) (download_cleaned_display p) (upload_disabled p) (banner p) (console p).

Definition set_tbody (x : list (list string)) (p : Page) : Page :=
  mkPage (status_text p) (status_danger p) (card_columns p) (card_rows p) (card_missing p)
    (card_size p) x (dataTableInstance p) (plugin_loaded p) (type_options p)
    (charts_container p) (charts_display p) (download_cleaned_display p) (upload_disabled p) (banner p) (console p).

Definition set_dataTableInstance (x : option DataTable) (p : Page) : Page :=
  mkPage (status_text p) (status_danger p) (card_columns p) (card_rows p) (card_missing p)
    (card_size p) (tbody p) x (plugin_loaded p) (type_options p)
    (charts_container p) (charts_display p) (download_cleaned_display p) (upload_disabled p) (banner p) (console p).

Definition set_type_options (x : list string) (p : Page) : Page :=
  mkPage (status_text p) (status_danger p) (card_columns p) (card_rows p) (card_missing p)
    (card_size p) (tbody p) (dataTableInstance p) (plugin_loaded p) x
    (charts_container p) (charts_display p) (download_cleaned_display p) (upload_disabled p) (banner p) (console p).

Definition set_charts_container (x : ChartsHtml) (p : Page) : Page :=
  mkPage (status_text p) (status_danger p) (card_columns p) (card_rows p) (card_missing p)
    (card_size p) (tbody p) (dataTableInstance p) (plugin_loaded p) (type_options p)
    x (charts_display p) (download_cleaned_display p) (upload_disabled p) (banner p) (console p).

Definition set_charts_display (x : string) (p : Page) : Page :=
  mkPage (status_text p) (status_danger p) (card_columns p) (card_rows p) (card_missing p)
    (card_size p) (tbody p) (dataTableInstance p) (plugin_loaded p) (type_options p)
    (charts_container p) x (download_cleaned_display p) (upload_disabled p) (banner p) (console p).

Definition set_download_cleaned_display (x : string) (p : Page) : Page :=
  mkPage (status_text p) (status_danger p) (card_columns p) (card_rows p) (card_missing p)
    (card_size p) (tbody p) (dataTableInstance p) (plugin_loaded p) (type_options p)
    (charts_container p) (charts_display p) x (upload_disabled p) (banner p) (console p).

Definition set_upload_disabled (x : bool) (p : Page) : Page :=
  mkPage (status_text p) (status_danger p) (card_columns p) (card_rows p) (card_missing p)
    (card_size p) (tbody p) (dataTableInstance p) (plugin_loaded p) (type_options p)
    (charts_container p) (charts_display p) (download_cleaned_display p) x (banner p) (console p).

Definition set_banner (x : bool) (p : Page) : Page :=
  mkPage (status_text p) (status_danger p) (card_columns p) (card_rows p) (card_missing p)
    (card_size p) (tbody p) (dataTableInstance p) (plugin_loaded p) (type_options p)
    (charts_container p) (charts_display p) (download_cleaned_display p) (upload_disabled p) x (console p).

Definition log (line : string) (p : Page) : Page :=
  mkPage (status_text p) (status_danger p) (card_columns p) (card_rows p) (card_missing p)
    (card_size p) (tbody p) (dataTableInstance p) (plugin_loaded p) (type_options p)
    (charts_container p) (charts_display p) (download_cleaned_display p) (upload_disabled p) (banner p) (console p ++ [line]).

Definition M (A : Type) : Type := Eff.M Page A.

(** [status.textContent = msg; status.classList.add('text-danger')] *)
Definition status_error (msg : value) (p : Page) : Page :=
  set_status_danger true (set_status_text (textContent_of msg) p).

(** [$('#columns-table').DataTable({...})]: the widget takes the rows of
    the body as its data. *)
Definition new_DataTable (p : Page) : DataTable :=
  mkDataTable (map (map VStr) (tbody p)) false.

(** [dataTableInstance && $.fn.dataTable && $.fn.dataTable.isDataTable(...)] *)
Definition table_is_live (p : Page) : option DataTable :=
  match dataTableInstance p with
  | Some dt => if plugin_loaded p then Some dt else None
  | None => None
  end.

(** [clear(); rows.add(rows); draw(false)] on the widget. *)
Definition dt_replace (dt : DataTable) (rows : list (list value)) : M unit :=
  if dt_throws dt then lift (Throw (newError "DataTables API failure"))
  else modify (set_dataTableInstance (Some (mkDataTable rows (dt_throws dt)))).

(** SameValueZero, the equality of [Set]: objects and arrays are equal
    only to themselves, and two members of a parsed payload are never the
    same object. *)
Definition same_value (a b : value) : bool :=
  match a, b with
  | VUndefined, VUndefined => true
  | VNull, VNull => true
  | VBool x, VBool y => Bool.eqb x y
  | VNum NaN, VNum NaN => true
  | VNum (Int x), VNum (Int y) => (x =? y)%Z
  | VStr x, VStr y => (x =? y)%string
  | _, _ => false
  end.

(** The members of [new Set(l)] in insertion order. *)
Fixpoint set_of (seen l : list value) : list value :=
  match l with
  | [] => []
  | x :: rest =>
      if existsb (same_value x) seen then set_of seen rest
      else x :: set_of (x :: seen) rest
  end.

(** The table as rendered: the rows of the plain body and the widget with
    the rows it holds. *)
Definition table_view (p : Page) : list (list string) * option DataTable :=
  (tbody p, dataTableInstance p).

End SummaryPage.

(* ===================================================================== *)
(** ** The summary page script, four-column table *)
(* ===================================================================== *)

Module Part000.
Import SummaryPage.
Local Open Scope page_scope.

(** [fetchSummary()]: one plain [fetch] of /summary-data.  [None] when the
    request never settles; otherwise the value returned and the page, to
    which only a console line may have been added. *)
Definition fetchSummary (rt : Runtime) (o : outcome) (p : Page)
    : option (value * Page) :=
  match fetch_plain o with
  | None => None
  | Some (fetched, _) =>
      let body :=
        bind fetched (fun res =>
        if negb (ok res) then
          Throw (newError ("Server returned " ++ N_to_string (status res)))
        else
          bind (parse rt (text res)) (fun payload =>
          bind (get payload "success") (fun success =>
          if negb (truthy success) then
            bind (get payload "error") (fun e =>
            Throw (newError (toString (or_else e (VStr "No summary")))))
          else get payload "summary"))) in
      match body with
      | Ok summary => Some (summary, p)
      | Throw err => Some (VNull, log ("Failed to fetch summary: " ++ message err) p)
      end
  end.

(** [populateCards(summary)] *)
Definition populateCards (rt : Runtime) (summary : value) : M unit :=
  shape <- lift (get summary "shape") ;;
  ncols <- lift (index shape 1) ;;
  modify (set_card_columns (textContent_of ncols)) ;;;
  shape <- lift (get summary "shape") ;;
  nrows <- lift (index shape 0) ;;
  t <- lift (toLocale rt nrows) ;;
  modify (set_card_rows t) ;;;
  mv <- lift (get summary "missing_values") ;;
  modify (set_card_missing (toLocaleString rt (sum_numbers rt (or_else mv (VObj []))))) ;;;
  fi <- lift (get summary "file_info") ;;
  v <- (if truthy fi then lift (get fi "size_readable") else ret (VStr "-")) ;;
  modify (set_card_size (textContent_of v)).

(** [m ? (m[col] || dflt) : dflt] for a per-column map [m] of the summary. *)
Definition column_entry (m col dflt : value) : value :=
  if truthy m then
    or_else (match get m (toString col) with Ok v => v | Throw _ => VUndefined end) dflt
  else dflt.

(** The callback of [cols.map]: [[col, String(dtype), String(missing),
    String(unique)]]. *)
Definition row_of (summary col : value) : result (list value) :=
  bind (get summary "data_types") (fun dts =>
  bind (get summary "missing_values") (fun mvs =>
  bind (get summary "unique_counts") (fun ucs =>
  Ok [col;
      VStr (toString (column_entry dts col (VStr "")));
      VStr (toString (column_entry mvs col (VNum (Int 0))));
      VStr (toString (column_entry ucs col (VNum (Int 0))))]))).

(** [summaryToRows(summary)] *)
Definition summaryToRows (summary : value) : result (list (list value)) :=
  bind (get summary "columns") (fun c =>
  bind (as_array (or_else c (VArr []))) (fun cols =>
  mapM (row_of summary) cols)).

(** The markup of a row of the plain table: the four escaped cells. *)
Definition tr_of (r : list value) : list string :=
  [Html.escapeHtml_value (nth 0 r VUndefined);
   Html.escapeHtml_value (nth 1 r VUndefined);
   Html.escapeHtml_value (nth 2 r VUndefined);
   Html.escapeHtml_value (nth 3 r VUndefined)].

(** [buildTable(summary)] *)
Definition buildTable (summary : value) : M unit :=
  rows <- lift (summaryToRows summary) ;;
  done <- try_
    (live <- read table_is_live ;;
     match live with
     | Some dt => dt_replace dt rows ;;; ret true
     | None => ret false
     end)
    (fun e =>
       modify (log ("DataTable update failed, falling back to DOM rebuild: "
                    ++ message e)) ;;; ret false) ;;
  if done then ret tt
  else
    modify (set_tbody []) ;;;
    modify (set_tbody (map tr_of rows)).

(** [populateTypeFilter(summary)] *)
Definition populateTypeFilter (summary : value) : M unit :=
  dts <- lift (get summary "data_types") ;;
  let types := set_of [] (values (or_else dts (VObj []))) in
  modify (set_type_options []) ;;;
  modify (set_type_options (map textContent_of types)).

(** What one call of [uploadFileAndRefresh] leaves: the page, the value
    returned ([None] when the request never settles), the requests sent
    to /upload and the milliseconds waited for the response. *)
Record Upload : Type := mkUpload {
  page : Page;
  returned : option value;
  requests : nat;
  waited : N
}.

(** [uploadFileAndRefresh(file)] *)
Definition uploadFileAndRefresh (rt : Runtime) (o : outcome) (p : Page) : Upload :=
  let p := set_status_text "Uploading..." p in
  match fetch_plain o with
  | None => mkUpload p None 1 0
  | Some (Throw err, t) =>
      let p := log ("Upload error: " ++ message err) p in
      let p := status_error (or_else (VStr (message err)) (VStr "Upload failed")) p in
      mkUpload p (Some VNull) 1 t
  | Some (Ok res, t) =>
      let payload :=
        match (if text res =? "" then Ok VNull else parse rt (text res)) with
        | Ok v => v
        | Throw _ => VStr (text res)
        end in
      let perror := match get payload "error" with Ok v => v | Throw _ => VUndefined end in
      let psuccess := match get payload "success" with Ok v => v | Throw _ => VUndefined end in
      if negb (ok res) then
        let msg := if truthy payload && truthy perror then perror
                   else VStr ("Server error " ++ N_to_string (status res)) in
        mkUpload (status_error msg p) (Some VNull) 1 t
      else if truthy payload && truthy psuccess then
        let p := set_status_danger false (set_status_text "Analysis complete" p) in
        let summary := match get payload "summary" with Ok v => v | Throw _ => VUndefined end in
        mkUpload p (Some summary) 1 t
      else
        mkUpload (status_error (VStr "Unexpected server response") p) (Some VNull) 1 t
  end.

(** The part of [init] up to the creation of the widget; the event
    handlers it registers are separate definitions.  [None] when
    /summary-data never settles. *)
Definition init (rt : Runtime) (o : outcome) (p : Page) : option (result unit * Page) :=
  match fetchSummary rt o p with
  | None => None
  | Some (summary, p) =>
      Some
        ((( if negb (truthy summary) then
              modify (set_card_columns "-") ;;;
              modify (set_card_rows "-") ;;;
              modify (set_card_missing "-") ;;;
              modify (set_card_size "-")
            else
              populateCards rt summary ;;;
              buildTable summary ;;;
              populateTypeFilter summary) ;;;
          loaded <- read plugin_loaded ;;
          if negb loaded then modify (set_banner true)
          else
            dt <- read new_DataTable ;;
            modify (set_dataTableInstance (Some dt))) p)
  end.

(** The click handler of #upload-btn, for the first file of the input
    ([None] when no file is selected): the page when the handler is done,
    its completion and the requests sent to /upload. *)
Definition upload_click (rt : Runtime) (o : outcome)
    (f : option UploadPage.File) (p : Page) : result unit * Page * nat :=
  match f with
  | None => (Ok tt, status_error (VStr "Please select a file") p, 0%nat)
  | Some _ =>
      let p := set_upload_disabled true p in
      let up := uploadFileAndRefresh rt o p in
      match returned up with
      | None => (Ok tt, page up, requests up)
      | Some newSummary =>
          let p := set_upload_disabled false (page up) in
          if truthy newSummary then
            let after :=
              (populateCards rt newSummary ;;;
               populateTypeFilter newSummary ;;;
               rows <- lift (summaryToRows newSummary) ;;
               try_
                 (live <- read table_is_live ;;
                  match live with
                  | Some dt => dt_replace dt rows
                  | None =>
                      modify (set_tbody []) ;;;
                      modify (set_tbody (map tr_of rows)) ;;;
                      loaded <- read plugin_loaded ;;
                      if loaded then
                        dt <- read new_DataTable ;;
                        modify (set_dataTableInstance (Some dt))
                      else lift (Throw (TypeError "DataTable is not a function"))
                  end)
                 (fun e =>
                    modify (log ("Error updating DataTable after upload: " ++ message e)) ;;;
                    buildTable newSummary)) p in
            (fst after, snd after, requests up)
          else (Ok tt, p, requests up)
      end
  end.

End Part000.

(* ===================================================================== *)
(** ** The summary page script with statistics and charts *)
(* ===================================================================== *)

Module Part005.
Import SummaryPage.
Local Open Scope page_scope.

(** [fetchSummary], [populateCards], [populateTypeFilter] and [escapeHtml]
    are the same text as in the four-column script. *)
Definition fetchSummary := Part000.fetchSummary.
Definition populateCards := Part000.populateCards.
Definition populateTypeFilter := Part000.populateTypeFilter.
Definition column_entry := Part000.column_entry.

(** [x ? x.toFixed(2) : "N/A"] *)
Definition fixed_or_na (x : value) : result value :=
  if truthy x then
    match x with
    | VNum n => Ok (VStr (toFixed2 n))
    | _ => Throw (TypeError "toFixed is not a function")
    end
  else Ok (VStr "N/A").

(** [x ? Number(x).toFixed(2) : "N/A"] *)
Definition Number_fixed_or_na (rt : Runtime) (x : value) : value :=
  if truthy x then VStr (toFixed2 (Number rt x)) else VStr "N/A".

(** [stats.k] for the truthy value [stats]. *)
Definition field (v : value) (k : string) : value :=
  match get v k with Ok x => x | Throw _ => VUndefined end.

(** The callback of [cols.map] in [buildTable]. *)
Definition row_of (summary col : value) : result (list value) :=
  bind (get summary "data_types") (fun dts =>
  bind (get summary "missing_values") (fun mvs =>
  bind (get summary "unique_counts") (fun ucs =>
  bind (get summary "descriptive_stats") (fun dss =>
  let stats := column_entry dss col (VObj []) in
  bind (fixed_or_na (field stats "mean")) (fun mean =>
  bind (fixed_or_na (field stats "median")) (fun median =>
  bind (fixed_or_na (field stats "std_dev")) (fun std_dev =>
  Ok [col;
      VStr (toString (column_entry dts col (VStr "")));
      VStr (toString (column_entry mvs col (VNum (Int 0))));
      VStr (toString (column_entry ucs col (VNum (Int 0))));
      mean; median; std_dev]))))))).

(** The callback of [cols.map] in [summaryToRows]. *)
Definition row_of_Number (rt : Runtime) (summary col : value) : result (list value) :=
  bind (get summary "data_types") (fun dts =>
  bind (get summary "missing_values") (fun mvs =>
  bind (get summary "unique_counts") (fun ucs =>
  bind (get summary "descriptive_stats") (fun dss =>
  let stats := column_entry dss col (VObj []) in
  Ok [col;
      VStr (toString (column_entry dts col (VStr "")));
      VStr (toString (column_entry mvs col (VNum (Int 0))));
      VStr (toString (column_entry ucs col (VNum (Int 0))));
      Number_fixed_or_na rt (field stats "mean");
      Number_fixed_or_na rt (field stats "median");
      Number_fixed_or_na rt (field stats "std_dev")])))).

(** The rows that [buildTable] computes before it touches the page. *)
Definition table_rows (summary : value) : result (list (list value)) :=
  bind (get summary "columns") (fun c =>
  bind (as_array (or_else c (VArr []))) (fun cols =>
  mapM (row_of summary) cols)).

(** [summaryToRows(summary)] *)
Definition summaryToRows (rt : Runtime) (summary : value) : result (list (list value)) :=
  bind (get summary "columns") (fun c =>
  bind (as_array (or_else c (VArr []))) (fun cols =>
  mapM (row_of_Number rt summary) cols)).

(** The markup of a row of the plain table in [buildTable]: seven cells. *)
Definition tr_of (r : list value) : list string :=
  map (fun i => Html.escapeHtml_value (nth i r VUndefined)) (seq 0 7).

(** The row markup of the upload handler: four cells. *)
Definition tr4_of (r : list value) : list string :=
  map (fun i => Html.escapeHtml_value (nth i r VUndefined)) (seq 0 4).

(** [buildTable(summary)] *)
Definition buildTable (summary : value) : M unit :=
  rows <- lift (table_rows summary) ;;
  done <- try_
    (live <- read table_is_live ;;
     match live with
     | Some dt => dt_replace dt rows ;;; ret true
     | None => ret false
     end)
    (fun e =>
       modify (log ("DataTable update failed, falling back to DOM rebuild: "
                    ++ message e)) ;;; ret false) ;;
  if done then ret tt
  else
    modify (set_tbody []) ;;;
    modify (set_tbody (map tr_of rows)).

(** The statistics of a valid summary are numbers: each of [mean],
    [median] and [std_dev] that is present and truthy for a column of
    [cols] is a number. *)
Definition numeric_stats (summary : value) (cols : list value) : Prop :=
  forall col k,
    In col cols -> In k ["mean"; "median"; "std_dev"] ->
    truthy (field (column_entry (field summary "descriptive_stats") col (VObj [])) k) = true ->
    exists n, field (column_entry (field summary "descriptive_stats") col (VObj [])) k = VNum n.

(** *** Chart selection *)

Definition MAX_CHARTS : nat := 4.

(** The local variables of the selection: the cards appended to
    [chartsHtml], [count] and [usedKeys]. *)
Record Selection : Type := mkSelection {
  chartsHtml : list Card;
  count : nat;
  usedKeys : list string
}.

Definition start : Selection := mkSelection [] 0 [].

(** [charts[k]] *)
Definition member (v : value) (k : string) : value :=
  match lookup k (entries v) with
  | Some x => x
  | None => VUndefined
  end.

(** [Object.keys(charts)] *)
Definition keys_of (charts : value) : list string := keys (entries charts).

(** [s.replace(pat, rep)] for a string pattern: the first occurrence. *)
Fixpoint replace_first (pat rep s : string) : string :=
  if String.prefix pat s then rep ++ drop (String.length pat) s
  else match s with
       | EmptyString => EmptyString
       | String a rest => String a (replace_first pat rep rest)
       end.

(** [s.replace(/__/g, ' vs ')] *)
Fixpoint replace_double_underscore (s : string) : string :=
  match s with
  | String "_" (String "_" rest) => " vs " ++ replace_double_underscore rest
  | String a rest => String a (replace_double_underscore rest)
  | EmptyString => EmptyString
  end.

(** A card appended by one of the four priority steps. *)
Definition use (c : Card) (key : string) (st : Selection) : Selection :=
  mkSelection (chartsHtml st ++ [c]) (S (count st)) (usedKeys st ++ [key]).

(** Step 1: the correlation heatmap. *)
Definition pick_heatmap (charts : value) (st : Selection) : Selection :=
  let v := member charts "correlation_heatmap" in
  if truthy v && (count st <? MAX_CHARTS)%nat then
    use (mkCard "Correlation Heatmap" (toString v)) "correlation_heatmap" st
  else st.

(** Step 2: the first key that starts with scatter__ . *)
Definition pick_scatter (charts : value) (st : Selection) : Selection :=
  if (count st <? MAX_CHARTS)%nat then
    match find (fun k => startsWith k "scatter__") (keys_of charts) with
    | Some scatterKey =>
        if negb (scatterKey =? "") then
          let title := replace_double_underscore (replace_first "scatter__" "" scatterKey) in
          use (mkCard title (toString (member charts scatterKey))) scatterKey st
        else st
    | None => st
    end
  else st.

(** The keys that steps 3 and 4 look at. *)
Definition candidates (charts : value) : list string :=
  filter (fun k => negb (startsWith k "scatter__") && negb (k =? "correlation_heatmap"))
         (keys_of charts).

(** Steps 3 and 4 are the same text up to the two chart types: the first
    candidate whose value is an object with one of them, the first type
    when it has it. *)
Definition pick_typed (first second : string) (charts : value) (st : Selection)
    : Selection :=
  if (count st <? MAX_CHARTS)%nat then
    match find (fun kv : string * value =>
                  let v := snd kv in
                  truthy v && is_object v &&
                  (truthy (member v first) || truthy (member v second)))
               (map (fun k => (k, member charts k)) (candidates charts)) with
    | Some (key, v) =>
        let type := if truthy (member v first) then first else second in
        use (mkCard (replace_char "_" " " key ++ " (" ++ type ++ ")")
                    (toString (member v type))) key st
    | None => st
    end
  else st.

(** Step 3: one numeric chart. *)
Definition pick_numeric := pick_typed "histogram" "boxplot".

(** Step 4: one categorical chart. *)
Definition pick_categorical := pick_typed "barh" "pie".

Definition pref : list string := ["histogram"; "boxplot"; "barh"; "pie"].

(** The image and the label the fallback loop computes for one key. *)
Definition fallback_card (charts : value) (key : string) : option Card :=
  let value := member charts key in
  let label := replace_char "_" " " key in
  let '(img, label) :=
    match value with
    | VStr _ => (value, label)
    | _ =>
        if truthy value && is_object value then
          match find (fun t => truthy (member value t)) pref with
          | Some t => (member value t, label ++ " (" ++ t ++ ")")
          | None => (VNull, label)
          end
        else (VNull, label)
    end in
  if truthy img then Some (mkCard label (toString img)) else None.

(** The [for (const key of keys)] loop of the fallback. *)
Fixpoint fill (charts : value) (ks : list string) (st : Selection) : Selection :=
  match ks with
  | [] => st
  | key :: rest =>
      if (MAX_CHARTS <=? count st)%nat then st
      else
        match fallback_card charts key with
        | Some c => fill charts rest (mkSelection (chartsHtml st ++ [c]) (S (count st)) (usedKeys st))
        | None => fill charts rest st
        end
  end.

(** The keys the fallback goes through. *)
Definition unused (charts : value) (st : Selection) : list string :=
  filter (fun k => negb (existsb (String.eqb k) (usedKeys st))) (keys_of charts).

Definition fallback (charts : value) (st : Selection) : Selection :=
  if (count st <? MAX_CHARTS)%nat then fill charts (unused charts st) st else st.

(** The selection of [displayCharts] for the [charts] of the payload. *)
Definition select (charts : value) : Selection :=
  fallback charts
    (pick_categorical charts
      (pick_numeric charts
        (pick_scatter charts
          (pick_heatmap charts start)))).

(** [displayCharts(filename)]: [None] when /charts never settles. *)
Definition displayCharts (rt : Runtime) (o : outcome) (p : Page) : option Page :=
  match fetch_plain o with
  | None => None
  | Some (fetched, _) =>
      let body :=
        bind fetched (fun res =>
        if negb (ok res) then
          Throw (newError ("Server returned " ++ N_to_string (status res)))
        else
          bind (parse rt (text res)) (fun payload =>
          bind (get payload "success") (fun success =>
          if negb (truthy success) then
            bind (get payload "error") (fun e =>
            Throw (newError (toString (or_else e (VStr "Chart generation failed")))))
          else get payload "charts"))) in
      match body with
      | Ok c =>
          let charts := or_else c (VObj []) in
          let p := set_charts_display "block" p in
          let cards := chartsHtml (select charts) in
          Some (set_charts_container
                  (match cards with [] => NoChartsNotice | _ => Cards cards end) p)
      | Throw err =>
          Some (set_charts_display "none"
                  (log ("Failed to fetch charts: " ++ message err) p))
      end
  end.

(** What one call of [uploadFileAndRefresh] leaves: the page, the value
    returned ([None] when a request never settles), the requests sent to
    /upload and to /charts, and the milliseconds waited for /upload. *)
Record Upload : Type := mkUpload {
  page : Page;
  returned : option value;
  requests : nat;
  chart_requests : nat;
  waited : N
}.

(** The [catch (err)] block of [uploadFileAndRefresh]. *)
Definition upload_failed (err : Error) (p : Page) : Page :=
  status_error (or_else (VStr (message err)) (VStr "Upload failed"))
    (log ("Upload error: " ++ message err) p).

(** [uploadFileAndRefresh(file)]; [o] is what the request to /upload
    meets and [oc] what the request to /charts meets. *)
Definition uploadFileAndRefresh (rt : Runtime) (o oc : outcome) (p : Page) : Upload :=
  let p := set_status_text "Uploading... please wait, this may take a moment..." p in
  match fetch_plain o with
  | None => mkUpload p None 1 0 0
  | Some (Throw err, t) => mkUpload (upload_failed err p) (Some VNull) 1 0 t
  | Some (Ok res, t) =>
      let payload :=
        match (if text res =? "" then Ok VNull else parse rt (text res)) with
        | Ok v => v
        | Throw _ => VStr (text res)
        end in
      if negb (ok res) then
        let msg := if truthy payload && truthy (field payload "error")
                   then field payload "error"
                   else VStr ("Server error " ++ N_to_string (status res)) in
        mkUpload (status_error msg p) (Some VNull) 1 0 t
      else if truthy payload && truthy (field payload "success") then
        let p := set_status_danger false (set_status_text "Analysis complete" p) in
        let summary := field payload "summary" in
        match (populateCards rt summary ;;;
               buildTable summary ;;;
               populateTypeFilter summary ;;;
               fi <- lift (get summary "file_info") ;;
               filename <- lift (get fi "filename") ;;
               ret filename) p with
        | (Throw err, p) => mkUpload (upload_failed err p) (Some VNull) 1 0 t
        | (Ok _, p) =>
            match displayCharts rt oc p with
            | None => mkUpload p None 1 1 t
            | Some p =>
                mkUpload (set_download_cleaned_display "block" p) (Some summary) 1 1 t
            end
        end
      else
        mkUpload (status_error (VStr "Unexpected server response") p) (Some VNull) 1 0 t
  end.

(** The click handler of #upload-btn (lines 395-437), for the first file
    of the input ([None] when no file is selected). *)
Definition upload_click (rt : Runtime) (o oc : outcome)
    (f : option UploadPage.File) (p : Page) : result unit * Page * nat :=
  match f with
  | None => (Ok tt, status_error (VStr "Please select a file") p, 0%nat)
  | Some _ =>
      let p := set_upload_disabled true p in
      let up := uploadFileAndRefresh rt o oc p in
      match returned up with
      | None => (Ok tt, page up, requests up)
      | Some newSummary =>
          let p := set_upload_disabled false (page up) in
          if truthy newSummary then
            let after :=
              (populateCards rt newSummary ;;;
               populateTypeFilter newSummary ;;;
               rows <- lift (summaryToRows rt newSummary) ;;
               try_
                 (live <- read table_is_live ;;
                  match live with
                  | Some dt => dt_replace dt rows
                  | None =>
                      modify (set_tbody []) ;;;
                      modify (set_tbody (map tr4_of rows)) ;;;
                      loaded <- read plugin_loaded ;;
                      if loaded then
                        dt <- read new_DataTable ;;
                        modify (set_dataTableInstance (Some dt))
                      else lift (Throw (TypeError "DataTable is not a function"))
                  end)
                 (fun e =>
                    modify (log ("Error updating DataTable after upload: " ++ message e)) ;;;
                    buildTable newSummary)) p in
            (fst after, snd after, requests up)
          else (Ok tt, p, requests up)
      end
  end.

End Part005.

(* ===================================================================== *)
(** ** Chart selection as the specification words it *)
(* ===================================================================== *)

Module ChartSpec.
Import SummaryPage Part005.

(** The description of the selection in the words of the specification,
    to be compared with [Part005.select]: at most one card for each of
    the four priorities, in their order, then the other returned charts
    in the order received, four cards at most.  A priority card is paired
    with the key it uses. *)

(** (1) The correlation heatmap, when the payload has one. *)
Definition heatmap (charts : value) : list (string * Card) :=
  if truthy (member charts "correlation_heatmap") then
    [("correlation_heatmap",
      mkCard "Correlation Heatmap" (toString (member charts "correlation_heatmap")))]
  else [].

(** (2) One scatter plot: the first key met that starts with scatter__ . *)
Definition scatter (charts : value) : list (string * Card) :=
  match find (fun k => startsWith k "scatter__") (keys_of charts) with
  | Some k =>
      [(k, mkCard (replace_double_underscore (replace_first "scatter__" "" k))
                  (toString (member charts k)))]
  | None => []
  end.

(** The entry [v] is an object that has a chart of type [t]. *)
Definition has_type (t : string) (v : value) : bool :=
  truthy v && is_object v && truthy (member v t).

(** (3) and (4) One chart of the preferred type, else of the other type,
    from the first entry that has either. *)
Definition preferred (first second : string) (charts : value) : list (string * Card) :=
  match find (fun k => has_type first (member charts k) || has_type second (member charts k))
             (candidates charts) with
  | Some k =>
      let t := if has_type first (member charts k) then first else second in
      [(k, mkCard (replace_char "_" " " k ++ " (" ++ t ++ ")")
                  (toString (member (member charts k) t)))]
  | None => []
  end.

Definition priority (charts : value) : list (string * Card) :=
  heatmap charts ++ scatter charts ++
  preferred "histogram" "boxplot" charts ++ preferred "barh" "pie" charts.

(** The other returned charts that can be shown, in the order received. *)
Definition others (charts : value) : list Card :=
  flat_map (fun k => match fallback_card charts k with Some c => [c] | None => [] end)
    (filter (fun k => negb (existsb (String.eqb k) (map fst (priority charts))))
            (keys_of charts)).


(** The local variables of [displayCharts] after the cards [l]. *)
Definition state_of (l : list (string * Card)) : Selection :=
  mkSelection (map snd l) (List.length l) (map fst l).

End ChartSpec.

(* ===================================================================== *)
(** ** Sample inputs used by the examples *)
(* ===================================================================== *)

Module Samples.

(** A JSON string literal for a string that needs no escape. *)
Definition quoted (s : string) : string := String dquote (s ++ String dquote "").

(** The JSON text of a value whose strings need no escape. *)
Fixpoint stringify (v : value) : string :=
  match v with
  | VUndefined | VNull | VNum NaN => "null"
  | VBool true => "true"
  | VBool false => "false"
  | VNum (Int z) => Z_to_string z
  | VStr s => quoted s
  | VArr items => "[" ++ join "," (map stringify items) ++ "]"
  | VObj fields =>
      "{" ++ join "," (map (fun '(k, x) => quoted k ++ ":" ++ stringify x) fields) ++ "}"
  end.

(** The payload of a failed upload whose [error] field is [disk full]. *)
Definition disk_full_json : value := VObj [("error", VStr "disk full")].

Definition disk_full_text : string := stringify disk_full_json.

(** The summary of the upload success example of the specification. *)
Definition partial_summary (sample_data : value) : value :=
  VObj [("shape", VArr [VNum (Int 100); VNum (Int 3)]);
        ("columns", VArr [VStr "a"; VStr "b"; VStr "c"]);
        ("data_types", VObj [("a", VStr "int64")]);
        ("missing_values", VObj []);
        ("unique_counts", VObj []);
        ("sample_data", sample_data)].

(** A summary without any of the per-column maps. *)
Definition bare_summary : value :=
  VObj [("shape", VArr [VNum (Int 1); VNum (Int 1)]);
        ("columns", VArr [VStr "a"]);
        ("sample_data", VArr [])].

Definition success_json : value :=
  VObj [("success", VBool true); ("summary", partial_summary (VArr []))].

Definition success_text : string := stringify success_json.

(** A payload that reports success with a summary that has no field. *)
Definition empty_summary_json : value :=
  VObj [("success", VBool true); ("summary", VObj [])].

(** A runtime whose [JSON.parse] reads back the texts of the sample
    payloads and rejects any other text; the other members are fixed and
    the browser is online. *)
Definition runtime : Runtime :=
  mkRuntime
    (fun s => find (fun v => stringify v =? s)
                   [disk_full_json; success_json; empty_summary_json])
    (fun _ => NaN)
    number_toString
    true.

(** HTTP 500 with the body [disk_full_text]. *)
Definition disk_full : Response := mkResponse 500 "Internal Server Error" disk_full_text.

(** HTTP 200 with the body [success_text]. *)
Definition success : Response := mkResponse 200 "OK" success_text.

(** An upload page that holds an earlier summary. *)
Definition upload_page : UploadPage.Page :=
  UploadPage.mkPage (VStr "earlier summary") (VStr "old.csv") "" true true false
    None None None None ["1"; "1"; "1 KB"] [] [] [] [].

(** A summary page before any upload. *)
Definition summary_page : SummaryPage.Page :=
  SummaryPage.mkPage "" false "-" "-" "-" "-" [] None true [] SummaryPage.InitialMarkup
    "" "none" false false [].

Definition txt_file : UploadPage.File := UploadPage.mkFile "x.txt" 100.
Definition csv_file : UploadPage.File := UploadPage.mkFile "data.csv" (9 * 1024 * 1024).
Definition big_csv_file : UploadPage.File := UploadPage.mkFile "data.csv" (11 * 1024 * 1024).

(** The charts payload of the chart selection example of the
    specification. *)
Definition charts : value :=
  VObj [("correlation_heatmap", VStr "H");
        ("scatter__a__b", VStr "S1");
        ("scatter__c__d", VStr "S2");
        ("age", VObj [("histogram", VStr "HI")])].

End Samples.

(* ===================================================================== *)
(** ** Report download and the analyze button of the upload page *)
(* ===================================================================== *)

Module Part004Handlers.
Import UploadPage Part004.

(** The body of a response as a [Blob]. *)
Record Blob : Type := mkBlob { blob_text : string }.

(** Lines 251-256 of [fetchBlobWithTimeoutAndRetries]: a response that is
    not ok throws its text, or the status line when the text is empty;
    an ok response gives its blob. *)
Definition read_blob (res : Response) : result Blob :=
  if negb (ok res) then
    Throw (newError (if negb (text res =? "") then text res
                     else server_error_line res))
  else Ok (mkBlob (text res)).

Record BlobRun : Type := mkBlobRun {
  blob_completion : result Blob;
  blob_attempts : nat;
  blob_waited : N
}.

(** The completion of one iteration of the blob loop on the outcome [o]. *)
Definition blob_result (timeout : N) (o : outcome) : result Blob :=
  bind (fst (fetch_with_abort o timeout)) read_blob.

(** The loop of [fetchBlobWithTimeoutAndRetries]; [fuel] is
    [retries + 1 - attempt]. *)
Fixpoint blob_loop (timeout : N) (retries : nat)
    (fuel attempt : nat) (lastErr : option Error) (net : network) : BlobRun :=
  match fuel with
  | O =>
      mkBlobRun (Throw (match lastErr with
                        | Some e => e
                        | None => newError "Unknown network error"
                        end)) 0 0
  | S fuel' =>
      let (fetched, t) := fetch_with_abort (next net) timeout in
      match bind fetched read_blob with
      | Ok blob => mkBlobRun (Ok blob) 1 t
      | Throw err =>
          if is_abort_or_timeout err && (attempt <? retries)%nat then
            let r := blob_loop timeout retries fuel' (S attempt) (Some err) (tl net) in
            mkBlobRun (blob_completion r) (S (blob_attempts r)) (t + blob_waited r)
          else if (attempt <? retries)%nat then
            let r := blob_loop timeout retries fuel' (S attempt) (Some err) (tl net) in
            mkBlobRun (blob_completion r) (S (blob_attempts r)) (t + blob_waited r)
          else mkBlobRun (Throw err) 1 t
      end
  end.

(** [fetchBlobWithTimeoutAndRetries(url, options, timeout, retries)] *)
Definition fetchBlobWithTimeoutAndRetries (net : network)
    (timeout : N) (retries : nat) : BlobRun :=
  blob_loop timeout retries (S retries) 0 None net.

(** A file saved through a temporary link: [a.download] and the blob
    behind [a.href]. *)
Record Download : Type := mkDownload {
  download_name : string;
  download_body : Blob
}.

(** [`EDA_Report_${iso.slice(0,19).replace(/:/g,'')}.html`] for the text
    [iso] of [new Date().toISOString()]. *)
Definition report_name (iso : string) : string :=
  "EDA_Report_" ++ replace_char ":" "" (substring 0 19 iso) ++ ".html".

(** The [onclick] handler of the report button (lines 167-189): the page,
    the files saved and the requests sent to /report.  [iso] is the clock
    reading taken when the blob arrives. *)
Definition report_click (rt : Runtime) (iso : string) (net : network) (p : Page)
    : Page * list Download * nat :=
  let run := fetchBlobWithTimeoutAndRetries net 30000 1 in
  match blob_completion run with
  | Ok blob => (p, [mkDownload (report_name iso) blob], blob_attempts run)
  | Throw err =>
      let p := log ("Report download error: " ++ message err) p in
      (if negb (onLine rt) then
         showError (VStr "No network connection. Please check your internet and try again.") p
       else
         showError (or_else (VStr (message err))
                            (VStr "Failed to generate report. Please try again.")) p,
       [], blob_attempts run)
  end.


End Part004Handlers.

(* ===================================================================== *)
(** ** Report download of the Phase-1 script *)
(* ===================================================================== *)

Module ScriptJsHandlers.
Import UploadPage Part004Handlers.

(** The [onclick] handler of the report button (lines 121-135): one plain
    [fetch] of /report, [res.blob()] of whatever answers, no [catch].
    The files saved and whether the promise chain ends rejected ([None]
    when the request never settles). *)
Definition report_click (iso : string) (o : outcome)
    : list Download * option (result unit) :=
  match fetch_plain o with
  | None => ([], None)
  | Some (Throw e, _) => ([], Some (Throw e))
  | Some (Ok res, _) =>
      ([mkDownload (report_name iso) (mkBlob (text res))], Some (Ok tt))
  end.

End ScriptJsHandlers.

(* ===================================================================== *)
(** ** Filter by missing values and download of the cleaned file *)
(* ===================================================================== *)

Module Part005Handlers.
Import SummaryPage Part004Handlers.

(** An entry of [$.fn.dataTable.ext.search]: the [name] of the function
    and what it answers for the cell texts of a row. *)
Record Filter : Type := mkFilter {
  filter_name : string;
  passes : list value -> bool
}.

(** The function [missingFilter] for the bound [max] of the input:
    [(Number(data[2]) || 0) <= Number(max)]. *)
Definition missingFilter (rt : Runtime) (max : string) (data : list value) : bool :=
  match Number rt (VStr max) with
  | NaN => false
  | Int bound => (Number_or_0 rt (nth 2 data VUndefined) <=? bound)%Z
  end.

(** [ext.search.filter(f => f.name !== 'missingFilter')] *)
Definition without_missingFilter (search : list Filter) : list Filter :=
  filter (fun f => negb (filter_name f =? "missingFilter")) search.

(** The [input] handler of #filter-missing (lines 373-390): the new
    content of [ext.search] for the text [max] of the input. *)
Definition filter_missing_input (rt : Runtime) (max : string) (search : list Filter)
    : list Filter :=
  if max =? "" then without_missingFilter search
  else (without_missingFilter search ++ [mkFilter "missingFilter" (missingFilter rt max)])%list.

(** The entries of [ext.search] that carry the name of the filter. *)
Definition named_missingFilter (search : list Filter) : list Filter :=
  filter (fun f => filter_name f =? "missingFilter") search.

(** What the click handler of #download-cleaned-btn leaves (lines
    441-468): the alerts shown, the console, the files saved, the
    requests sent to /download-cleaned, and its completion ([None] when a
    request never settles). *)
Record Cleaned : Type := mkCleaned {
  alerts : list string;
  cleaned_page : Page;
  downloads : list Download;
  cleaned_requests : nat;
  cleaned_completion : option (result unit)
}.

(** The handler; [os] is what /summary-data meets and [od] what
    /download-cleaned meets. *)
Definition download_cleaned_click (rt : Runtime) (os od : outcome) (p : Page) : Cleaned :=
  match Part005.fetchSummary rt os p with
  | None => mkCleaned [] p [] 0 None
  | Some (summary, p) =>
      if negb (truthy summary) then
        mkCleaned ["No summary available. Please analyze a file first."] p [] 0 (Some (Ok tt))
      else
        match bind (get summary "file_info") (fun fi => get fi "filename") with
        | Throw e => mkCleaned [] p [] 0 (Some (Throw e))
        | Ok filename =>
            match fetch_plain od with
            | None => mkCleaned [] p [] 1 None
            | Some (fetched, _) =>
                match bind fetched (fun res =>
                        if negb (ok res) then
                          Throw (newError ("Server returned " ++ N_to_string (status res)))
                        else Ok (mkBlob (text res))) with
                | Ok blob =>
                    mkCleaned [] p [mkDownload ("cleaned_" ++ toString filename) blob] 1
                              (Some (Ok tt))
                | Throw err =>
                    mkCleaned ["Failed to download cleaned file."]
                              (log ("Download error: " ++ message err) p) [] 1 (Some (Ok tt))
                end
            end
        end
  end.

End Part005Handlers.

(* ===================================================================== *)
(** ** Predicates used to state properties of the scripts *)
(* ===================================================================== *)

Module Props.

(** The statement [c] leaves the part [proj] of the state as it was,
    whether it completes or throws. *)
Definition keeps {S A B : Type} (proj : S -> B) (c : Eff.M S A) : Prop :=
  forall s, proj (snd (c s)) = proj s.

(** Neither [null] nor [undefined]: a value whose properties can be read. *)
Definition readable (v : value) : Prop := v <> VUndefined /\ v <> VNull.

(** The file passes the two checks of [handleFiles]. *)
Definition accepted (file : UploadPage.File) : Prop :=
  UploadPage.has_accepted_extension (UploadPage.file_name file) = true /\
  (UploadPage.file_size file <= UploadPage.max_size)%N.

(** A cell that cannot open markup: the placeholder of a missing value,
    or a text without any of the markup characters. *)
Definition safe_cell (cell : string) : Prop :=
  cell = "<em>null</em>" \/
  forall c, In c Html.markup_chars -> Html.occurs c cell = false.


(** The value is a string. *)
Definition is_string (v : value) : Prop := exists s, v = VStr s.

End Props.

(* ===================================================================== *)
(** ** Properties of the escaping *)
(* ===================================================================== *)

Section EscapeFacts.
Import Html.

Lemma append_assoc (s t u : string) : (s ++ t) ++ u = s ++ (t ++ u).
Proof. induction s as [|a s IH]; simpl; [reflexivity | now rewrite IH]. Qed.

Lemma append_nil_r (s : string) : s ++ "" = s.
Proof. induction s as [|a s IH]; simpl; [reflexivity | now rewrite IH]. Qed.

Lemma replace_char_app c rep s t :
  replace_char c rep (s ++ t) = replace_char c rep s ++ replace_char c rep t.
Proof.
  induction s as [|a s IH]; simpl; [reflexivity|].
  destruct (Ascii.eqb a c); simpl; rewrite IH.
  - now rewrite append_assoc.
  - reflexivity.
Qed.

Lemma escapeHtml_cons a s :
  escapeHtml (String a s) = escape_char a ++ escapeHtml s.
Proof.
  unfold escapeHtml, escape_char.
  cbn [replace_char].
  destruct (Ascii.eqb_spec a "&") as [->|Hamp].
  { rewrite !replace_char_app. reflexivity. }
  cbn [replace_char].
  destruct (Ascii.eqb_spec a "<") as [->|Hlt].
  { rewrite !replace_char_app. reflexivity. }
  cbn [replace_char].
  destruct (Ascii.eqb_spec a ">") as [->|Hgt].
  { rewrite !replace_char_app. reflexivity. }
  cbn [replace_char].
  destruct (Ascii.eqb_spec a dquote) as [->|Hdq].
  { rewrite !replace_char_app. reflexivity. }
  cbn [replace_char].
  destruct (Ascii.eqb_spec a "'") as [->|Hsq].
  { reflexivity. }
  reflexivity.
Qed.

Lemma occurs_app c s t : occurs c (s ++ t) = occurs c s || occurs c t.
Proof.
  induction s as [|a s IH]; simpl; [reflexivity|].
  now rewrite IH, orb_assoc.
Qed.

Lemma escape_char_no_markup a c :
  In c markup_chars -> occurs c (escape_char a) = false.
Proof.
  intros Hc. unfold escape_char.
  destruct (Ascii.eqb_spec a "&") as [->|Hamp];
    [simpl in Hc; decompose [or] Hc; subst; try reflexivity; contradiction|].
  destruct (Ascii.eqb_spec a "<") as [->|Hlt];
    [simpl in Hc; decompose [or] Hc; subst; try reflexivity; contradiction|].
  destruct (Ascii.eqb_spec a ">") as [->|Hgt];
    [simpl in Hc; decompose [or] Hc; subst; try reflexivity; contradiction|].
  destruct (Ascii.eqb_spec a dquote) as [->|Hdq];
    [simpl in Hc; decompose [or] Hc; subst; try reflexivity; contradiction|].
  destruct (Ascii.eqb_spec a "'") as [->|Hsq];
    [simpl in Hc; decompose [or] Hc; subst; try reflexivity; contradiction|].
  simpl. rewrite orb_false_r.
  simpl in Hc; decompose [or] Hc; subst;
    try (apply Ascii.eqb_neq; assumption); contradiction.
Qed.

Lemma escapeHtml_no_markup s c :
  In c markup_chars -> occurs c (escapeHtml s) = false.
Proof.
  intros Hc. induction s as [|a s IH]; [reflexivity|].
  rewrite escapeHtml_cons, occurs_app, IH, escape_char_no_markup; auto.
Qed.

Lemma prefix_nil t : String.prefix "" t = true.
Proof. now destruct t. Qed.

Lemma amp_ok_escape_char a t :
  amp_ok t = true -> amp_ok (escape_char a ++ t) = true.
Proof.
  intros Ht. unfold escape_char.
  destruct (Ascii.eqb_spec a "&") as [->|Hamp];
    [simpl; now rewrite ?prefix_nil, Ht|].
  destruct (Ascii.eqb_spec a "<") as [->|Hlt];
    [simpl; now rewrite ?prefix_nil, Ht|].
  destruct (Ascii.eqb_spec a ">") as [->|Hgt];
    [simpl; now rewrite ?prefix_nil, Ht|].
  destruct (Ascii.eqb_spec a dquote) as [->|Hdq];
    [simpl; now rewrite ?prefix_nil, Ht|].
  destruct (Ascii.eqb_spec a "'") as [->|Hsq];
    [simpl; now rewrite ?prefix_nil, Ht|].
  cbn [append amp_ok].
  apply Ascii.eqb_neq in Hamp. rewrite Hamp. simpl. exact Ht.
Qed.

Lemma escapeHtml_amp_ok s : amp_ok (escapeHtml s) = true.
Proof.
  induction s as [|a s IH]; [reflexivity|].
  rewrite escapeHtml_cons. now apply amp_ok_escape_char.
Qed.

Lemma amp_ok_split s :
  amp_ok s = true ->
  forall pre post, s = pre ++ String "&" post ->
    exists e, In e entity_tails /\ String.prefix e post = true.
Proof.
  intros Hok pre. revert s Hok.
  induction pre as [|b pre IH]; intros s Hok post ->.
  - cbn [append amp_ok] in Hok.
    apply andb_prop in Hok as [Hhead _].
    rewrite Ascii.eqb_refl in Hhead. cbn [negb orb] in Hhead.
    apply existsb_exists in Hhead. exact Hhead.
  - cbn [append amp_ok] in Hok.
    apply andb_prop in Hok as [_ Hrest].
    exact (IH _ Hrest post eq_refl).
Qed.

Lemma occurs_false_not_In c s :
  occurs c s = false -> ~ In c (list_ascii_of_string s).
Proof.
  induction s as [|a s IH]; simpl; [tauto|].
  intros H. apply orb_false_elim in H as [Ha Hs].
  intros [->|Hin]; [now rewrite Ascii.eqb_refl in Ha | now apply IH].
Qed.

End EscapeFacts.

(** C9. For every input string, [escapeHtml] returns a string in which none
    of the characters <, >, double quote and single quote occurs, and every
    ampersand of the output is the start of one of the entities &amp; &lt;
    &gt; &quot; &#39; (what follows it begins with amp; lt; gt; quot; or
    #39;).  The ampersand pass runs first, so the ampersands the later
    passes introduce are not escaped again: the output is the
    concatenation of the per-character images. *)
Theorem escapeHtml_neutralises_markup :
  forall str : string,
    (forall c, In c Html.markup_chars ->
       ~ In c (list_ascii_of_string (Html.escapeHtml str))) /\
    (forall pre post, Html.escapeHtml str = pre ++ String "&" post ->
       exists e, In e Html.entity_tails /\ String.prefix e post = true) /\
    (forall a rest, Html.escapeHtml (String a rest) =
       Html.escape_char a ++ Html.escapeHtml rest).
Proof.
  intros str. split; [|split].
  - intros c Hc. apply occurs_false_not_In. now apply escapeHtml_no_markup.
  - apply amp_ok_split. apply escapeHtml_amp_ok.
  - intros a rest. apply escapeHtml_cons.
Qed.

(* ===================================================================== *)
(** ** The retry loop *)
(* ===================================================================== *)

Section RetryFacts.
Import Part004.
Variable rt : Runtime.
Variable timeout : N.

Lemma fetch_with_abort_bounded o :
  (snd (fetch_with_abort o timeout) <= timeout)%N.
Proof.
  destruct o as [after res|after e|]; simpl.
  - destruct (N.ltb_spec after timeout); simpl; lia.
  - destruct (N.ltb_spec after timeout); simpl; lia.
  - lia.
Qed.

Lemma attempt_loop_step retries fuel attempt lastErr net :
  attempt_loop rt timeout retries (S fuel) attempt lastErr net =
  match attempt_result rt timeout (next net) with
  | Ok v => mkRun (Ok v) 1 (snd (fetch_with_abort (next net) timeout))
  | Throw err =>
      if (attempt <? retries)%nat then
        let r := attempt_loop rt timeout retries fuel (S attempt) (Some err) (tl net) in
        mkRun (completion r) (S (attempts r))
              (snd (fetch_with_abort (next net) timeout) + fetch_waited r)
      else mkRun (Throw err) 1 (snd (fetch_with_abort (next net) timeout))
  end.
Proof.
  unfold attempt_result. cbn [attempt_loop].
  destruct (fetch_with_abort (next net) timeout) as [fetched t]. cbn [fst snd].
  destruct (bind fetched (read_body rt)) as [v|err]; [reflexivity|].
  destruct (is_abort_or_timeout err); cbn [andb];
    destruct (attempt <? retries)%nat; reflexivity.
Qed.

Lemma nth_tl (net : network) j : nth j (tl net) Hangs = nth (S j) net Hangs.
Proof. destruct net; [destruct j|]; reflexivity. Qed.

Lemma next_nth (net : network) : next net = nth 0 net Hangs.
Proof. destruct net; reflexivity. Qed.

(** The loop from attempt number [attempt] on, with [S fuel] iterations
    left, [attempt + S fuel = retries + 1]: the attempts are bounded,
    the first attempt that succeeds ends the loop, and when every
    attempt fails the last failure is thrown. *)
Lemma attempt_loop_spec retries fuel : forall attempt lastErr net,
  (attempt + S fuel = S retries)%nat ->
  (fetch_waited (attempt_loop rt timeout retries (S fuel) attempt lastErr net)
     <= N.of_nat (attempts (attempt_loop rt timeout retries (S fuel) attempt lastErr net))
        * timeout)%N /\
  (1 <= attempts (attempt_loop rt timeout retries (S fuel) attempt lastErr net)
     <= S fuel)%nat /\
  (forall i v, (i <= fuel)%nat ->
     (forall j, (j < i)%nat ->
        exists e, attempt_result rt timeout (nth j net Hangs) = Throw e) ->
     attempt_result rt timeout (nth i net Hangs) = Ok v ->
     completion (attempt_loop rt timeout retries (S fuel) attempt lastErr net) = Ok v /\
     attempts (attempt_loop rt timeout retries (S fuel) attempt lastErr net) = S i) /\
  ((forall j, (j <= fuel)%nat ->
      exists e, attempt_result rt timeout (nth j net Hangs) = Throw e) ->
     completion (attempt_loop rt timeout retries (S fuel) attempt lastErr net)
       = attempt_result rt timeout (nth fuel net Hangs) /\
     attempts (attempt_loop rt timeout retries (S fuel) attempt lastErr net) = S fuel).
Proof.
  induction fuel as [|fuel IH]; intros attempt lastErr net Hinv;
    rewrite attempt_loop_step, next_nth;
    pose proof (fetch_with_abort_bounded (nth 0 net Hangs)) as Hb.
  - assert (Hlt : (attempt <? retries)%nat = false) by (apply Nat.ltb_ge; lia).
    rewrite Hlt.
    destruct (attempt_result rt timeout (nth 0 net Hangs)) as [v|err] eqn:Hr;
      cbn [fetch_waited attempts completion].
    + split; [lia|]. split; [lia|]. split.
      * intros i v' Hi _ Hok. assert (i = 0)%nat by lia. subst i.
        rewrite Hr in Hok. inversion Hok; subst. split; reflexivity.
      * intros Hall. destruct (Hall 0%nat) as [e He]; [lia|]. congruence.
    + split; [lia|]. split; [lia|]. split.
      * intros i v' Hi _ Hok. assert (i = 0)%nat by lia. subst i. congruence.
      * intros _. split; reflexivity.
  - assert (Hlt : (attempt <? retries)%nat = true) by (apply Nat.ltb_lt; lia).
    rewrite Hlt.
    destruct (attempt_result rt timeout (nth 0 net Hangs)) as [v|err] eqn:Hr.
    + cbn [fetch_waited attempts completion]. split; [lia|]. split; [lia|]. split.
      * intros i v' Hi Hfail Hok. destruct i as [|i].
        -- rewrite Hr in Hok. inversion Hok; subst. split; reflexivity.
        -- destruct (Hfail 0%nat) as [e He]; [lia|]. congruence.
      * intros Hall. destruct (Hall 0%nat) as [e He]; [lia|]. congruence.
    + destruct (IH (S attempt) (Some err) (tl net)) as (Hw & Ha & Hfirst & Hall); [lia|].
      cbv zeta. cbn [fetch_waited attempts completion].
      split; [lia|]. split; [lia|]. split.
      * intros i v Hi Hfail Hok. destruct i as [|i]; [congruence|].
        destruct (Hfirst i v) as [Hc Hn]; [lia| |now rewrite nth_tl|].
        -- intros j Hj. rewrite nth_tl. apply Hfail. lia.
        -- split; [exact Hc | now rewrite Hn].
      * intros Hfail. destruct Hall as [Hc Hn].
        -- intros j Hj. rewrite nth_tl. apply Hfail. lia.
        -- split; [now rewrite Hc, nth_tl | now rewrite Hn].
Qed.

(** The requests of [uploadFile] are the attempts of the helper. *)
Lemma uploadFile_requests net file p :
  snd (uploadFile rt net file p)
    = attempts (fetchWithTimeoutAndRetries rt net 30000 2).
Proof.
  unfold uploadFile.
  destruct (completion (fetchWithTimeoutAndRetries rt net 30000 2))
    as [data|err]; [|reflexivity].
  destruct (upload_then rt file data _) as [[u|e] p']; reflexivity.
Qed.

End RetryFacts.

(** C1 (as stated, refuted).  Two requests of the client break the claim.
    A failure that is not a timeout is retried: with the retry count 2 of
    the upload, three responses HTTP 500 with the body of the disk-full
    error are each not ok, the failure of an attempt is neither an abort
    nor a timeout, and the helper calls [fetch] three times, where the
    claim allows one call.  And a request is not always under a timeout:
    [uploadFileAndRefresh] of the summary page calls [fetch] without a
    signal, so an upload that is never answered never settles, after one
    request, where the claim has it end after 30 seconds. *)
Lemma retry_and_timeout_claim_fails :
  (ok Samples.disk_full = false /\
   (exists e,
      Part004.attempt_result Samples.runtime 30000 (Responds 10 Samples.disk_full) = Throw e /\
      Part004.is_abort_or_timeout e = false) /\
   Part004.attempts
     (Part004.fetchWithTimeoutAndRetries Samples.runtime
        [Responds 10 Samples.disk_full; Responds 10 Samples.disk_full;
         Responds 10 Samples.disk_full] 30000 2) = 3%nat) /\
  (Part005.returned
     (Part005.uploadFileAndRefresh Samples.runtime Hangs Hangs Samples.summary_page) = None /\
   Part005.requests
     (Part005.uploadFileAndRefresh Samples.runtime Hangs Hangs Samples.summary_page) = 1%nat).
Proof.
  split.
  - split; [reflexivity|]. split; [|reflexivity].
    eexists. split; reflexivity.
  - split; reflexivity.
Qed.

(** C1 (amended).  A request made through [fetchWithTimeoutAndRetries]
    (the upload of the upload page calls it with 30000 ms and 2 retries)
    has each of its calls of [fetch] cut off by the abort timer: the time
    spent inside the calls of [fetch] is at most [timeout] milliseconds
    per attempt, and a call that has not settled by then fails with an
    AbortError, so that a request that is never answered still ends, after
    [retries + 1] attempts.  The timer is cleared once [fetch] settles:
    the reading of the body that follows is not under it, and nothing is
    stated about its duration.  A failed attempt is retried immediately
    while attempts remain, whatever the failure (abort by the timer,
    network error, or a response that is not ok): the run ends at the
    first attempt that succeeds, after exactly that many calls, and when
    all [retries + 1] attempts fail it throws the last failure.  In
    particular a request that is aborted once and then answered in time
    with a readable body yields that result after exactly 2 attempts.
    The upload of the summary page is outside this: it sends one plain
    request, and never settles when that request is never answered. *)
Theorem fetchWithTimeoutAndRetries_retries_every_failure :
  forall (rt : Runtime) (net : network) (timeout : N) (retries : nat),
    (Part004.fetch_waited (Part004.fetchWithTimeoutAndRetries rt net timeout retries)
       <= N.of_nat (Part004.attempts (Part004.fetchWithTimeoutAndRetries rt net timeout retries))
          * timeout)%N /\
    ((forall j, (j <= retries)%nat ->
        nth j net Hangs = Hangs \/
        exists after, (timeout <= after)%N /\
          ((exists res, nth j net Hangs = Responds after res) \/
           (exists e, nth j net Hangs = Rejects after e))) ->
       Part004.completion (Part004.fetchWithTimeoutAndRetries rt net timeout retries)
         = Throw AbortError /\
       Part004.attempts (Part004.fetchWithTimeoutAndRetries rt net timeout retries)
         = S retries) /\
    (1 <= Part004.attempts (Part004.fetchWithTimeoutAndRetries rt net timeout retries)
       <= S retries)%nat /\
    (forall i v, (i <= retries)%nat ->
       (forall j, (j < i)%nat ->
          exists e, Part004.attempt_result rt timeout (nth j net Hangs) = Throw e) ->
       Part004.attempt_result rt timeout (nth i net Hangs) = Ok v ->
       Part004.completion (Part004.fetchWithTimeoutAndRetries rt net timeout retries) = Ok v /\
       Part004.attempts (Part004.fetchWithTimeoutAndRetries rt net timeout retries) = S i) /\
    ((forall j, (j <= retries)%nat ->
        exists e, Part004.attempt_result rt timeout (nth j net Hangs) = Throw e) ->
       Part004.completion (Part004.fetchWithTimeoutAndRetries rt net timeout retries)
         = Part004.attempt_result rt timeout (nth retries net Hangs) /\
       Part004.attempts (Part004.fetchWithTimeoutAndRetries rt net timeout retries)
         = S retries) /\
    (forall o after res rest v, (1 <= retries)%nat ->
       net = o :: Responds after res :: rest ->
       fst (fetch_with_abort o timeout) = Throw AbortError ->
       (after < timeout)%N ->
       Part004.read_body rt res = Ok v ->
       Part004.completion (Part004.fetchWithTimeoutAndRetries rt net timeout retries) = Ok v /\
       Part004.attempts (Part004.fetchWithTimeoutAndRetries rt net timeout retries) = 2%nat) /\
    (forall file p,
       snd (Part004.uploadFile rt net file p)
         = Part004.attempts (Part004.fetchWithTimeoutAndRetries rt net 30000 2)) /\
    (forall (o oc : outcome) (p : SummaryPage.Page),
       Part005.requests (Part005.uploadFileAndRefresh rt o oc p) = 1%nat /\
       (o = Hangs -> Part005.returned (Part005.uploadFileAndRefresh rt o oc p) = None)).
Proof.
  intros rt net timeout retries.
  unfold Part004.fetchWithTimeoutAndRetries.
  destruct (attempt_loop_spec rt timeout retries retries 0 None net eq_refl)
    as (Hw & Ha & Hfirst & Hall).
  assert (Hlate : forall o,
            o = Hangs \/
            (exists after, (timeout <= after)%N /\
               ((exists res, o = Responds after res) \/ (exists e, o = Rejects after e))) ->
            Part004.attempt_result rt timeout o = Throw AbortError).
  { intros o [->|(after & Hge & [[res ->]|[e ->]])]; unfold Part004.attempt_result;
      cbn [fetch_with_abort]; [reflexivity| |];
      apply N.ltb_ge in Hge; rewrite Hge; reflexivity. }
  split; [exact Hw|]. split.
  { intros Hnone. destruct Hall as [Hc Hn].
    - intros j Hj. exists AbortError. apply Hlate, Hnone, Hj.
    - split; [|exact Hn]. rewrite Hc. apply Hlate, Hnone. lia. }
  split; [exact Ha|]. split; [exact Hfirst|]. split; [exact Hall|].
  split; [|split].
  - intros o after res rest v Hr -> Habort Hlt Hbody.
    apply (Hfirst 1%nat v Hr).
    + intros j Hj. assert (j = 0)%nat by lia. subst j.
      exists AbortError. unfold Part004.attempt_result. cbn [nth]. now rewrite Habort.
    + unfold Part004.attempt_result. cbn [nth fetch_with_abort].
      apply N.ltb_lt in Hlt. rewrite Hlt. exact Hbody.
  - intros file p. apply uploadFile_requests.
  - intros o oc p. split; [|intros ->; reflexivity].
    unfold Part005.uploadFileAndRefresh.
    destruct (fetch_plain o) as [[[res|e] t]|]; try reflexivity.
    destruct (negb (ok res)); [reflexivity|].
    destruct (truthy _ && truthy _); [|reflexivity].
    match goal with
    | |- context [Eff.bindM ?a ?b ?c] => destruct (Eff.bindM a b c) as [[u|e] p']
    end; [|reflexivity].
    destruct (Part005.displayCharts rt oc p'); reflexivity.
Qed.

(** The amended C1 at a request that never settles and is then answered
    after 10 ms with the sample success payload. *)
Lemma fetchWithTimeoutAndRetries_retries_every_failure_witness :
  Part004.completion
    (Part004.fetchWithTimeoutAndRetries Samples.runtime
       [Hangs; Responds 10 Samples.success] 30000 2) = Ok Samples.success_json /\
  Part004.attempts
    (Part004.fetchWithTimeoutAndRetries Samples.runtime
       [Hangs; Responds 10 Samples.success] 30000 2) = 2%nat.
Proof.
  apply (proj1 (proj2 (proj2 (proj2 (proj2 (proj2
           (fetchWithTimeoutAndRetries_retries_every_failure Samples.runtime
              [Hangs; Responds 10 Samples.success] 30000 2))))))
         Hangs 10%N Samples.success [] Samples.success_json).
  - lia.
  - reflexivity.
  - reflexivity.
  - reflexivity.
  - reflexivity.
Defined.

(* ===================================================================== *)
(** ** Failures of the upload on the upload page *)
(* ===================================================================== *)

Section UploadFailureFacts.
Import UploadPage Part004.
Variable rt : Runtime.

(** For a response that is not ok, the error thrown inside the inner [try]
    is replaced in its [catch]: the message is the trimmed body, or the
    status line when the body is blank, whatever the payload holds. *)
Lemma read_body_not_ok (res : Response) :
  ok res = false ->
  read_body rt res =
    Throw (newError (if negb (trim (text res) =? "") then trim (text res)
                     else server_error_line res)).
Proof.
  intros Hok. unfold read_body. rewrite Hok. cbn [negb].
  destruct (text res =? ""); [reflexivity|].
  destruct (parse rt (text res)); reflexivity.
Qed.



(** A parsed payload that is not a string and does not report success
    only shows its [error] field, or the generic notice. *)
Lemma upload_then_rejected file data p :
  truthy data && truthy (match get data "success" with Ok v => v | Throw _ => VUndefined end)
    = false ->
  (forall s, data <> VStr s) ->
  upload_then rt file data p =
    (Ok tt,
     showError
       (or_else (and_then data (match get data "error" with Ok v => v | Throw _ => VUndefined end))
                (VStr "Unexpected server response"))
       (set_loading_hidden true p)).
Proof.
  intros Hs Hstr. unfold upload_then, bindM, modify. cbn beta iota.
  rewrite Hs.
  destruct data; try reflexivity. now destruct (Hstr s).
Qed.

End UploadFailureFacts.

(** C4.  The upload of the upload page answered three times by HTTP 500
    with the body of the disk-full error: the held summary and the
    rendered regions stay as they were and the alert is shown, but its
    text is the raw body, not the [error] field. *)
Theorem uploadFile_disk_full_shows_raw_body :
  UploadPage.error_text
    (fst (Part004.uploadFile Samples.runtime
            [Responds 10 Samples.disk_full; Responds 10 Samples.disk_full;
             Responds 10 Samples.disk_full] Samples.csv_file Samples.upload_page))
    = Samples.disk_full_text /\
  Samples.disk_full_text <> "disk full" /\
  UploadPage.error_hidden
    (fst (Part004.uploadFile Samples.runtime
            [Responds 10 Samples.disk_full; Responds 10 Samples.disk_full;
             Responds 10 Samples.disk_full] Samples.csv_file Samples.upload_page))
    = false /\
  UploadPage.currentSummary
    (fst (Part004.uploadFile Samples.runtime
            [Responds 10 Samples.disk_full; Responds 10 Samples.disk_full;
             Responds 10 Samples.disk_full] Samples.csv_file Samples.upload_page))
    = UploadPage.currentSummary Samples.upload_page /\
  UploadPage.rendered
    (fst (Part004.uploadFile Samples.runtime
            [Responds 10 Samples.disk_full; Responds 10 Samples.disk_full;
             Responds 10 Samples.disk_full] Samples.csv_file Samples.upload_page))
    = UploadPage.rendered Samples.upload_page.
Proof.
  repeat split; try reflexivity. discriminate.
Qed.

(** An ok response that reports success with a summary without fields:
    the held summary is replaced before [displayResults] throws, and the
    alert then shows the message of the TypeError. *)
Lemma uploadFile_empty_summary_replaces_held :
  UploadPage.currentSummary
    (fst (Part004.uploadFile Samples.runtime
            [Responds 10 (mkResponse 200 "OK" (Samples.stringify Samples.empty_summary_json))]
            Samples.csv_file Samples.upload_page))
    = VObj [] /\
  UploadPage.error_text
    (fst (Part004.uploadFile Samples.runtime
            [Responds 10 (mkResponse 200 "OK" (Samples.stringify Samples.empty_summary_json))]
            Samples.csv_file Samples.upload_page))
    = "Cannot read properties of undefined".
Proof. split; reflexivity. Qed.

(** The summary page shows the [error] field for the same response. *)
Lemma uploadFileAndRefresh_disk_full :
  SummaryPage.status_text
    (Part000.page (Part000.uploadFileAndRefresh Samples.runtime
                     (Responds 10 Samples.disk_full) Samples.summary_page))
    = "disk full" /\
  Part000.returned (Part000.uploadFileAndRefresh Samples.runtime
                      (Responds 10 Samples.disk_full) Samples.summary_page)
    = Some VNull.
Proof. split; reflexivity. Qed.

(** C6.  The message of a failed upload does not give priority to the
    [error] field of the server: for the response HTTP 500 whose payload
    has the [error] field [disk full], the helper throws an error whose
    message is the trimmed raw text, and that text is what [uploadFile]
    shows while the browser is online. *)
Theorem upload_message_ignores_error_field :
  Part005.field Samples.disk_full_json "error" = VStr "disk full" /\
  JSON_parse Samples.runtime (text Samples.disk_full) = Some Samples.disk_full_json /\
  Part004.read_body Samples.runtime Samples.disk_full
    = Throw (newError (trim (text Samples.disk_full))) /\
  Part004.completion
    (Part004.fetchWithTimeoutAndRetries Samples.runtime
       [Responds 10 Samples.disk_full; Responds 10 Samples.disk_full;
        Responds 10 Samples.disk_full] 30000 2)
    = Throw (newError Samples.disk_full_text) /\
  Part004.upload_catch Samples.runtime (newError Samples.disk_full_text) Samples.upload_page
    = UploadPage.showError (VStr Samples.disk_full_text)
        (UploadPage.log ("Upload error: " ++ Samples.disk_full_text)
           (UploadPage.set_loading_hidden true Samples.upload_page)).
Proof.
  repeat split; reflexivity.
Qed.

(* ===================================================================== *)
(** ** Validation of the file before the upload *)
(* ===================================================================== *)

Section ValidationFacts.
Import UploadPage.

Example accepted_extension_examples :
  has_accepted_extension "data.csv" = true /\
  has_accepted_extension "REPORT.XLSX" = true /\
  has_accepted_extension "x.txt" = false /\
  has_accepted_extension "csv" = false /\
  has_accepted_extension "data.csv.bak" = false.
Proof. repeat split; reflexivity. Qed.

(** [handleFiles] of the Phase-1 script: a file with another extension or
    of more than 10 MB is rejected with a message and no request; any
    other file is sent to /upload exactly once. *)
Lemma ScriptJs_handleFiles_validates rt o file rest p :
  (has_accepted_extension (file_name file) = false ->
     ScriptJs.handleFiles rt o (file :: rest) p
       = (showError (VStr "Please upload a .csv or .xlsx file.") p, 0%nat)) /\
  (has_accepted_extension (file_name file) = true ->
   (max_size < file_size file)%N ->
     ScriptJs.handleFiles rt o (file :: rest) p
       = (showError (VStr "File size must be under 10MB.") p, 0%nat)) /\
  (has_accepted_extension (file_name file) = true ->
   (file_size file <= max_size)%N ->
     snd (ScriptJs.handleFiles rt o (file :: rest) p) = 1%nat).
Proof.
  unfold ScriptJs.handleFiles. repeat split.
  - intros ->. reflexivity.
  - intros -> Hs. apply N.ltb_lt in Hs. now rewrite Hs.
  - intros -> Hs. apply N.ltb_ge in Hs. rewrite Hs. cbn [negb].
    unfold ScriptJs.uploadFile.
    destruct (fetch_plain o) as [[[res|e] t]|]; try reflexivity.
    destruct (parse rt (text res)) as [data|e]; try reflexivity.
    destruct (ScriptJs.upload_then file data _) as [[u|e] p']; reflexivity.
Qed.

(** [handleFiles] of the script with retries: the same rejections; an
    accepted file is sent at least once and at most three times. *)
Lemma Part004_handleFiles_validates rt net file rest p :
  (has_accepted_extension (file_name file) = false ->
     Part004.handleFiles rt net (file :: rest) p
       = (showError (VStr "Please upload a .csv or .xlsx file.") p, 0%nat)) /\
  (has_accepted_extension (file_name file) = true ->
   (max_size < file_size file)%N ->
     Part004.handleFiles rt net (file :: rest) p
       = (showError (VStr "File size must be under 10MB.") p, 0%nat)) /\
  (has_accepted_extension (file_name file) = true ->
   (file_size file <= max_size)%N ->
     (1 <= snd (Part004.handleFiles rt net (file :: rest) p) <= 3)%nat).
Proof.
  unfold Part004.handleFiles. split; [|split].
  - intros ->. reflexivity.
  - intros -> Hs. apply N.ltb_lt in Hs. now rewrite Hs.
  - intros -> Hs. apply N.ltb_ge in Hs. rewrite Hs. cbn [negb].
    rewrite uploadFile_requests. unfold Part004.fetchWithTimeoutAndRetries.
    apply (attempt_loop_spec rt 30000 2 2 0 None net eq_refl).
Qed.

(** [uploadFileAndRefresh] of the summary page sends one request to
    /upload, whatever the file. *)
Lemma Part005_upload_one_request rt o oc p :
  Part005.requests (Part005.uploadFileAndRefresh rt o oc p) = 1%nat.
Proof.
  unfold Part005.uploadFileAndRefresh.
  destruct (fetch_plain o) as [[[res|e] t]|]; try reflexivity.
  destruct (negb (ok res)); [reflexivity|].
  destruct (truthy _ && truthy _); [|reflexivity].
  match goal with |- context [bindM ?a ?b ?c] => destruct (bindM a b c) as [[u|e] p'] end;
    [|reflexivity].
  destruct (Part005.displayCharts rt oc p'); reflexivity.
Qed.

End ValidationFacts.

(** C2.  The upload button of the summary page sends the selected file to
    /upload without looking at its name or size: the file x.txt has no
    accepted extension, the second file is over 10 MB, and for each of
    them one request is issued. *)
Theorem summary_upload_click_sends_unvalidated_file :
  UploadPage.has_accepted_extension (UploadPage.file_name Samples.txt_file) = false /\
  (UploadPage.max_size < UploadPage.file_size Samples.big_csv_file)%N /\
  (forall rt o oc p,
     snd (Part005.upload_click rt o oc (Some Samples.txt_file) p) = 1%nat) /\
  (forall rt o oc p,
     snd (Part005.upload_click rt o oc (Some Samples.big_csv_file) p) = 1%nat).
Proof.
  assert (Hany : forall rt o oc f p,
             snd (Part005.upload_click rt o oc (Some f) p) = 1%nat).
  { intros rt o oc f p. unfold Part005.upload_click.
    pose proof (Part005_upload_one_request rt o oc (SummaryPage.set_upload_disabled true p)) as H.
    destruct (Part005.returned _) as [newSummary|]; [|exact H].
    destruct (truthy newSummary); exact H. }
  split; [reflexivity|]. split; [reflexivity|]. split; intros; apply Hany.
Qed.

(* ===================================================================== *)
(** ** Rendering of the column table on the summary page *)
(* ===================================================================== *)

Section TableFacts.
Import SummaryPage.

Lemma mapM_total {A B} (f : A -> result B) (g : A -> B) (l : list A) :
  (forall x, In x l -> f x = Ok (g x)) -> mapM f l = Ok (map g l).
Proof.
  induction l as [|x l IH]; intros H; [reflexivity|].
  cbn [mapM map]. rewrite (H x (or_introl eq_refl)). cbn [bind].
  rewrite IH; [reflexivity|]. intros y Hy. apply H. now right.
Qed.

Lemma mapM_length {A B} (f : A -> result B) (l : list A) (l' : list B) :
  mapM f l = Ok l' -> List.length l' = List.length l.
Proof.
  revert l'. induction l as [|x l IH]; intros l' H; cbn [mapM] in H.
  - now inversion H.
  - destruct (f x) as [y|e]; [|discriminate]. cbn [bind] in H.
    destruct (mapM f l) as [ys|e]; [|discriminate]. cbn [bind] in H.
    inversion H; subst. cbn [List.length]. now rewrite (IH ys eq_refl).
Qed.






End TableFacts.


(* ===================================================================== *)
(** ** One row per column, and the defaults of missing keys *)
(* ===================================================================== *)

Section ColumnFacts.
Import SummaryPage.

(** A per-column map that is absent, or that has no entry for the column,
    gives the default. *)
Lemma column_entry_missing m col dflt :
  truthy m = false \/ get m (toString col) = Ok VUndefined ->
  Part000.column_entry m col dflt = dflt.
Proof.
  unfold Part000.column_entry. intros [H|H].
  - now rewrite H.
  - destruct (truthy m); [|reflexivity]. now rewrite H.
Qed.

(** The rows of the four-column table for a summary object whose
    [columns] is an array: one row per column, in order, whose first cell
    is the column; an absent [columns] gives no row. *)
Lemma Part000_rows_total fields :
  Part000.summaryToRows (VObj fields) =
    Ok (map (fun col =>
               [col;
                VStr (toString (Part000.column_entry (Part005.field (VObj fields) "data_types") col (VStr "")));
                VStr (toString (Part000.column_entry (Part005.field (VObj fields) "missing_values") col (VNum (Int 0))));
                VStr (toString (Part000.column_entry (Part005.field (VObj fields) "unique_counts") col (VNum (Int 0))))])
            (match lookup "columns" fields with
             | Some (VArr cols) => cols
             | _ => []
             end))
  \/ exists e, Part000.summaryToRows (VObj fields) = Throw e /\
               exists c, lookup "columns" fields = Some c /\ truthy c = true /\
                         forall cols, c <> VArr cols.
Proof.
  unfold Part000.summaryToRows. cbn [get entries bind].
  destruct (lookup "columns" fields) as [c|] eqn:Hc; [|left; reflexivity].
  unfold or_else. destruct (truthy c) eqn:Ht; [|left; now destruct c].
  destruct c as [| |b|n|s0|cols|fs]; try discriminate;
    try (right; eexists; split; [reflexivity|];
         eexists; split; [reflexivity|]; split; [exact Ht|discriminate]).
  left. cbn [as_array bind]. apply mapM_total. intros col _. reflexivity.
Qed.

(** The seven-column table of a summary object whose [columns] is the
    array [cols] and whose statistics are numbers: the rows exist, there
    is one per column, in order, and its first cell is the column. *)
Lemma Part005_rows_total fields cols :
  lookup "columns" fields = Some (VArr cols) ->
  Part005.numeric_stats (VObj fields) cols ->
  exists rows,
    Part005.table_rows (VObj fields) = Ok rows /\
    map (fun r => nth 0 r VUndefined) rows = cols.
Proof.
  intros Hc Hstats. unfold Part005.table_rows. cbn [get entries bind]. rewrite Hc.
  cbn [or_else truthy as_array bind].
  assert (Hall : forall col, In col cols ->
            exists r, Part005.row_of (VObj fields) col = Ok r /\ nth 0 r VUndefined = col).
  { intros col Hin. unfold Part005.row_of. cbn [get entries bind].
    assert (Hfix : forall k, In k ["mean"; "median"; "std_dev"] ->
              exists x, Part005.fixed_or_na
                (Part005.field (Part005.column_entry
                   (Part005.field (VObj fields) "descriptive_stats") col (VObj [])) k) = Ok x).
    { intros k Hk. unfold Part005.fixed_or_na.
      destruct (truthy _) eqn:Ht; [|eexists; reflexivity].
      destruct (Hstats col k Hin Hk Ht) as [n ->]. eexists; reflexivity. }
    unfold Part005.field in Hfix at 2. cbn [get entries] in Hfix.
    destruct (Hfix "mean") as [x1 H1]; [cbn; auto|].
    destruct (Hfix "median") as [x2 H2]; [cbn; auto|].
    destruct (Hfix "std_dev") as [x3 H3]; [cbn; auto|].
    rewrite H1, H2, H3. cbn [bind]. eexists. split; reflexivity. }
  clear Hc Hstats. induction cols as [|col cols IH].
  - exists []. split; reflexivity.
  - destruct (Hall col (or_introl eq_refl)) as [r [Hr H0]].
    destruct IH as [rows [Hrows Hmap]]; [intros c Hin; apply Hall; now right|].
    exists (r :: rows). cbn [mapM]. rewrite Hr. cbn [bind]. rewrite Hrows. cbn [bind].
    split; [reflexivity|]. cbn [map]. now rewrite H0, Hmap.
Qed.

End ColumnFacts.

(** C3.  [displayResults] of the upload page on the summary of the
    specification's example, whose per-column maps omit columns: the
    cells of the omitted keys read [undefined], not a default.  On a
    summary without the per-column maps it throws a TypeError.
    [buildTable] of the summary page renders both summaries, with the
    defaults. *)
Theorem displayResults_needs_every_column_key :
  (fst (Part004.displayResults Samples.runtime (Samples.partial_summary (VArr []))
          Samples.upload_page) = Ok tt /\
   UploadPage.columns_table
     (snd (Part004.displayResults Samples.runtime (Samples.partial_summary (VArr []))
             Samples.upload_page))
     = [["a"; "int64"; "undefined"; "undefined"];
        ["b"; "undefined"; "undefined"; "undefined"];
        ["c"; "undefined"; "undefined"; "undefined"]]) /\
  fst (Part004.displayResults Samples.runtime Samples.bare_summary Samples.upload_page)
    = Throw (TypeError "Cannot read properties of undefined") /\
  (fst (Part000.buildTable (Samples.partial_summary (VArr [])) Samples.summary_page) = Ok tt /\
   SummaryPage.tbody
     (snd (Part000.buildTable (Samples.partial_summary (VArr [])) Samples.summary_page))
     = [["a"; "int64"; "0"; "0"]; ["b"; ""; "0"; "0"]; ["c"; ""; "0"; "0"]]) /\
  (fst (Part005.buildTable Samples.bare_summary Samples.summary_page) = Ok tt /\
   SummaryPage.tbody (snd (Part005.buildTable Samples.bare_summary Samples.summary_page))
     = [["a"; ""; "0"; "0"; "N/A"; "N/A"; "N/A"]]).
Proof.
  repeat split; reflexivity.
Qed.

(* ===================================================================== *)
(** ** Cells of the sample table *)
(* ===================================================================== *)

(** The cell of the script with escaping: the placeholder for [null],
    [undefined] and NaN, the escaped string form for every other value. *)
Lemma Part004_sample_cell_spec (val : value) :
  (val = VNull \/ val = VUndefined \/ val = VNum NaN ->
     Part004.sample_cell val = "<em>null</em>") /\
  (val <> VNull -> val <> VUndefined -> val <> VNum NaN ->
     Part004.sample_cell val = Html.escapeHtml (toString val)).
Proof.
  split.
  - intros [->|[->| ->]]; reflexivity.
  - intros H1 H2 H3. unfold Part004.sample_cell.
    destruct val as [| |b|[|z]|s|l|f]; try reflexivity; congruence.
Qed.

(** C10.  [displayResults] of the Phase-1 script on a sample row whose
    first value holds markup, whose second is [null] and whose third is
    missing: the cells are the raw markup, the placeholder, and the text
    undefined.  The script with escaping renders the same row as the
    escaped text and two placeholders. *)
Theorem phase1_sample_cells_are_raw :
  UploadPage.sample_body
    (snd (ScriptJs.displayResults
            (Samples.partial_summary
               (VArr [VObj [("a", VStr "<b>x</b>"); ("b", VNull)]]))
            Samples.upload_page))
    = [["<b>x</b>"; "<em>null</em>"; "undefined"]] /\
  UploadPage.sample_body
    (snd (Part004.displayResults Samples.runtime
            (Samples.partial_summary
               (VArr [VObj [("a", VStr "<b>x</b>"); ("b", VNull)]]))
            Samples.upload_page))
    = [["&lt;b&gt;x&lt;/b&gt;"; "<em>null</em>"; "<em>null</em>"]].
Proof.
  split; reflexivity.
Qed.

(* ===================================================================== *)
(** ** The chart selection *)
(* ===================================================================== *)

Section ChartFacts.
Import SummaryPage Part005 ChartSpec.

Lemma state_of_use l key c :
  use c key (state_of l) = state_of (l ++ [(key, c)]).
Proof.
  unfold use, state_of. cbn [chartsHtml count usedKeys].
  rewrite !map_app, length_app. cbn [map fst snd List.length].
  f_equal. lia.
Qed.

Lemma heatmap_length charts : (List.length (heatmap charts) <= 1)%nat.
Proof. unfold heatmap. destruct (truthy _); cbn; lia. Qed.

Lemma scatter_length charts : (List.length (scatter charts) <= 1)%nat.
Proof. unfold scatter. destruct (find _ _); cbn; lia. Qed.

Lemma preferred_length a b charts : (List.length (preferred a b charts) <= 1)%nat.
Proof. unfold preferred. destruct (find _ _); cbn; lia. Qed.

Lemma pick_heatmap_spec charts :
  pick_heatmap charts start = state_of (heatmap charts).
Proof.
  unfold pick_heatmap, heatmap. cbn [count start]. cbn [Nat.ltb Nat.leb MAX_CHARTS].
  rewrite andb_true_r. destruct (truthy _); reflexivity.
Qed.

Lemma starts_with_scatter_nonempty k :
  startsWith k "scatter__" = true -> (k =? "") = false.
Proof. destruct k; [discriminate | reflexivity]. Qed.

Lemma pick_scatter_spec charts l :
  (List.length l < MAX_CHARTS)%nat ->
  pick_scatter charts (state_of l) = state_of (l ++ scatter charts).
Proof.
  intros Hl. unfold pick_scatter, scatter.
  replace (count (state_of l) <? MAX_CHARTS)%nat with true
    by (symmetry; apply Nat.ltb_lt; exact Hl).
  destruct (find _ _) as [k|] eqn:Hf.
  - apply find_some in Hf as [_ Hk].
    rewrite (starts_with_scatter_nonempty k Hk). cbn [negb].
    apply state_of_use.
  - now rewrite app_nil_r.
Qed.

Lemma find_paired {A B} (f : A -> B) (P : B -> bool) (l : list A) :
  find (fun kv : A * B => P (snd kv)) (map (fun k => (k, f k)) l)
    = option_map (fun k => (k, f k)) (find (fun k => P (f k)) l).
Proof.
  induction l as [|x l IH]; [reflexivity|].
  cbn [map find snd]. destruct (P (f x)); [reflexivity | exact IH].
Qed.

Lemma find_ext {A} (f g : A -> bool) (l : list A) :
  (forall x, f x = g x) -> find f l = find g l.
Proof.
  intros H. induction l as [|x l IH]; [reflexivity|].
  cbn [find]. rewrite H, IH. reflexivity.
Qed.

Lemma pick_typed_spec a b charts l :
  (List.length l < MAX_CHARTS)%nat ->
  pick_typed a b charts (state_of l) = state_of (l ++ preferred a b charts).
Proof.
  intros Hl. unfold pick_typed, preferred.
  replace (count (state_of l) <? MAX_CHARTS)%nat with true
    by (symmetry; apply Nat.ltb_lt; exact Hl).
  rewrite (find_paired (member charts)
             (fun v => truthy v && is_object v &&
                       (truthy (member v a) || truthy (member v b)))).
  rewrite (find_ext (fun k => has_type a (member charts k) || has_type b (member charts k))
                    (fun k => truthy (member charts k) && is_object (member charts k) &&
                              (truthy (member (member charts k) a)
                               || truthy (member (member charts k) b)))
                    (candidates charts)).
  2:{ intros k. unfold has_type.
      destruct (truthy (member charts k)), (is_object (member charts k)),
        (truthy (member (member charts k) a)); reflexivity. }
  destruct (find _ _) as [k|] eqn:Hf; cbn [option_map].
  - apply find_some in Hf as [_ Hk].
    apply andb_prop in Hk as [Hobj _].
    unfold has_type. rewrite Hobj. cbn [andb].
    apply state_of_use.
  - now rewrite app_nil_r.
Qed.

Lemma priority_length charts : (List.length (priority charts) <= MAX_CHARTS)%nat.
Proof.
  unfold priority, MAX_CHARTS. rewrite !length_app.
  pose proof (heatmap_length charts). pose proof (scatter_length charts).
  pose proof (preferred_length "histogram" "boxplot" charts).
  pose proof (preferred_length "barh" "pie" charts). lia.
Qed.

Lemma priority_steps charts :
  pick_categorical charts
    (pick_numeric charts (pick_scatter charts (pick_heatmap charts start)))
  = state_of (priority charts).
Proof.
  pose proof (heatmap_length charts). pose proof (scatter_length charts).
  pose proof (preferred_length "histogram" "boxplot" charts).
  unfold pick_categorical, pick_numeric, priority.
  rewrite pick_heatmap_spec.
  rewrite pick_scatter_spec by (unfold MAX_CHARTS; lia).
  rewrite pick_typed_spec by (rewrite length_app; unfold MAX_CHARTS; lia).
  rewrite pick_typed_spec by (rewrite !length_app; unfold MAX_CHARTS; lia).
  now rewrite <- !app_assoc.
Qed.

(** The fallback loop appends the cards of the keys it goes through, in
    order, until four cards are selected. *)
Lemma fill_spec charts ks : forall st,
  count st = List.length (chartsHtml st) ->
  chartsHtml (fill charts ks st)
    = (chartsHtml st ++
       firstn (MAX_CHARTS - count st)
         (flat_map (fun k => match fallback_card charts k with
                             | Some c => [c]
                             | None => []
                             end) ks))%list /\
  count (fill charts ks st) = List.length (chartsHtml (fill charts ks st)).
Proof.
  induction ks as [|k ks IH]; intros st Hc.
  - cbn [fill flat_map]. rewrite firstn_nil, app_nil_r. auto.
  - cbn [fill flat_map].
    destruct (Nat.leb_spec MAX_CHARTS (count st)) as [Hfull|Hroom].
    + replace (MAX_CHARTS - count st)%nat with 0%nat by lia.
      cbn [firstn]. rewrite app_nil_r. auto.
    + destruct (fallback_card charts k) as [c|].
      * destruct (IH (mkSelection (chartsHtml st ++ [c]) (S (count st)) (usedKeys st)))
          as [Hh Hn].
        { cbn [count chartsHtml]. rewrite length_app. cbn [List.length]. lia. }
        split; [|exact Hn]. rewrite Hh. cbn [chartsHtml count].
        replace (MAX_CHARTS - count st)%nat with (S (MAX_CHARTS - S (count st)))%nat by lia.
        cbn [app firstn]. now rewrite <- app_assoc.
      * cbn [app]. apply IH. exact Hc.
Qed.

End ChartFacts.



(* ===================================================================== *)
(** ** The initial load of the summary *)
(* ===================================================================== *)

(** C7.  [fetchSummary] settles for every response and every network
    failure.  It returns the [summary] of the payload exactly when the
    response is ok, its body parses and the [success] of the payload is
    truthy ([true] in particular), and then leaves the page as it was.
    In every other case it returns [null] and the page differs only by a
    line added to the console.  [init] then shows the placeholder in the
    four cards and leaves the status region alone. *)
Theorem fetchSummary_summary_or_null :
  forall (rt : Runtime) (o : outcome) (p : SummaryPage.Page),
    (o <> Hangs -> exists ret p', Part000.fetchSummary rt o p = Some (ret, p')) /\
    (forall after res payload success,
       o = Responds after res -> ok res = true ->
       parse rt (text res) = Ok payload ->
       get payload "success" = Ok success -> truthy success = true ->
       Part000.fetchSummary rt o p = Some (Part005.field payload "summary", p)) /\
    (forall ret p',
       Part000.fetchSummary rt o p = Some (ret, p') ->
       ~ (exists after res payload success,
            o = Responds after res /\ ok res = true /\
            parse rt (text res) = Ok payload /\
            get payload "success" = Ok success /\ truthy success = true) ->
       ret = VNull /\ exists line, p' = SummaryPage.log line p) /\
    (forall line,
       Part000.fetchSummary rt o p = Some (VNull, SummaryPage.log line p) ->
       exists p'',
         Part000.init rt o p = Some (Ok tt, p'') /\
         SummaryPage.status_text p'' = SummaryPage.status_text p /\
         SummaryPage.status_danger p'' = SummaryPage.status_danger p /\
         SummaryPage.card_columns p'' = "-" /\ SummaryPage.card_rows p'' = "-" /\
         SummaryPage.card_missing p'' = "-" /\ SummaryPage.card_size p'' = "-").
Proof.
  intros rt o p. split; [|split; [|split]].
  - intros Ho. unfold Part000.fetchSummary.
    destruct o as [after res|after e|]; [| |congruence]; cbn [fetch_plain];
      match goal with |- context [match ?b with Ok _ => _ | Throw _ => _ end] =>
        destruct b; eauto end.
  - intros after res payload success -> Hok Hparse Hget Htruthy.
    unfold Part000.fetchSummary. cbn [fetch_plain bind].
    rewrite Hok. cbn [negb]. rewrite Hparse. cbn [bind]. rewrite Hget. cbn [bind].
    rewrite Htruthy. cbn [negb]. unfold Part005.field.
    destruct payload; try discriminate; reflexivity.
  - intros ret p' Hrun Hno. unfold Part000.fetchSummary in Hrun.
    destruct o as [after res|after e|]; cbn [fetch_plain bind] in Hrun; [| |discriminate].
    + destruct (ok res) eqn:Hok; cbn [negb] in Hrun.
      * destruct (parse rt (text res)) as [payload|e] eqn:Hparse; cbn [bind] in Hrun.
        -- destruct (get payload "success") as [success|e] eqn:Hget; cbn [bind] in Hrun.
           ++ destruct (truthy success) eqn:Ht; cbn [negb] in Hrun.
              ** exfalso. apply Hno. exists after, res, payload, success. auto.
              ** destruct (get payload "error"); cbn [bind] in Hrun;
                   inversion Hrun; subst; eauto.
           ++ inversion Hrun; subst; eauto.
        -- inversion Hrun; subst; eauto.
      * inversion Hrun; subst; eauto.
    + inversion Hrun; subst; eauto.
  - intros line Hrun. unfold Part000.init. rewrite Hrun.
    cbn [truthy negb]. unfold bindM, modify, read.
    cbn -[SummaryPage.new_DataTable].
    destruct (SummaryPage.plugin_loaded p); cbn -[SummaryPage.new_DataTable];
      eexists; split; try reflexivity; repeat split.
Qed.

(** C7 at the ok response whose payload reports success and carries the
    sample summary. *)
Lemma fetchSummary_summary_or_null_witness :
  Part000.fetchSummary Samples.runtime (Responds 10 Samples.success) Samples.summary_page
    = Some (Part005.field Samples.success_json "summary", Samples.summary_page).
Proof.
  apply (proj1 (proj2 (fetchSummary_summary_or_null Samples.runtime
                         (Responds 10 Samples.success) Samples.summary_page))
           10%N Samples.success Samples.success_json (VBool true)).
  - reflexivity.
  - reflexivity.
  - reflexivity.
  - reflexivity.
  - reflexivity.
Defined.

(** C9 at the input [<b>]: the less-than sign does not occur in the
    output. *)
Lemma escapeHtml_neutralises_markup_witness :
  ~ In "<"%char (list_ascii_of_string (Html.escapeHtml "<b>")).
Proof.
  apply (proj1 (escapeHtml_neutralises_markup "<b>")).
  simpl. auto.
Defined.

(* ===================================================================== *)
(** ** The extension test of the file name *)
(* ===================================================================== *)

Section ExtensionFacts.
Import UploadPage.

Lemma length_append (s t : string) :
  String.length (s ++ t) = (String.length s + String.length t)%nat.
Proof. induction s as [|a s IH]; simpl; [reflexivity | now rewrite IH]. Qed.

Lemma drop_app_length (s t : string) : drop (String.length s) (s ++ t) = t.
Proof. induction s as [|a s IH]; simpl; [now destruct t | exact IH]. Qed.

(** A string splits at any position into what [drop] removes and what it
    keeps. *)
Lemma drop_split (n : nat) : forall s,
  (n <= String.length s)%nat ->
  exists pre, s = pre ++ drop n s /\ String.length pre = n.
Proof.
  induction n as [|n IH]; intros s Hn.
  - exists EmptyString. split; [now destruct s | reflexivity].
  - destruct s as [|a s]; [simpl in Hn; lia|].
    destruct (IH s) as [pre [Hs Hl]]; [simpl in Hn; lia|].
    exists (String a pre). simpl. split; [now rewrite <- Hs | now rewrite Hl].
Qed.

Lemma endsWith_spec (s suffix : string) :
  endsWith s suffix = true <-> exists pre, s = pre ++ suffix.
Proof.
  unfold endsWith. split.
  - intros H. apply andb_prop in H as [Hlen Heq].
    apply Nat.leb_le in Hlen. apply String.eqb_eq in Heq.
    destruct (drop_split (String.length s - String.length suffix) s) as [pre [Hs _]]; [lia|].
    exists pre. now rewrite <- Heq.
  - intros [pre ->]. rewrite length_append.
    replace (String.length pre + String.length suffix - String.length suffix)%nat
      with (String.length pre) by lia.
    rewrite drop_app_length, String.eqb_refl, andb_true_r.
    apply Nat.leb_le. lia.
Qed.

Lemma toLowerCase_app (s t : string) :
  toLowerCase (s ++ t) = toLowerCase s ++ toLowerCase t.
Proof. induction s as [|a s IH]; simpl; [reflexivity | now rewrite IH]. Qed.

Lemma toLowerCase_length (s : string) :
  String.length (toLowerCase s) = String.length s.
Proof. induction s as [|a s IH]; simpl; [reflexivity | now rewrite IH]. Qed.

Lemma append_inj_length (a b c d : string) :
  a ++ b = c ++ d -> String.length a = String.length c -> a = c /\ b = d.
Proof.
  revert c. induction a as [|x a IH]; intros [|y c] H Hl; simpl in *; try discriminate.
  - auto.
  - inversion H; subst. destruct (IH c H2) as [-> ->]; [lia|]. auto.
Qed.

(** A name ends with [suffix] up to the case of its letters exactly when
    it splits into a stem and an ending whose lower case is [suffix]. *)
Lemma endsWith_lower_spec (nm suffix : string) :
  endsWith (toLowerCase nm) suffix = true <->
  exists stem ext, nm = stem ++ ext /\ toLowerCase ext = suffix.
Proof.
  rewrite endsWith_spec. split.
  - intros [pre Hpre].
    assert (Hlen : (String.length pre + String.length suffix = String.length nm)%nat).
    { rewrite <- length_append, <- Hpre. apply toLowerCase_length. }
    destruct (drop_split (String.length nm - String.length suffix) nm) as [stem [Hs Hl]];
      [lia|].
    exists stem, (drop (String.length nm - String.length suffix) nm).
    split; [exact Hs|].
    assert (Hsplit : toLowerCase stem
                       ++ toLowerCase (drop (String.length nm - String.length suffix) nm)
                     = pre ++ suffix).
    { rewrite <- toLowerCase_app, <- Hs. exact Hpre. }
    apply append_inj_length in Hsplit as [_ Hext]; [exact Hext|].
    rewrite toLowerCase_length, Hl. lia.
  - intros [stem [ext [-> Hext]]]. exists (toLowerCase stem).
    now rewrite toLowerCase_app, Hext.
Qed.

End ExtensionFacts.

(** X1.  The extension test of [handleFiles] accepts a name exactly when
    the name is a stem followed by an ending that reads .csv or .xlsx in
    lower case: the ending is compared without regard to case, and only
    at the end of the name. *)
Theorem has_accepted_extension_spec :
  forall nm : string,
    UploadPage.has_accepted_extension nm = true <->
    exists stem ext,
      nm = stem ++ ext /\
      (toLowerCase ext = ".csv" \/ toLowerCase ext = ".xlsx").
Proof.
  intros nm. unfold UploadPage.has_accepted_extension.
  rewrite orb_true_iff, !endsWith_lower_spec. split.
  - intros [[stem [ext [H1 H2]]]|[stem [ext [H1 H2]]]]; exists stem, ext; auto.
  - intros [stem [ext [H1 [H2|H2]]]]; [left|right]; exists stem, ext; auto.
Qed.

(* ===================================================================== *)
(** ** When [handleFiles] sends a request *)
(* ===================================================================== *)

Section HandleFilesFacts.
Import UploadPage Props.

Lemma accepted_dec (file : File) :
  accepted file \/
  (has_accepted_extension (file_name file) = false \/
   (has_accepted_extension (file_name file) = true /\
    (max_size < file_size file)%N)).
Proof.
  unfold accepted.
  destruct (has_accepted_extension (file_name file)) eqn:He; [|right; now left].
  destruct (N.ltb_spec max_size (file_size file)).
  - right. right. auto.
  - left. auto.
Qed.

End HandleFilesFacts.

(** X2.  [handleFiles] of the Phase-1 script looks at the first file only
    and sends at most one request to /upload; it sends one exactly when
    there is a first file with an accepted extension and a size of at
    most 10 MB.  When no request is sent, the held summary, the held file
    name and the rendered regions are as before, and for a rejected file
    the alert is shown. *)
Theorem ScriptJs_handleFiles_requests :
  forall (rt : Runtime) (o : outcome) (files : list UploadPage.File) (p : UploadPage.Page),
    (snd (ScriptJs.handleFiles rt o files p) <= 1)%nat /\
    (snd (ScriptJs.handleFiles rt o files p) = 1%nat <->
       exists file rest, files = file :: rest /\ Props.accepted file) /\
    (snd (ScriptJs.handleFiles rt o files p) = 0%nat ->
       UploadPage.currentSummary (fst (ScriptJs.handleFiles rt o files p))
         = UploadPage.currentSummary p /\
       UploadPage.currentFilename (fst (ScriptJs.handleFiles rt o files p))
         = UploadPage.currentFilename p /\
       UploadPage.rendered (fst (ScriptJs.handleFiles rt o files p)) = UploadPage.rendered p /\
       (files <> [] ->
          UploadPage.error_hidden (fst (ScriptJs.handleFiles rt o files p)) = false)).
Proof.
  intros rt o files p. destruct files as [|file rest].
  - cbn. split; [lia|]. split.
    + split; [discriminate|]. intros [f [r [H _]]]. discriminate.
    + intros _. repeat split. intros H. now destruct H.
  - destruct (ScriptJs_handleFiles_validates rt o file rest p) as (Hext & Hsize & Hok).
    destruct (accepted_dec file) as [[He Hs]|[He|[He Hs]]].
    + rewrite (Hok He Hs). split; [lia|]. split.
      * split; [|reflexivity]. intros _. exists file, rest. split; [reflexivity|].
        split; assumption.
      * discriminate.
    + rewrite (Hext He). cbn. split; [lia|]. split.
      * split; [discriminate|]. intros [f [r [H [He' _]]]]. inversion H; subst. congruence.
      * intros _. repeat split.
    + rewrite (Hsize He Hs). cbn. split; [lia|]. split.
      * split; [discriminate|]. intros [f [r [H [_ Hs']]]]. inversion H; subst. lia.
      * intros _. repeat split.
Qed.

(** X2 at the nine-megabyte csv file of the samples, answered at once. *)
Lemma ScriptJs_handleFiles_requests_witness :
  snd (ScriptJs.handleFiles Samples.runtime (Responds 10 Samples.success)
         [Samples.csv_file] Samples.upload_page) = 1%nat.
Proof.
  apply (proj2 (proj1 (proj2 (ScriptJs_handleFiles_requests Samples.runtime
                                (Responds 10 Samples.success) [Samples.csv_file]
                                Samples.upload_page)))).
  exists Samples.csv_file, []. split; [reflexivity|].
  split; [reflexivity|]. unfold UploadPage.max_size. cbn. lia.
Defined.

(** X3.  [handleFiles] of the script with retries sends no request for a
    missing, wrongly named or oversized first file and then leaves the
    held summary, the held file name and the rendered regions as they
    were; for an accepted file it sends at least one and at most three
    requests. *)
Theorem Part004_handleFiles_requests :
  forall (rt : Runtime) (net : network) (files : list UploadPage.File) (p : UploadPage.Page),
    (snd (Part004.handleFiles rt net files p) <= 3)%nat /\
    ((1 <= snd (Part004.handleFiles rt net files p))%nat <->
       exists file rest, files = file :: rest /\ Props.accepted file) /\
    (snd (Part004.handleFiles rt net files p) = 0%nat ->
       UploadPage.currentSummary (fst (Part004.handleFiles rt net files p))
         = UploadPage.currentSummary p /\
       UploadPage.currentFilename (fst (Part004.handleFiles rt net files p))
         = UploadPage.currentFilename p /\
       UploadPage.rendered (fst (Part004.handleFiles rt net files p)) = UploadPage.rendered p).
Proof.
  intros rt net files p. destruct files as [|file rest].
  - cbn. split; [lia|]. split.
    + split; [lia|]. intros [f [r [H _]]]. discriminate.
    + intros _. repeat split.
  - destruct (Part004_handleFiles_validates rt net file rest p) as (Hext & Hsize & Hok).
    destruct (accepted_dec file) as [[He Hs]|[He|[He Hs]]].
    + specialize (Hok He Hs). split; [lia|]. split.
      * split; [|lia]. intros _. exists file, rest. split; [reflexivity|].
        split; assumption.
      * lia.
    + rewrite (Hext He). cbn. split; [lia|]. split.
      * split; [lia|]. intros [f [r [H [He' _]]]]. inversion H; subst. congruence.
      * intros _. repeat split.
    + rewrite (Hsize He Hs). cbn. split; [lia|]. split.
      * split; [lia|]. intros [f [r [H [_ Hs']]]]. inversion H; subst. lia.
      * intros _. repeat split.
Qed.

(** X3 at the text file of the samples. *)
Lemma Part004_handleFiles_requests_witness :
  UploadPage.currentSummary
    (fst (Part004.handleFiles Samples.runtime [] [Samples.txt_file] Samples.upload_page))
    = UploadPage.currentSummary Samples.upload_page.
Proof.
  apply (proj2 (proj2 (Part004_handleFiles_requests Samples.runtime []
                         [Samples.txt_file] Samples.upload_page))).
  reflexivity.
Defined.

(* ===================================================================== *)
(** ** What the fetch helper returns *)
(* ===================================================================== *)

Section HelperFacts.
Import Part004.
Variable rt : Runtime.

(** The body of an ok response never throws: an empty text gives [null],
    a text that parses gives its value, any other text comes back as a
    string. *)
Lemma read_body_ok (res : Response) :
  ok res = true ->
  read_body rt res =
    Ok (if text res =? "" then VNull
        else match JSON_parse rt (text res) with
             | Some v => v
             | None => VStr (text res)
             end).
Proof.
  intros Hok. unfold read_body, parse. rewrite Hok. cbn [negb].
  destruct (text res =? ""); [reflexivity|].
  destruct (JSON_parse rt (text res)); reflexivity.
Qed.

Lemma read_body_Ok_is_ok (res : Response) v :
  read_body rt res = Ok v -> ok res = true.
Proof.
  intros H. destruct (ok res) eqn:Hok; [reflexivity|].
  rewrite (read_body_not_ok rt res Hok) in H. discriminate.
Qed.

(** An attempt succeeds only on a response that arrived before the timer
    fired and is ok. *)
Lemma attempt_result_Ok timeout o v :
  attempt_result rt timeout o = Ok v ->
  exists after res,
    o = Responds after res /\ (after < timeout)%N /\ ok res = true /\
    read_body rt res = Ok v.
Proof.
  unfold attempt_result. destruct o as [after res|after e|]; cbn [fetch_with_abort].
  - destruct (N.ltb_spec after timeout) as [Hlt|Hge]; cbn [fst bind]; [|discriminate].
    intros H. exists after, res. repeat split; auto.
    now apply read_body_Ok_is_ok with v.
  - destruct (after <? timeout)%N; cbn [fst bind]; discriminate.
  - cbn [fst bind]. discriminate.
Qed.

(** A run that returns a value returns the value of the attempt at which
    it stopped, and every earlier attempt failed. *)
Lemma attempt_loop_Ok timeout retries fuel : forall attempt lastErr net v,
  (attempt + S fuel = S retries)%nat ->
  completion (attempt_loop rt timeout retries (S fuel) attempt lastErr net) = Ok v ->
  exists i,
    (i <= fuel)%nat /\
    attempt_result rt timeout (nth i net Hangs) = Ok v /\
    attempts (attempt_loop rt timeout retries (S fuel) attempt lastErr net) = S i /\
    forall j, (j < i)%nat -> exists e, attempt_result rt timeout (nth j net Hangs) = Throw e.
Proof.
  induction fuel as [|fuel IH]; intros attempt lastErr net v Hinv;
    rewrite attempt_loop_step, next_nth.
  - assert (Hlt : (attempt <? retries)%nat = false) by (apply Nat.ltb_ge; lia).
    rewrite Hlt.
    destruct (attempt_result rt timeout (nth 0 net Hangs)) as [v0|err] eqn:Hr;
      cbn [completion attempts]; intros H; [|discriminate].
    exists 0%nat. inversion H; subst. repeat split; auto. intros j Hj. lia.
  - assert (Hlt : (attempt <? retries)%nat = true) by (apply Nat.ltb_lt; lia).
    rewrite Hlt.
    destruct (attempt_result rt timeout (nth 0 net Hangs)) as [v0|err] eqn:Hr.
    + cbn [completion attempts]. intros H. exists 0%nat. inversion H; subst.
      repeat split; auto; [lia|]. intros j Hj. lia.
    + cbv zeta. cbn [completion attempts]. intros H.
      destruct (IH (S attempt) (Some err) (tl net) v) as (i & Hi & Hres & Hn & Hfail);
        [lia|exact H|].
      exists (S i). rewrite nth_tl in Hres. repeat split; auto; [lia|].
      intros j Hj. destruct j as [|j]; [eauto|].
      rewrite <- nth_tl. apply Hfail. lia.
Qed.

End HelperFacts.

(** X4.  [fetchWithTimeoutAndRetries] returns a value only from a
    response that is ok and arrived before the timer of its attempt
    fired, at one of the [retries + 1] attempts, every earlier attempt
    having failed; the value is [null] for an empty body, the parsed
    payload when the body parses, and the raw text otherwise.  It never
    returns the body of a response that is not ok. *)
Theorem fetchWithTimeoutAndRetries_returns_ok_response :
  forall (rt : Runtime) (net : network) (timeout : N) (retries : nat) (v : value),
    Part004.completion (Part004.fetchWithTimeoutAndRetries rt net timeout retries) = Ok v ->
    exists i after res,
      (i <= retries)%nat /\
      nth i net Hangs = Responds after res /\
      (after < timeout)%N /\ ok res = true /\
      v = (if text res =? "" then VNull
           else match JSON_parse rt (text res) with
                | Some x => x
                | None => VStr (text res)
                end) /\
      Part004.attempts (Part004.fetchWithTimeoutAndRetries rt net timeout retries) = S i /\
      forall j, (j < i)%nat ->
        exists e, Part004.attempt_result rt timeout (nth j net Hangs) = Throw e.
Proof.
  intros rt net timeout retries v H.
  unfold Part004.fetchWithTimeoutAndRetries in *.
  destruct (attempt_loop_Ok rt timeout retries retries 0 None net v eq_refl H)
    as (i & Hi & Hres & Hn & Hfail).
  destruct (attempt_result_Ok rt timeout _ v Hres) as (after & res & Ho & Hlt & Hok & Hbody).
  exists i, after, res. repeat split; auto.
  rewrite (read_body_ok rt res Hok) in Hbody. now inversion Hbody.
Qed.

(** X4 at a request that is first left unanswered and then answered in
    time. *)
Lemma fetchWithTimeoutAndRetries_returns_ok_response_witness :
  exists i after res,
    (i <= 2)%nat /\
    nth i [Hangs; Responds 10 Samples.success] Hangs = Responds after res /\
    (after < 30000)%N /\ ok res = true /\
    Samples.success_json =
      (if text res =? "" then VNull
       else match JSON_parse Samples.runtime (text res) with
            | Some x => x
            | None => VStr (text res)
            end) /\
    Part004.attempts
      (Part004.fetchWithTimeoutAndRetries Samples.runtime
         [Hangs; Responds 10 Samples.success] 30000 2) = S i /\
    forall j, (j < i)%nat ->
      exists e, Part004.attempt_result Samples.runtime 30000
                  (nth j [Hangs; Responds 10 Samples.success] Hangs) = Throw e.
Proof.
  apply (fetchWithTimeoutAndRetries_returns_ok_response Samples.runtime
           [Hangs; Responds 10 Samples.success] 30000 2 Samples.success_json).
  reflexivity.
Defined.



(* ===================================================================== *)
(** ** When [displayResults] completes, and what its sample table holds *)
(* ===================================================================== *)

Section DisplayFacts.
Import UploadPage Part004 Props.

Lemma get_Ok_readable v k x : get v k = Ok x -> readable v.
Proof. destruct v; cbn; intros H; try discriminate; split; discriminate. Qed.


Lemma index_Ok_readable v i x : index v i = Ok x -> readable v.
Proof. destruct v; cbn; intros H; try discriminate; split; discriminate. Qed.


Lemma as_array_Ok v l : as_array v = Ok l -> v = VArr l.
Proof. destruct v; cbn; intros H; try discriminate. now inversion H. Qed.

Lemma mapM_Ok_each {A B} (f : A -> result B) (l : list A) (l' : list B) :
  mapM f l = Ok l' -> forall x, In x l -> exists y, f x = Ok y /\ In y l'.
Proof.
  revert l'. induction l as [|a l IH]; intros l' H x Hin; [destruct Hin|].
  cbn [mapM] in H. destruct (f a) as [y|e] eqn:Hf; [|discriminate]. cbn [bind] in H.
  destruct (mapM f l) as [ys|e]; [|discriminate]. cbn [bind] in H.
  inversion H; subst. destruct Hin as [->|Hin].
  - exists y. split; [exact Hf | now left].
  - destruct (IH ys eq_refl x Hin) as [y' [Hy Hin']]. exists y'. split; [exact Hy | now right].
Qed.


Lemma mapM_Forall {A B} (f : A -> result B) (P : B -> Prop) (l : list A) (l' : list B) :
  (forall x y, In x l -> f x = Ok y -> P y) -> mapM f l = Ok l' -> Forall P l'.
Proof.
  revert l'. induction l as [|a l IH]; intros l' HP H; cbn [mapM] in H.
  - inversion H. constructor.
  - destruct (f a) as [y|e] eqn:Hf; [|discriminate]. cbn [bind] in H.
    destruct (mapM f l) as [ys|e]; [|discriminate]. cbn [bind] in H.
    inversion H; subst. constructor.
    + apply (HP a y); [now left | exact Hf].
    + apply IH; [|reflexivity]. intros x y' Hx. apply HP. now right.
Qed.

Lemma mapM_heads {A} (f : A -> result (list string)) (g : A -> string)
      (l : list A) (l' : list (list string)) :
  (forall x y, f x = Ok y -> nth 0 y "" = g x) ->
  mapM f l = Ok l' -> map (fun r => nth 0 r "") l' = map g l.
Proof.
  intros Hf. revert l'. induction l as [|a l IH]; intros l' H; cbn [mapM] in H.
  - now inversion H.
  - destruct (f a) as [y|e] eqn:Hy; [|discriminate]. cbn [bind] in H.
    destruct (mapM f l) as [ys|e]; [|discriminate]. cbn [bind] in H.
    inversion H; subst. cbn [map]. now rewrite (Hf a y Hy), (IH ys eq_refl).
Qed.

(** The card block never throws. *)
Lemma fill_cards_Ok rt summary p : fst (fill_cards rt summary p) = Ok tt.
Proof.
  unfold fill_cards, try_.
  match goal with |- fst (match ?x with _ => _ end) = _ =>
    destruct x as [[u|e] p'] end; [now destruct u | reflexivity].
Qed.

(** A cell of the sample table is safe. *)
Lemma sample_cell_safe val : safe_cell (sample_cell val).
Proof.
  unfold sample_cell.
  destruct val as [| |b|[|z]|s|l|f]; try (left; reflexivity);
    right; intros c Hc; now apply escapeHtml_no_markup.
Qed.

Lemma column_row_Ok summary col r :
  column_row summary col = Ok r ->
  nth 0 r "" = toString col /\
  forall k, In k ["data_types"; "missing_values"; "unique_counts"] ->
    exists m, get summary k = Ok m /\ readable m.
Proof.
  unfold column_row. intros H.
  destruct (get summary "data_types") as [dts|e] eqn:H1; [|discriminate]. cbn [bind] in H.
  destruct (get dts (toString col)) as [dt|e] eqn:H1'; [|discriminate]. cbn [bind] in H.
  destruct (get summary "missing_values") as [mvs|e] eqn:H2; [|discriminate]. cbn [bind] in H.
  destruct (get mvs (toString col)) as [mv|e] eqn:H2'; [|discriminate]. cbn [bind] in H.
  destruct (get summary "unique_counts") as [ucs|e] eqn:H3; [|discriminate]. cbn [bind] in H.
  destruct (get ucs (toString col)) as [uc|e] eqn:H3'; [|discriminate]. cbn [bind] in H.
  inversion H; subst. split; [reflexivity|].
  intros k [<-|[<-|[<-|[]]]]; eexists; split; eauto using get_Ok_readable.
Qed.


Lemma sample_row_Ok cols row cells :
  sample_row cols row = Ok cells ->
  List.length cells = List.length cols /\ Forall safe_cell cells /\
  (cols <> [] -> readable row).
Proof.
  unfold sample_row. intros H. split; [now apply mapM_length in H|]. split.
  - eapply mapM_Forall; [|exact H]. cbn beta. intros col cell _ Hc.
    destruct (get row (toString col)); [|discriminate]. cbn [bind] in Hc.
    inversion Hc. apply sample_cell_safe.
  - intros Hne. destruct cols as [|col cols]; [congruence|].
    destruct (mapM_Ok_each _ _ _ H col (or_introl eq_refl)) as [y [Hy _]].
    cbn beta in Hy. destruct (get row (toString col)) as [x|e] eqn:Hg; [|discriminate].
    eauto using get_Ok_readable.
Qed.


(** What a completed run of [displayResults] has read and written. *)
Lemma displayResults_Ok rt summary p :
  fst (displayResults rt summary p) = Ok tt ->
  exists shape cols sd colRows body,
    get summary "shape" = Ok shape /\ readable shape /\
    get summary "columns" = Ok (VArr cols) /\
    get summary "sample_data" = Ok (VArr sd) /\
    mapM (column_row summary) cols = Ok colRows /\
    mapM (sample_row cols) sd = Ok body /\
    columns_table (snd (displayResults rt summary p)) = colRows /\
    sample_head (snd (displayResults rt summary p)) = map toString cols /\
    sample_body (snd (displayResults rt summary p)) = body.
Proof.
  unfold displayResults, bindM, lift, modify.
  pose proof (fill_cards_Ok rt summary p) as Hfc.
  destruct (fill_cards rt summary p) as [[u|e] p1]; [|discriminate]. clear Hfc.
  destruct (get summary "shape") as [shape|e] eqn:Hshape; [|discriminate].
  destruct (index shape 0) as [rows|e] eqn:Hrows; [|discriminate].
  destruct (index shape 1) as [ncols|e]; [|discriminate].
  destruct (get summary "memory_usage") as [memory|e]; [|discriminate].
  destruct (get summary "columns") as [colsv|e] eqn:Hcols; [|discriminate].
  destruct (as_array colsv) as [cols|e] eqn:Harr; [|discriminate].
  apply as_array_Ok in Harr. subst colsv.
  destruct (mapM (column_row summary) cols) as [colRows|e] eqn:HcolRows; [|discriminate].
  destruct (get summary "sample_data") as [sdv|e] eqn:Hsd; [|discriminate].
  destruct (as_array sdv) as [sd|e] eqn:Harr; [|discriminate].
  apply as_array_Ok in Harr. subst sdv.
  destruct (mapM (sample_row cols) sd) as [body|e] eqn:Hbody; [|discriminate].
  intros _. exists shape, cols, sd, colRows, body. cbn.
  repeat split; eauto using index_Ok_readable.
  - exact (proj1 (index_Ok_readable _ _ _ Hrows)).
  - exact (proj2 (index_Ok_readable _ _ _ Hrows)).
Qed.

End DisplayFacts.

(** X6.  When [displayResults] of the upload page completes, the column
    table has one row per column, in the order of [columns], whose first
    cell is the column; the sample table has one row per entry of
    [sample_data] with one cell per column, and every one of these cells
    is the placeholder of a missing value or a text in which none of the
    characters <, >, double quote and single quote occurs. *)
Theorem displayResults_sample_cells_are_safe :
  forall (rt : Runtime) (summary : value) (p : UploadPage.Page),
    fst (Part004.displayResults rt summary p) = Ok tt ->
    exists cols sd,
      get summary "columns" = Ok (VArr cols) /\
      get summary "sample_data" = Ok (VArr sd) /\
      map (fun r => nth 0 r "")
          (UploadPage.columns_table (snd (Part004.displayResults rt summary p)))
        = map toString cols /\
      UploadPage.sample_head (snd (Part004.displayResults rt summary p))
        = map toString cols /\
      List.length (UploadPage.sample_body (snd (Part004.displayResults rt summary p)))
        = List.length sd /\
      Forall (fun row => List.length row = List.length cols /\ Forall Props.safe_cell row)
             (UploadPage.sample_body (snd (Part004.displayResults rt summary p))).
Proof.
  intros rt summary p H.
  destruct (displayResults_Ok rt summary p H)
    as (shape & cols & sd & colRows & body & _ & _ & Hc & Hs & Hrows & Hbody & -> & -> & ->).
  exists cols, sd. repeat split; auto.
  - eapply mapM_heads; [|exact Hrows]. intros col r Hr.
    exact (proj1 (column_row_Ok summary col r Hr)).
  - now apply mapM_length in Hbody.
  - eapply mapM_Forall; [|exact Hbody]. cbn beta. intros row cells _ Hr.
    destruct (sample_row_Ok _ _ _ Hr) as (Hl & Hsafe & _). auto.
Qed.

(** X6 at the sample summary with a row that holds markup. *)
Lemma displayResults_sample_cells_are_safe_witness :
  exists cols sd,
    get (Samples.partial_summary (VArr [VObj [("a", VStr "<b>x</b>")]])) "columns"
      = Ok (VArr cols) /\
    get (Samples.partial_summary (VArr [VObj [("a", VStr "<b>x</b>")]])) "sample_data"
      = Ok (VArr sd) /\
    map (fun r => nth 0 r "")
        (UploadPage.columns_table
           (snd (Part004.displayResults Samples.runtime
                   (Samples.partial_summary (VArr [VObj [("a", VStr "<b>x</b>")]]))
                   Samples.upload_page)))
      = map toString cols /\
    UploadPage.sample_head
      (snd (Part004.displayResults Samples.runtime
              (Samples.partial_summary (VArr [VObj [("a", VStr "<b>x</b>")]]))
              Samples.upload_page))
      = map toString cols /\
    List.length
      (UploadPage.sample_body
         (snd (Part004.displayResults Samples.runtime
                 (Samples.partial_summary (VArr [VObj [("a", VStr "<b>x</b>")]]))
                 Samples.upload_page)))
      = List.length sd /\
    Forall (fun row => List.length row = List.length cols /\ Forall Props.safe_cell row)
      (UploadPage.sample_body
         (snd (Part004.displayResults Samples.runtime
                 (Samples.partial_summary (VArr [VObj [("a", VStr "<b>x</b>")]]))
                 Samples.upload_page))).
Proof.
  apply (displayResults_sample_cells_are_safe Samples.runtime
           (Samples.partial_summary (VArr [VObj [("a", VStr "<b>x</b>")]]))
           Samples.upload_page).
  reflexivity.
Defined.


(* ===================================================================== *)
(** ** The blob helper and the report download *)
(* ===================================================================== *)

Section BlobFacts.
Import UploadPage Part004 Part004Handlers.
Variable timeout : N.

Lemma blob_loop_step retries fuel attempt lastErr net :
  blob_loop timeout retries (S fuel) attempt lastErr net =
  match blob_result timeout (next net) with
  | Ok blob => mkBlobRun (Ok blob) 1 (snd (fetch_with_abort (next net) timeout))
  | Throw err =>
      if (attempt <? retries)%nat then
        let r := blob_loop timeout retries fuel (S attempt) (Some err) (tl net) in
        mkBlobRun (blob_completion r) (S (blob_attempts r))
                  (snd (fetch_with_abort (next net) timeout) + blob_waited r)
      else mkBlobRun (Throw err) 1 (snd (fetch_with_abort (next net) timeout))
  end.
Proof.
  unfold blob_result. cbn [blob_loop].
  destruct (fetch_with_abort (next net) timeout) as [fetched t]. cbn [fst snd].
  destruct (bind fetched read_blob) as [v|err]; [reflexivity|].
  destruct (is_abort_or_timeout err); cbn [andb];
    destruct (attempt <? retries)%nat; reflexivity.
Qed.

(** The loop either stops at the first attempt that gives a blob, or
    makes every attempt and throws the failure of the last one. *)
Lemma blob_loop_cases retries fuel : forall attempt lastErr net,
  (attempt + S fuel = S retries)%nat ->
  (exists i blob,
     (i <= fuel)%nat /\
     blob_result timeout (nth i net Hangs) = Ok blob /\
     (forall j, (j < i)%nat -> exists e, blob_result timeout (nth j net Hangs) = Throw e) /\
     blob_completion (blob_loop timeout retries (S fuel) attempt lastErr net) = Ok blob /\
     blob_attempts (blob_loop timeout retries (S fuel) attempt lastErr net) = S i) \/
  (exists err,
     (forall j, (j <= fuel)%nat -> exists e, blob_result timeout (nth j net Hangs) = Throw e) /\
     blob_result timeout (nth fuel net Hangs) = Throw err /\
     blob_completion (blob_loop timeout retries (S fuel) attempt lastErr net) = Throw err /\
     blob_attempts (blob_loop timeout retries (S fuel) attempt lastErr net) = S fuel).
Proof.
  induction fuel as [|fuel IH]; intros attempt lastErr net Hinv;
    rewrite blob_loop_step, next_nth.
  - assert (Hlt : (attempt <? retries)%nat = false) by (apply Nat.ltb_ge; lia).
    rewrite Hlt.
    destruct (blob_result timeout (nth 0 net Hangs)) as [blob|err] eqn:Hr;
      cbn [blob_completion blob_attempts].
    + left. exists 0%nat, blob. repeat split; auto. intros j Hj. lia.
    + right. exists err. repeat split; auto.
      intros j Hj. assert (j = 0)%nat by lia. subst j. eauto.
  - assert (Hlt : (attempt <? retries)%nat = true) by (apply Nat.ltb_lt; lia).
    rewrite Hlt.
    destruct (blob_result timeout (nth 0 net Hangs)) as [blob|err] eqn:Hr.
    + cbn [blob_completion blob_attempts]. left. exists 0%nat, blob.
      repeat split; auto; [lia|]. intros j Hj. lia.
    + cbv zeta. cbn [blob_completion blob_attempts].
      destruct (IH (S attempt) (Some err) (tl net)) as
        [(i & blob & Hi & Hres & Hfail & Hc & Hn)|(err' & Hfail & Hlast & Hc & Hn)]; [lia| |].
      * left. exists (S i), blob. rewrite nth_tl in Hres.
        split; [lia|]. split; [exact Hres|].
        split; [|split; [exact Hc | now rewrite Hn]].
        intros j Hj. destruct j as [|j]; [eauto|]. rewrite <- nth_tl. apply Hfail. lia.
      * right. exists err'. rewrite nth_tl in Hlast.
        split; [|split; [exact Hlast | split; [exact Hc | now rewrite Hn]]].
        intros j Hj. destruct j as [|j]; [eauto|]. rewrite <- nth_tl. apply Hfail. lia.
Qed.

(** An attempt gives a blob only from an ok response that arrived in
    time, and the blob is its body. *)
Lemma blob_result_Ok o blob :
  blob_result timeout o = Ok blob ->
  exists after res,
    o = Responds after res /\ (after < timeout)%N /\ ok res = true /\
    blob = mkBlob (text res).
Proof.
  unfold blob_result. destruct o as [after res|after e|]; cbn [fetch_with_abort].
  - destruct (N.ltb_spec after timeout) as [Hlt|Hge]; cbn [fst bind]; [|discriminate].
    unfold read_blob. destruct (ok res) eqn:Hok; cbn [negb]; [|discriminate].
    intros H. inversion H. exists after, res. auto.
  - destruct (after <? timeout)%N; cbn [fst bind]; discriminate.
  - cbn [fst bind]. discriminate.
Qed.

End BlobFacts.

Section ReportNameFacts.
Import Part004Handlers.



End ReportNameFacts.

(** X8.  [fetchBlobWithTimeoutAndRetries] makes between one and
    [retries + 1] attempts.  It returns a blob only from a response that
    is ok and arrived before the timer fired, the blob being the body of
    that response, after every earlier attempt failed; it throws only
    after all [retries + 1] attempts failed, and then throws the failure
    of the last attempt. *)
Theorem fetchBlobWithTimeoutAndRetries_outcome :
  forall (net : network) (timeout : N) (retries : nat),
    (1 <= Part004Handlers.blob_attempts
            (Part004Handlers.fetchBlobWithTimeoutAndRetries net timeout retries)
       <= S retries)%nat /\
    (forall blob,
       Part004Handlers.blob_completion
         (Part004Handlers.fetchBlobWithTimeoutAndRetries net timeout retries) = Ok blob ->
       exists i after res,
         (i <= retries)%nat /\ nth i net Hangs = Responds after res /\
         (after < timeout)%N /\ ok res = true /\
         blob = Part004Handlers.mkBlob (text res) /\
         Part004Handlers.blob_attempts
           (Part004Handlers.fetchBlobWithTimeoutAndRetries net timeout retries) = S i /\
         forall j, (j < i)%nat ->
           exists e, Part004Handlers.blob_result timeout (nth j net Hangs) = Throw e) /\
    (forall err,
       Part004Handlers.blob_completion
         (Part004Handlers.fetchBlobWithTimeoutAndRetries net timeout retries) = Throw err ->
       Part004Handlers.blob_attempts
         (Part004Handlers.fetchBlobWithTimeoutAndRetries net timeout retries) = S retries /\
       Part004Handlers.blob_result timeout (nth retries net Hangs) = Throw err /\
       forall j, (j <= retries)%nat ->
         exists e, Part004Handlers.blob_result timeout (nth j net Hangs) = Throw e).
Proof.
  intros net timeout retries. unfold Part004Handlers.fetchBlobWithTimeoutAndRetries.
  destruct (blob_loop_cases timeout retries retries 0 None net eq_refl) as
    [(i & blob & Hi & Hres & Hfail & Hc & Hn)|(err & Hfail & Hlast & Hc & Hn)].
  - split; [lia|]. split.
    + intros blob' H. rewrite Hc in H. inversion H; subst blob'.
      destruct (blob_result_Ok timeout _ blob Hres) as (after & res & Ho & Hlt & Hok & Hb).
      exists i, after, res. repeat split; auto.
    + intros err H. rewrite Hc in H. discriminate.
  - split; [lia|]. split.
    + intros blob H. rewrite Hc in H. discriminate.
    + intros err' H. rewrite Hc in H. inversion H; subst err'. auto.
Qed.

(** X8 at a response that is not ok followed by an ok one. *)
Lemma fetchBlobWithTimeoutAndRetries_outcome_witness :
  exists i after res,
    (i <= 1)%nat /\
    nth i [Responds 10 Samples.disk_full; Responds 20 Samples.success] Hangs
      = Responds after res /\
    (after < 30000)%N /\ ok res = true /\
    Part004Handlers.mkBlob Samples.success_text = Part004Handlers.mkBlob (text res) /\
    Part004Handlers.blob_attempts
      (Part004Handlers.fetchBlobWithTimeoutAndRetries
         [Responds 10 Samples.disk_full; Responds 20 Samples.success] 30000 1) = S i /\
    forall j, (j < i)%nat ->
      exists e, Part004Handlers.blob_result 30000
                  (nth j [Responds 10 Samples.disk_full; Responds 20 Samples.success] Hangs)
                = Throw e.
Proof.
  apply (proj1 (proj2 (fetchBlobWithTimeoutAndRetries_outcome
                         [Responds 10 Samples.disk_full; Responds 20 Samples.success]
                         30000 1))
           (Part004Handlers.mkBlob Samples.success_text)).
  reflexivity.
Defined.


(* ===================================================================== *)
(** ** What a statement leaves untouched *)
(* ===================================================================== *)

Section KeepsFacts.
Import Props.
Context {S B : Type} (proj : S -> B).

Lemma keeps_ret {A} (a : A) : keeps proj (ret a).
Proof. intros s. reflexivity. Qed.

Lemma keeps_lift {A} (r : result A) : keeps proj (lift r).
Proof. intros s. reflexivity. Qed.

Lemma keeps_read {A} (f : S -> A) : keeps proj (read f).
Proof. intros s. reflexivity. Qed.

Lemma keeps_modify (f : S -> S) :
  (forall s, proj (f s) = proj s) -> keeps proj (modify f).
Proof. intros H s. apply H. Qed.

Lemma keeps_bind {A C} (c : Eff.M S A) (k : A -> Eff.M S C) :
  keeps proj c -> (forall a, keeps proj (k a)) -> keeps proj (bindM c k).
Proof.
  intros Hc Hk s. unfold bindM. specialize (Hc s).
  destruct (c s) as [[a|e] s']; cbn [snd] in *; [|exact Hc].
  now rewrite (Hk a s').
Qed.

Lemma keeps_try {A} (c : Eff.M S A) (h : Error -> Eff.M S A) :
  keeps proj c -> (forall e, keeps proj (h e)) -> keeps proj (try_ c h).
Proof.
  intros Hc Hh s. unfold try_. specialize (Hc s).
  destruct (c s) as [[a|e] s']; cbn [snd] in *; [exact Hc|].
  now rewrite (Hh e s').
Qed.

Lemma keeps_when_present {A} (el : option A) (c : Eff.M S unit) :
  keeps proj c -> keeps proj (when_present el c).
Proof. intros Hc. destruct el; [exact Hc | apply keeps_ret]. Qed.

End KeepsFacts.

Ltac keeps_step :=
  first
    [ apply keeps_bind; [|intros ?]
    | apply keeps_try; [|intros ?]
    | apply keeps_when_present
    | apply keeps_lift
    | apply keeps_ret
    | apply keeps_read
    | apply keeps_modify; intros ?; reflexivity
    | match goal with
      | |- Props.keeps _ (if ?b then _ else _) => destruct b
      | |- Props.keeps _ (match ?x with _ => _ end) => destruct x
      end ].

Section UploadKeepsFacts.
Import UploadPage Part004 Props.

Lemma fill_cards_keeps_summary rt summary :
  keeps (fun p => (currentSummary p, currentFilename p)) (fill_cards rt summary).
Proof. unfold fill_cards. repeat keeps_step. Qed.

Lemma displayResults_keeps_summary rt summary :
  keeps (fun p => (currentSummary p, currentFilename p)) (displayResults rt summary).
Proof.
  unfold displayResults.
  apply keeps_bind; [apply fill_cards_keeps_summary|intros ?].
  repeat keeps_step.
Qed.

End UploadKeepsFacts.

Section UploadSummaryFacts.
Import UploadPage Part004 Props.

(** The [.then] handler leaves the held summary and file name alone
    unless the payload reports success, directly or as JSON text. *)
Lemma upload_then_keeps_unless_success rt file data p :
  truthy data && truthy (match get data "success" with Ok v => v | Throw _ => VUndefined end)
    = false ->
  (forall raw parsed,
     data = VStr raw -> parse rt raw = Ok parsed ->
     truthy parsed
       && truthy (match get parsed "success" with Ok v => v | Throw _ => VUndefined end)
       = false) ->
  currentSummary (snd (upload_then rt file data p)) = currentSummary p /\
  currentFilename (snd (upload_then rt file data p)) = currentFilename p.
Proof.
  intros Hs Hraw. unfold upload_then, bindM, modify. cbn beta iota. rewrite Hs.
  destruct data as [| |b|n|raw|l|f]; try (split; reflexivity).
  unfold try_, lift.
  destruct (parse rt raw) as [parsed|e] eqn:Hp; [|split; reflexivity].
  rewrite (Hraw raw parsed eq_refl Hp).
  destruct (get parsed "error") as [perr|e]; [|split; reflexivity].
  destruct (get parsed "message") as [pmsg|e]; split; reflexivity.
Qed.

Lemma upload_catch_keeps rt err p :
  currentSummary (upload_catch rt err p) = currentSummary p /\
  currentFilename (upload_catch rt err p) = currentFilename p.
Proof. unfold upload_catch. destruct (negb (onLine rt)); split; reflexivity. Qed.

End UploadSummaryFacts.

(** X10.  [uploadFile] of the upload page replaces the held summary or
    the held file name only when the helper returned a payload that
    reports success, either as an object whose [success] is truthy or as
    a string whose JSON text parses to such an object. *)
Theorem uploadFile_replaces_summary_only_on_success :
  forall (rt : Runtime) (net : network) (file : UploadPage.File) (p : UploadPage.Page),
    (UploadPage.currentSummary (fst (Part004.uploadFile rt net file p))
       <> UploadPage.currentSummary p \/
     UploadPage.currentFilename (fst (Part004.uploadFile rt net file p))
       <> UploadPage.currentFilename p) ->
    exists data,
      Part004.completion (Part004.fetchWithTimeoutAndRetries rt net 30000 2) = Ok data /\
      ((truthy data = true /\ truthy (Part005.field data "success") = true) \/
       (exists raw parsed,
          data = VStr raw /\ parse rt raw = Ok parsed /\
          truthy parsed = true /\ truthy (Part005.field parsed "success") = true)).
Proof.
  intros rt net file p Hchanged. unfold Part004.uploadFile in Hchanged.
  destruct (Part004.completion (Part004.fetchWithTimeoutAndRetries rt net 30000 2))
    as [data|err] eqn:Hc.
  - exists data. split; [reflexivity|].
    destruct (truthy data && truthy (Part005.field data "success")) eqn:Hs.
    { left. now apply andb_prop in Hs. }
    assert (Hdec :
      (exists raw parsed, data = VStr raw /\ parse rt raw = Ok parsed /\
         truthy parsed && truthy (Part005.field parsed "success") = true) \/
      (forall raw parsed, data = VStr raw -> parse rt raw = Ok parsed ->
         truthy parsed && truthy (Part005.field parsed "success") = false)).
    { destruct data as [| |b|n|raw|l|f]; try (right; intros; discriminate).
      destruct (parse rt raw) as [parsed|e] eqn:Hp.
      - destruct (truthy parsed && truthy (Part005.field parsed "success")) eqn:Hps.
        + left. exists raw, parsed. auto.
        + right. intros raw' parsed' Hr Hp'. inversion Hr; subst. congruence.
      - right. intros raw' parsed' Hr Hp'. inversion Hr; subst. congruence. }
    destruct Hdec as [(raw & parsed & Hd & Hp & Hps)|Hno].
    { right. exists raw, parsed. apply andb_prop in Hps. tauto. }
    exfalso.
    destruct (upload_then_keeps_unless_success rt file data
                (UploadPage.set_results_hidden true
                   (UploadPage.set_loading_hidden false (UploadPage.hideError p))) Hs Hno)
      as [H1 H2].
    destruct (Part004.upload_then rt file data _) as [[u|e] p'] eqn:Hthen;
      cbn [fst snd] in *.
    + destruct Hchanged as [H|H]; apply H; [rewrite H1|rewrite H2]; reflexivity.
    + destruct (upload_catch_keeps rt e p') as [H3 H4].
      destruct Hchanged as [H|H]; apply H;
        [rewrite H3, H1|rewrite H4, H2]; reflexivity.
  - exfalso. cbn [fst] in Hchanged.
    destruct (upload_catch_keeps rt err
                (UploadPage.set_results_hidden true
                   (UploadPage.set_loading_hidden false (UploadPage.hideError p))))
      as [H3 H4].
    destruct Hchanged as [H|H]; apply H; [rewrite H3|rewrite H4]; reflexivity.
Qed.

(** X10 at the sample success response. *)
Lemma uploadFile_replaces_summary_only_on_success_witness :
  exists data,
    Part004.completion
      (Part004.fetchWithTimeoutAndRetries Samples.runtime
         [Responds 10 Samples.success] 30000 2) = Ok data /\
    ((truthy data = true /\ truthy (Part005.field data "success") = true) \/
     (exists raw parsed,
        data = VStr raw /\ parse Samples.runtime raw = Ok parsed /\
        truthy parsed = true /\ truthy (Part005.field parsed "success") = true)).
Proof.
  apply (uploadFile_replaces_summary_only_on_success Samples.runtime
           [Responds 10 Samples.success] Samples.csv_file Samples.upload_page).
  left. cbn. discriminate.
Defined.



(* ===================================================================== *)
(** ** The options of the type filter *)
(* ===================================================================== *)

Section TypeFilterFacts.
Import SummaryPage Props.

Lemma same_value_string a y : same_value (VStr a) y = true <-> y = VStr a.
Proof.
  destruct y; cbn; try (split; [discriminate|intros H; discriminate]).
  rewrite String.eqb_eq. split; [intros ->; reflexivity | intros H; now inversion H].
Qed.

Lemma seen_string a seen : existsb (same_value (VStr a)) seen = true <-> In (VStr a) seen.
Proof.
  rewrite existsb_exists. split.
  - intros [y [Hin Hy]]. apply same_value_string in Hy. now subst.
  - intros Hin. exists (VStr a). split; [exact Hin | now apply same_value_string].
Qed.

(** The members of a [Set] built from strings: each string once, in the
    order of first occurrence. *)
Lemma set_of_strings l : forall seen,
  Forall is_string l ->
  NoDup (set_of seen l) /\
  forall x, In x (set_of seen l) <-> In x l /\ ~ In x seen.
Proof.
  induction l as [|v l IH]; intros seen Hl.
  - cbn. split; [constructor|]. intros x. tauto.
  - inversion Hl as [|v' l' [a Ha] Hl']; subst. cbn [set_of].
    destruct (existsb (same_value (VStr a)) seen) eqn:Hseen.
    + apply seen_string in Hseen. destruct (IH seen Hl') as [Hnd Hin].
      split; [exact Hnd|]. intros x. rewrite Hin. cbn [In]. split.
      * intros [H1 H2]. auto.
      * intros [[<-|H1] H2]; [contradiction|auto].
    + assert (Hnot : ~ In (VStr a) seen).
      { intros H. apply seen_string in H. congruence. }
      destruct (IH (VStr a :: seen) Hl') as [Hnd Hin]. split.
      * constructor; [|exact Hnd]. rewrite Hin. cbn [In]. tauto.
      * intros x. cbn [In]. rewrite Hin. cbn [In]. split.
        -- intros [<-|[H1 H2]]; [auto|]. split; [auto|]. tauto.
        -- intros [[<-|H1] H2]; [auto|].
           rewrite Forall_forall in Hl'. destruct (Hl' x H1) as [b ->].
           destruct (String.eqb_spec a b) as [->|Hne]; [auto|].
           right. split; [exact H1|]. intros [H3|H3]; [|contradiction].
           inversion H3. contradiction.
Qed.

Lemma textContent_of_strings l :
  Forall is_string l ->
  forall s, In s (map textContent_of l) <-> In (VStr s) l.
Proof.
  intros Hl s. rewrite in_map_iff. rewrite Forall_forall in Hl. split.
  - intros [x [Hx Hin]]. destruct (Hl x Hin) as [b ->]. cbn in Hx. now subst.
  - intros Hin. exists (VStr s). auto.
Qed.

Lemma NoDup_textContent_of l :
  Forall is_string l -> NoDup l -> NoDup (map textContent_of l).
Proof.
  induction l as [|v l IH]; intros Hl Hnd; [constructor|].
  inversion Hl as [|v' l' [a Ha] Hl']; subst. inversion Hnd; subst.
  cbn [map textContent_of toString]. constructor; [|auto].
  rewrite (textContent_of_strings l Hl'). assumption.
Qed.

End TypeFilterFacts.

(** X12.  [populateTypeFilter] on a summary whose type labels are strings
    completes and leaves in the type filter exactly the labels that occur
    in [data_types], each once; a summary without [data_types] leaves no
    option. *)
Theorem populateTypeFilter_offers_each_type_once :
  forall (summary dts : value) (p : SummaryPage.Page),
    get summary "data_types" = Ok dts ->
    Forall Props.is_string (values (or_else dts (VObj []))) ->
    fst (Part000.populateTypeFilter summary p) = Ok tt /\
    NoDup (SummaryPage.type_options (snd (Part000.populateTypeFilter summary p))) /\
    (forall s,
       In s (SummaryPage.type_options (snd (Part000.populateTypeFilter summary p)))
       <-> In (VStr s) (values (or_else dts (VObj [])))) /\
    (truthy dts = false ->
       SummaryPage.type_options (snd (Part000.populateTypeFilter summary p)) = []).
Proof.
  intros summary dts p Hget Hstr.
  unfold Part000.populateTypeFilter, bindM, lift, modify. rewrite Hget. cbn [fst snd].
  cbn [SummaryPage.type_options SummaryPage.set_type_options].
  destruct (set_of_strings (values (or_else dts (VObj []))) [] Hstr) as [Hnd Hin].
  assert (Hall : Forall Props.is_string
                   (SummaryPage.set_of [] (values (or_else dts (VObj []))))).
  { apply Forall_forall. intros x Hx. apply Hin in Hx as [Hx _].
    rewrite Forall_forall in Hstr. now apply Hstr. }
  split; [reflexivity|]. split; [now apply NoDup_textContent_of|]. split.
  - intros s. rewrite (textContent_of_strings _ Hall), Hin. cbn [In]. tauto.
  - intros Hf. unfold or_else. rewrite Hf. reflexivity.
Qed.

(** X12 at the sample summary, whose only type label is int64. *)
Lemma populateTypeFilter_offers_each_type_once_witness :
  fst (Part000.populateTypeFilter (Samples.partial_summary (VArr [])) Samples.summary_page)
    = Ok tt.
Proof.
  apply (populateTypeFilter_offers_each_type_once (Samples.partial_summary (VArr []))
           (VObj [("a", VStr "int64")]) Samples.summary_page).
  - reflexivity.
  - cbn. constructor; [exists "int64"; reflexivity | constructor].
Defined.

(* ===================================================================== *)
(** ** The two row builders of the seven-column script *)
(* ===================================================================== *)

Section RowBuilderFacts.
Import SummaryPage.




End RowBuilderFacts.



(* ===================================================================== *)
(** ** The upload of the summary page *)
(* ===================================================================== *)

Section SummaryUploadFacts.

Lemma index_key_starts_with_digit n :
  exists c rest, Z_to_string (Z.of_nat n) = String c rest /\
                 (48 <=? nat_of_ascii c)%nat && (nat_of_ascii c <=? 57)%nat = true.
Proof.
  unfold Z_to_string.
  destruct (Z.of_nat n) as [|q|q] eqn:Hz; [| |lia].
  - exists "0"%char, EmptyString. split; reflexivity.
  - cbn [Z.to_int NilZero.string_of_int]. unfold NilZero.string_of_uint.
    destruct (Pos.to_uint q) as [|d|d|d|d|d|d|d|d|d|d] eqn:Hq;
      cbn [NilEmpty.string_of_uint]; eexists; eexists; split; reflexivity.
Qed.

(** A key that starts with a letter is not an index of an array or of a
    string. *)
Lemma lookup_index_keys_letter c rest (l : list value) : forall n,
  (48 <=? nat_of_ascii c)%nat && (nat_of_ascii c <=? 57)%nat = false ->
  lookup (String c rest) (index_keys n l) = None.
Proof.
  induction l as [|x l IH]; intros n Hc; [reflexivity|].
  cbn [index_keys lookup].
  destruct (index_key_starts_with_digit n) as (d & rest' & -> & Hd).
  destruct (String.eqb_spec (String c rest) (String d rest')) as [He|_]; [|now apply IH].
  inversion He; subst. congruence.
Qed.

Lemma field_of_string s k c rest :
  k = String c rest ->
  (48 <=? nat_of_ascii c)%nat && (nat_of_ascii c <=? 57)%nat = false ->
  (k =? "length") = false ->
  Part005.field (VStr s) k = VUndefined.
Proof.
  intros -> Hc Hl. unfold Part005.field. cbn [get entries].
  now rewrite lookup_index_keys_letter, Hl.
Qed.

End SummaryUploadFacts.

Ltac upload_settled_null :=
  cbn; split; [reflexivity|]; split; [repeat split|]; split; [split; discriminate|];
  let v := fresh "v" in let Hv := fresh "Hv" in
  intros v Hv; inversion Hv; left; auto.

(** X14.  [uploadFileAndRefresh] of the four-column script sends exactly
    one request and writes nothing but the status region (and the
    console): the table, the widget, the cards and the type filter are as
    before.  It never settles exactly when the request never settles.
    When it settles it either returns the [summary] of a parsed payload
    whose [success] is truthy, taken from an ok response, with the status
    Analysis complete and no error mark, or it returns [null] with the
    status marked as an error. *)
Theorem Part000_uploadFileAndRefresh_outcome :
  forall (rt : Runtime) (o : outcome) (p : SummaryPage.Page),
    Part000.requests (Part000.uploadFileAndRefresh rt o p) = 1%nat /\
    (SummaryPage.table_view (Part000.page (Part000.uploadFileAndRefresh rt o p))
       = SummaryPage.table_view p /\
     SummaryPage.card_columns (Part000.page (Part000.uploadFileAndRefresh rt o p))
       = SummaryPage.card_columns p /\
     SummaryPage.card_rows (Part000.page (Part000.uploadFileAndRefresh rt o p))
       = SummaryPage.card_rows p /\
     SummaryPage.card_missing (Part000.page (Part000.uploadFileAndRefresh rt o p))
       = SummaryPage.card_missing p /\
     SummaryPage.card_size (Part000.page (Part000.uploadFileAndRefresh rt o p))
       = SummaryPage.card_size p /\
     SummaryPage.type_options (Part000.page (Part000.uploadFileAndRefresh rt o p))
       = SummaryPage.type_options p) /\
    (Part000.returned (Part000.uploadFileAndRefresh rt o p) = None <-> o = Hangs) /\
    (forall v,
       Part000.returned (Part000.uploadFileAndRefresh rt o p) = Some v ->
       (v = VNull /\
        SummaryPage.status_danger (Part000.page (Part000.uploadFileAndRefresh rt o p)) = true)
       \/
       (SummaryPage.status_danger (Part000.page (Part000.uploadFileAndRefresh rt o p)) = false /\
        SummaryPage.status_text (Part000.page (Part000.uploadFileAndRefresh rt o p))
          = "Analysis complete" /\
        exists after res payload,
          o = Responds after res /\ ok res = true /\
          parse rt (text res) = Ok payload /\
          truthy (Part005.field payload "success") = true /\
          v = Part005.field payload "summary")).
Proof.
  intros rt o p. unfold Part000.uploadFileAndRefresh.
  destruct o as [after res|after e|]; cbn [fetch_plain].
  - destruct (ok res) eqn:Hok; cbn [negb].
    + destruct (text res =? "") eqn:Htext; [upload_settled_null|].
      destruct (parse rt (text res)) as [payload|e] eqn:Hparse.
      * fold (Part005.field payload "success"). fold (Part005.field payload "summary").
        destruct (truthy payload && truthy (Part005.field payload "success")) eqn:Hs;
          [|upload_settled_null].
        cbn. split; [reflexivity|]. split; [repeat split|]. split; [split; discriminate|].
        intros v Hv. inversion Hv. right. split; [reflexivity|]. split; [reflexivity|].
        exists after, res, payload. apply andb_prop in Hs. repeat split; tauto.
      * fold (Part005.field (VStr (text res)) "success").
        rewrite (field_of_string (text res) "success" "s" "uccess" eq_refl eq_refl eq_refl).
        cbn [truthy]. rewrite andb_false_r. upload_settled_null.
    + destruct (truthy _ && truthy _); upload_settled_null.
  - upload_settled_null.
  - cbn. split; [reflexivity|]. split; [repeat split|]. split; [split; reflexivity|].
    intros v Hv. discriminate.
Qed.

(** X14 at the sample success response. *)
Lemma Part000_uploadFileAndRefresh_outcome_witness :
  (Part005.field Samples.success_json "summary" = VNull /\
   SummaryPage.status_danger
     (Part000.page (Part000.uploadFileAndRefresh Samples.runtime
                      (Responds 10 Samples.success) Samples.summary_page)) = true)
  \/
  (SummaryPage.status_danger
     (Part000.page (Part000.uploadFileAndRefresh Samples.runtime
                      (Responds 10 Samples.success) Samples.summary_page)) = false /\
   SummaryPage.status_text
     (Part000.page (Part000.uploadFileAndRefresh Samples.runtime
                      (Responds 10 Samples.success) Samples.summary_page))
     = "Analysis complete" /\
   exists after res payload,
     Responds 10 Samples.success = Responds after res /\ ok res = true /\
     parse Samples.runtime (text res) = Ok payload /\
     truthy (Part005.field payload "success") = true /\
     Part005.field Samples.success_json "summary" = Part005.field payload "summary").
Proof.
  apply (proj2 (proj2 (proj2 (Part000_uploadFileAndRefresh_outcome Samples.runtime
                                (Responds 10 Samples.success) Samples.summary_page)))).
  reflexivity.
Defined.

(* ===================================================================== *)
(** ** The upload button of the summary page *)
(* ===================================================================== *)

Section UploadButtonFacts.
Import SummaryPage Props.

Lemma populateCards_keeps_button rt summary :
  keeps upload_disabled (Part000.populateCards rt summary).
Proof. unfold Part000.populateCards. repeat keeps_step. Qed.

Lemma populateTypeFilter_keeps_button summary :
  keeps upload_disabled (Part000.populateTypeFilter summary).
Proof. unfold Part000.populateTypeFilter. repeat keeps_step. Qed.

Lemma dt_replace_keeps_button dt rows : keeps upload_disabled (dt_replace dt rows).
Proof. unfold dt_replace. repeat keeps_step. Qed.

Lemma Part000_buildTable_keeps_button summary :
  keeps upload_disabled (Part000.buildTable summary).
Proof.
  unfold Part000.buildTable.
  repeat first [apply dt_replace_keeps_button | keeps_step].
Qed.

Lemma Part000_uploadFileAndRefresh_keeps_button rt o p :
  upload_disabled (Part000.page (Part000.uploadFileAndRefresh rt o p)) = upload_disabled p.
Proof.
  unfold Part000.uploadFileAndRefresh.
  destruct (fetch_plain o) as [[[res|e] t]|]; try reflexivity.
  destruct (negb (ok res)); [reflexivity|].
  destruct (truthy _ && truthy _); reflexivity.
Qed.

Lemma Part000_upload_settles rt o p :
  Part000.requests (Part000.uploadFileAndRefresh rt o p) = 1%nat /\
  (Part000.returned (Part000.uploadFileAndRefresh rt o p) = None <-> o = Hangs).
Proof.
  unfold Part000.uploadFileAndRefresh.
  destruct o as [after res|after e|]; cbn [fetch_plain].
  - destruct (negb (ok res)); [cbn; split; [reflexivity|split; discriminate]|].
    destruct (truthy _ && truthy _); cbn; split; try reflexivity; split; discriminate.
  - cbn. split; [reflexivity|split; discriminate].
  - cbn. split; [reflexivity|split; reflexivity].
Qed.

End UploadButtonFacts.

(** X15.  The click handler of the upload button of the four-column
    script sends at most one request, and none without a selected file.
    With a selected file, the button is enabled again once the upload has
    settled -- also when the rendering that follows throws -- and stays
    disabled only while the request never settles. *)
Theorem Part000_upload_click_reenables_button :
  forall (rt : Runtime) (o : outcome) (f : option UploadPage.File) (p : SummaryPage.Page),
    (snd (Part000.upload_click rt o f p) <= 1)%nat /\
    (f = None ->
       snd (Part000.upload_click rt o f p) = 0%nat /\
       SummaryPage.upload_disabled (snd (fst (Part000.upload_click rt o f p)))
         = SummaryPage.upload_disabled p) /\
    (f <> None -> o <> Hangs ->
       SummaryPage.upload_disabled (snd (fst (Part000.upload_click rt o f p))) = false) /\
    (f <> None -> o = Hangs ->
       SummaryPage.upload_disabled (snd (fst (Part000.upload_click rt o f p))) = true).
Proof.
  intros rt o f p. unfold Part000.upload_click. destruct f as [file|].
  2:{ cbn. repeat split; try lia; congruence. }
  destruct (Part000_upload_settles rt o
              (SummaryPage.set_upload_disabled true p)) as (Hreq & Hnone).
  pose proof (Part000_uploadFileAndRefresh_keeps_button rt o
                (SummaryPage.set_upload_disabled true p)) as Hkeep.
  destruct (Part000.returned _) as [newSummary|] eqn:Hret.
  - assert (Ho : o <> Hangs).
    { intros ->. destruct Hnone as [_ H]. specialize (H eq_refl). discriminate. }
    destruct (truthy newSummary).
    + cbn [fst snd]. rewrite Hreq. split; [lia|]. split; [discriminate|]. split.
      * intros _ _.
        match goal with |- SummaryPage.upload_disabled (snd (?c ?q)) = false =>
          assert (Hk : Props.keeps SummaryPage.upload_disabled c) end.
        { repeat first [ apply populateCards_keeps_button
                       | apply populateTypeFilter_keeps_button
                       | apply Part000_buildTable_keeps_button
                       | apply dt_replace_keeps_button
                       | keeps_step ]. }
        rewrite Hk. reflexivity.
      * intros _ H. contradiction.
    + cbn [fst snd]. rewrite Hreq. split; [lia|]. split; [discriminate|]. split.
      * intros _ _. reflexivity.
      * intros _ H. contradiction.
  - assert (Ho : o = Hangs) by (now apply Hnone).
    cbn [fst snd]. rewrite Hreq. split; [lia|]. split; [discriminate|]. split.
    + intros _ H. contradiction.
    + intros _ _. rewrite Hkeep. reflexivity.
Qed.

(** X15 at an upload that is answered by the disk-full error. *)
Lemma Part000_upload_click_reenables_button_witness :
  SummaryPage.upload_disabled
    (snd (fst (Part000.upload_click Samples.runtime (Responds 10 Samples.disk_full)
                 (Some Samples.csv_file) Samples.summary_page))) = false.
Proof.
  apply (proj1 (proj2 (proj2 (Part000_upload_click_reenables_button Samples.runtime
                                (Responds 10 Samples.disk_full) (Some Samples.csv_file)
                                Samples.summary_page)))).
  - discriminate.
  - discriminate.
Defined.

(* ===================================================================== *)
(** ** The chart panel *)
(* ===================================================================== *)

Section ChartPanelFacts.
Import SummaryPage Part005 ChartSpec.

(** The cards selected: those of the priorities, then the others while
    there is room. *)
Lemma select_cards charts :
  chartsHtml (select charts)
    = (map snd (priority charts)
       ++ firstn (MAX_CHARTS - List.length (priority charts)) (others charts))%list.
Proof.
  unfold select. rewrite priority_steps. unfold fallback, others.
  pose proof (priority_length charts) as Hlen.
  destruct (Nat.ltb_spec (count (state_of (priority charts))) MAX_CHARTS) as [Hroom|Hfull].
  - destruct (fill_spec charts (unused charts (state_of (priority charts)))
                (state_of (priority charts))) as [Hh _].
    { cbn. now rewrite length_map. }
    rewrite Hh. reflexivity.
  - cbn [state_of count] in Hfull.
    replace (MAX_CHARTS - List.length (priority charts))%nat with 0%nat by lia.
    cbn [firstn state_of chartsHtml]. now rewrite app_nil_r.
Qed.

Lemma select_cards_length charts :
  (List.length (chartsHtml (select charts)) <= MAX_CHARTS)%nat.
Proof.
  rewrite select_cards, length_app, length_map, length_firstn.
  pose proof (priority_length charts). lia.
Qed.

End ChartPanelFacts.

(** X16.  [displayCharts] never settles exactly when the request to
    /charts never settles.  When it settles, either the payload of an ok
    response reported success, the chart section is shown and its
    container holds between one and four cards or the notice that no
    chart could be generated, or the section is hidden and the container
    keeps what it held.  The table is never touched. *)
Theorem displayCharts_outcome :
  forall (rt : Runtime) (o : outcome) (p : SummaryPage.Page),
    (Part005.displayCharts rt o p = None <-> o = Hangs) /\
    (forall p',
       Part005.displayCharts rt o p = Some p' ->
       SummaryPage.table_view p' = SummaryPage.table_view p /\
       ((SummaryPage.charts_display p' = "none" /\
         SummaryPage.charts_container p' = SummaryPage.charts_container p)
        \/
        (SummaryPage.charts_display p' = "block" /\
         (SummaryPage.charts_container p' = SummaryPage.NoChartsNotice \/
          exists cards,
            SummaryPage.charts_container p' = SummaryPage.Cards cards /\
            (1 <= List.length cards <= Part005.MAX_CHARTS)%nat) /\
         exists after res payload,
           o = Responds after res /\ ok res = true /\
           parse rt (text res) = Ok payload /\
           truthy (Part005.field payload "success") = true))).
Proof.
  intros rt o p.
  assert (Hsettled : forall p',
            Part005.displayCharts rt o p = Some p' ->
            SummaryPage.table_view p' = SummaryPage.table_view p /\
            ((SummaryPage.charts_display p' = "none" /\
              SummaryPage.charts_container p' = SummaryPage.charts_container p)
             \/
             (SummaryPage.charts_display p' = "block" /\
              (SummaryPage.charts_container p' = SummaryPage.NoChartsNotice \/
               exists cards,
                 SummaryPage.charts_container p' = SummaryPage.Cards cards /\
                 (1 <= List.length cards <= Part005.MAX_CHARTS)%nat) /\
              exists after res payload,
                o = Responds after res /\ ok res = true /\
                parse rt (text res) = Ok payload /\
                truthy (Part005.field payload "success") = true))).
  { unfold Part005.displayCharts.
    destruct o as [after res|after e|]; cbn [fetch_plain bind]; intros p' H;
      [| inversion H; subst p'; split; [reflexivity|]; left; split; reflexivity
       | discriminate].
    destruct (ok res) eqn:Hok; cbn [negb] in H;
      [| inversion H; subst p'; split; [reflexivity|]; left; split; reflexivity].
    destruct (parse rt (text res)) as [payload|e] eqn:Hparse; cbn [bind] in H;
      [| inversion H; subst p'; split; [reflexivity|]; left; split; reflexivity].
    destruct (get payload "success") as [success|e] eqn:Hget; cbn [bind] in H;
      [| inversion H; subst p'; split; [reflexivity|]; left; split; reflexivity].
    destruct (truthy success) eqn:Hs; cbn [negb] in H.
    - assert (Hsucc : truthy (Part005.field payload "success") = true).
      { unfold Part005.field. now rewrite Hget. }
      destruct (get payload "charts") as [c|e] eqn:Hc;
        [| inversion H; subst p'; split; [reflexivity|]; left; split; reflexivity].
      pose proof (select_cards_length (or_else c (VObj []))) as Hlen.
      destruct (Part005.chartsHtml (Part005.select (or_else c (VObj []))))
        as [|card cards] eqn:Hsel; inversion H; subst p'; clear H;
        (split; [reflexivity|]); right; (split; [reflexivity|]); split.
      + left. reflexivity.
      + exists after, res, payload. auto.
      + right. exists (card :: cards). split; [reflexivity|].
        cbn [List.length] in *. lia.
      + exists after, res, payload. auto.
    - destruct (get payload "error"); cbn [bind] in H;
        inversion H; subst p'; (split; [reflexivity|]); left; split; reflexivity. }
  split; [|exact Hsettled].
  unfold Part005.displayCharts. destruct o as [after res|after e|]; cbn [fetch_plain].
  - split; [|discriminate].
    match goal with |- match ?b with _ => _ end = None -> _ => destruct b end; discriminate.
  - split; discriminate.
  - split; reflexivity.
Qed.

(** X16 at a response that is not ok. *)
Lemma displayCharts_outcome_witness :
  SummaryPage.table_view
    (SummaryPage.set_charts_display "none"
       (SummaryPage.log "Failed to fetch charts: Server returned 500" Samples.summary_page))
    = SummaryPage.table_view Samples.summary_page.
Proof.
  apply (proj2 (displayCharts_outcome Samples.runtime (Responds 10 Samples.disk_full)
                  Samples.summary_page)).
  reflexivity.
Defined.

(** X17.  When the payload has a correlation heatmap, its card is the
    first one shown, whatever else the payload holds and in whatever
    order; a payload without the heatmap but with a scatter key shows the
    card of the first scatter key first; a payload without any entry
    shows no card. *)
Theorem select_first_card :
  forall charts : value,
    (truthy (Part005.member charts "correlation_heatmap") = true ->
       exists rest,
         Part005.chartsHtml (Part005.select charts)
           = SummaryPage.mkCard "Correlation Heatmap"
               (toString (Part005.member charts "correlation_heatmap")) :: rest) /\
    (truthy (Part005.member charts "correlation_heatmap") = false ->
     forall k,
       find (fun k => startsWith k "scatter__") (Part005.keys_of charts) = Some k ->
       exists rest,
         Part005.chartsHtml (Part005.select charts)
           = SummaryPage.mkCard
               (Part005.replace_double_underscore (Part005.replace_first "scatter__" "" k))
               (toString (Part005.member charts k)) :: rest) /\
    (entries charts = [] -> Part005.chartsHtml (Part005.select charts) = []).
Proof.
  intros charts. rewrite select_cards. unfold ChartSpec.priority. split; [|split].
  - intros Hh. unfold ChartSpec.heatmap. rewrite Hh. cbn [app map snd]. eauto.
  - intros Hh k Hk. unfold ChartSpec.heatmap, ChartSpec.scatter. rewrite Hh, Hk.
    cbn [app map snd]. eauto.
  - intros He. unfold ChartSpec.others, ChartSpec.heatmap, ChartSpec.scatter,
      ChartSpec.preferred, Part005.candidates, Part005.keys_of, Part005.member, keys.
    rewrite He. cbn. reflexivity.
Qed.

(** X17 at the sample payload. *)
Lemma select_first_card_witness :
  exists rest,
    Part005.chartsHtml (Part005.select Samples.charts)
      = SummaryPage.mkCard "Correlation Heatmap"
          (toString (Part005.member Samples.charts "correlation_heatmap")) :: rest.
Proof.
  apply (proj1 (select_first_card Samples.charts)).
  reflexivity.
Defined.

(* ===================================================================== *)
(** ** The upload of the summary page with charts *)
(* ===================================================================== *)

(** X18.  [uploadFileAndRefresh] of the script with charts sends at most
    one request to /charts, and only after an ok response to /upload
    whose parsed payload reports success.  A response that is not ok
    sends none, returns [null], marks the status as an error and leaves
    the table and the chart container as they were.  Whenever a truthy
    summary is returned, the charts were requested and the button that
    downloads the cleaned file is displayed. *)
Theorem Part005_uploadFileAndRefresh_charts :
  forall (rt : Runtime) (o oc : outcome) (p : SummaryPage.Page),
    (Part005.chart_requests (Part005.uploadFileAndRefresh rt o oc p) <= 1)%nat /\
    (Part005.chart_requests (Part005.uploadFileAndRefresh rt o oc p) = 1%nat ->
       exists after res payload,
         o = Responds after res /\ ok res = true /\
         parse rt (text res) = Ok payload /\
         truthy (Part005.field payload "success") = true) /\
    (forall after res,
       o = Responds after res -> ok res = false ->
       Part005.chart_requests (Part005.uploadFileAndRefresh rt o oc p) = 0%nat /\
       Part005.returned (Part005.uploadFileAndRefresh rt o oc p) = Some VNull /\
       SummaryPage.status_danger (Part005.page (Part005.uploadFileAndRefresh rt o oc p))
         = true /\
       SummaryPage.table_view (Part005.page (Part005.uploadFileAndRefresh rt o oc p))
         = SummaryPage.table_view p /\
       SummaryPage.charts_container (Part005.page (Part005.uploadFileAndRefresh rt o oc p))
         = SummaryPage.charts_container p) /\
    (forall v,
       Part005.returned (Part005.uploadFileAndRefresh rt o oc p) = Some v ->
       truthy v = true ->
       Part005.chart_requests (Part005.uploadFileAndRefresh rt o oc p) = 1%nat /\
       SummaryPage.download_cleaned_display
         (Part005.page (Part005.uploadFileAndRefresh rt o oc p)) = "block").
Proof.
  intros rt o oc p. unfold Part005.uploadFileAndRefresh.
  destruct o as [after res|after e|]; cbn [fetch_plain].
  - destruct (ok res) eqn:Hok; cbn [negb].
    + destruct (text res =? "") eqn:Htext.
      { cbn. split; [lia|]. split; [discriminate|]. split; [intros ? ? H; inversion H; subst; congruence|].
        intros v Hv Ht. inversion Hv; subst. discriminate. }
      destruct (parse rt (text res)) as [payload|e] eqn:Hparse.
      * destruct (truthy payload && truthy (Part005.field payload "success")) eqn:Hs.
        -- apply andb_prop in Hs as [Hp Hs].
           match goal with |- context [bindM ?a ?b ?c] =>
             destruct (bindM a b c) as [[u|e] p1] end.
           ++ destruct (Part005.displayCharts rt oc p1) as [p2|].
              ** cbn. split; [lia|]. split; [intros _; exists after, res, payload; auto|].
                 split; [intros ? ? H; inversion H; subst; congruence|].
                 intros v Hv Ht. auto.
              ** cbn. split; [lia|]. split; [intros _; exists after, res, payload; auto|].
                 split; [intros ? ? H; inversion H; subst; congruence|].
                 intros v Hv Ht. discriminate.
           ++ cbn. split; [lia|]. split; [discriminate|].
              split; [intros ? ? H; inversion H; subst; congruence|].
              intros v Hv Ht. inversion Hv; subst. discriminate.
        -- cbn. split; [lia|]. split; [discriminate|].
           split; [intros ? ? H; inversion H; subst; congruence|].
           intros v Hv Ht. inversion Hv; subst. discriminate.
      * rewrite (field_of_string (text res) "success" "s" "uccess" eq_refl eq_refl eq_refl).
        cbn [truthy]. rewrite andb_false_r.
        cbn. split; [lia|]. split; [discriminate|].
        split; [intros ? ? H; inversion H; subst; congruence|].
        intros v Hv Ht. inversion Hv; subst. discriminate.
    + cbn. split; [lia|]. split; [discriminate|]. split.
      * intros after' res' _ _. repeat split.
      * intros v Hv Ht. inversion Hv; subst. discriminate.
  - cbn. split; [lia|]. split; [discriminate|]. split; [discriminate|].
    intros v Hv Ht. inversion Hv; subst. discriminate.
  - cbn. split; [lia|]. split; [discriminate|]. split; [discriminate|].
    intros v Hv Ht. discriminate.
Qed.

(** X18 at the disk-full response. *)
Lemma Part005_uploadFileAndRefresh_charts_witness :
  Part005.chart_requests
    (Part005.uploadFileAndRefresh Samples.runtime (Responds 10 Samples.disk_full) Hangs
       Samples.summary_page) = 0%nat.
Proof.
  apply (proj1 (proj2 (proj2 (Part005_uploadFileAndRefresh_charts Samples.runtime
                                (Responds 10 Samples.disk_full) Hangs Samples.summary_page)))
           10%N Samples.disk_full).
  - reflexivity.
  - reflexivity.
Defined.

(* ===================================================================== *)
(** ** Escaping loses nothing *)
(* ===================================================================== *)

Section EscapeInjectiveFacts.
Import Html.

(** The five characters that [escapeHtml] replaces. *)
Lemma escape_char_cases a :
  (a = "&"%char /\ escape_char a = "&amp;") \/
  (a = "<"%char /\ escape_char a = "&lt;") \/
  (a = ">"%char /\ escape_char a = "&gt;") \/
  (a = dquote /\ escape_char a = "&quot;") \/
  (a = "'"%char /\ escape_char a = "&#39;") \/
  (a <> "&"%char /\ a <> "<"%char /\ a <> ">"%char /\ a <> dquote /\ a <> "'"%char /\
   escape_char a = String a EmptyString).
Proof.
  unfold escape_char.
  destruct (Ascii.eqb_spec a "&") as [->|H1]; [now left|].
  destruct (Ascii.eqb_spec a "<") as [->|H2]; [right; now left|].
  destruct (Ascii.eqb_spec a ">") as [->|H3]; [right; right; now left|].
  destruct (Ascii.eqb_spec a dquote) as [->|H4]; [right; right; right; now left|].
  destruct (Ascii.eqb_spec a "'") as [->|H5]; [right; right; right; right; now left|].
  right; right; right; right; right. auto 10.
Qed.

Lemma escapeHtml_length s : (String.length s <= String.length (escapeHtml s))%nat.
Proof.
  induction s as [|a s IH]; [reflexivity|].
  rewrite escapeHtml_cons, length_append.
  destruct (escape_char_cases a) as [[_ ->]|[[_ ->]|[[_ ->]|[[_ ->]|[[_ ->]|(_&_&_&_&_& ->)]]]]];
    cbn [String.length]; lia.
Qed.

Lemma escapeHtml_inj : forall s t, escapeHtml s = escapeHtml t -> s = t.
Proof.
  induction s as [|a s IH]; intros [|b t] H.
  - reflexivity.
  - exfalso. rewrite escapeHtml_cons in H. cbn [escapeHtml replace_char] in H.
    destruct (escape_char_cases b)
      as [[_ Hb]|[[_ Hb]|[[_ Hb]|[[_ Hb]|[[_ Hb]|(_&_&_&_&_& Hb)]]]]];
      rewrite Hb in H; discriminate.
  - exfalso. rewrite escapeHtml_cons in H. cbn [escapeHtml replace_char] in H.
    destruct (escape_char_cases a)
      as [[_ Ha]|[[_ Ha]|[[_ Ha]|[[_ Ha]|[[_ Ha]|(_&_&_&_&_& Ha)]]]]];
      rewrite Ha in H; discriminate.
  - rewrite !escapeHtml_cons in H.
    assert (Hab : a = b).
    { destruct (escape_char_cases a)
        as [[Ha Ea]|[[Ha Ea]|[[Ha Ea]|[[Ha Ea]|[[Ha Ea]|(A1&A2&A3&A4&A5& Ea)]]]]];
      destruct (escape_char_cases b)
        as [[Hb Eb]|[[Hb Eb]|[[Hb Eb]|[[Hb Eb]|[[Hb Eb]|(B1&B2&B3&B4&B5& Eb)]]]]];
      rewrite Ea, Eb in H; cbn [append] in H;
      try (subst; reflexivity);
      try (inversion H; subst; congruence). }
    subst b. f_equal. apply IH.
    apply append_inj_length in H as [_ H]; [exact H | reflexivity].
Qed.

End EscapeInjectiveFacts.

(** X19.  [escapeHtml] loses nothing: two different texts have different
    escaped forms.  The escaped form is never shorter than the text, and
    it is the text itself exactly when none of the five characters &, <,
    >, double quote and single quote occurs in it. *)
Theorem escapeHtml_is_injective :
  forall s t : string,
    (Html.escapeHtml s = Html.escapeHtml t -> s = t) /\
    (String.length s <= String.length (Html.escapeHtml s))%nat /\
    (Html.escapeHtml s = s <->
       forall c, In c ("&"%char :: Html.markup_chars) -> Html.occurs c s = false).
Proof.
  intros s t. split; [apply escapeHtml_inj|]. split; [apply escapeHtml_length|].
  clear t. induction s as [|a s IH].
  - split; [intros _ c _; reflexivity | reflexivity].
  - rewrite escapeHtml_cons. split.
    + intros H.
      destruct (escape_char_cases a)
        as [[Ha Ea]|[[Ha Ea]|[[Ha Ea]|[[Ha Ea]|[[Ha Ea]|(A1&A2&A3&A4&A5& Ea)]]]]];
        rewrite Ea in H; cbn [append] in H;
        try (inversion H; subst; try discriminate;
             match goal with
             | Hs : _ = s |- _ =>
                 pose proof (escapeHtml_length s) as Hl;
                 rewrite <- Hs in Hl at 1; cbn [String.length] in Hl; lia
             end).
      inversion H as [Hs]. rewrite Hs. pose proof (proj1 IH Hs) as Hocc.
      intros c Hc. cbn [Html.occurs]. rewrite (Hocc c Hc), orb_false_r.
      apply Ascii.eqb_neq.
      cbn in Hc. decompose [or] Hc; subst; auto; contradiction.
    + intros H.
      assert (Hs : forall c, In c ("&"%char :: Html.markup_chars) -> Html.occurs c s = false).
      { intros c Hc. specialize (H c Hc). cbn [Html.occurs] in H.
        now apply orb_false_elim in H. }
      apply (proj2 IH) in Hs. rewrite Hs.
      destruct (escape_char_cases a)
        as [[Ha Ea]|[[Ha Ea]|[[Ha Ea]|[[Ha Ea]|[[Ha Ea]|(A1&A2&A3&A4&A5& Ea)]]]]];
        [exfalso; subst a .. | rewrite Ea; reflexivity].
      * specialize (H "&"%char). cbn in H. specialize (H (or_introl eq_refl)). discriminate.
      * specialize (H "<"%char). cbn in H. specialize (H (or_intror (or_introl eq_refl))).
        discriminate.
      * specialize (H ">"%char). cbn in H.
        specialize (H (or_intror (or_intror (or_introl eq_refl)))). discriminate.
      * specialize (H dquote). cbn in H.
        specialize (H (or_intror (or_intror (or_intror (or_introl eq_refl))))). discriminate.
      * specialize (H "'"%char). cbn in H.
        specialize (H (or_intror (or_intror (or_intror (or_intror (or_introl eq_refl)))))).
        discriminate.
Qed.

(** X19 at a text that holds an ampersand. *)
Lemma escapeHtml_is_injective_witness : "a&b" = "a&b".
Proof.
  apply (proj1 (escapeHtml_is_injective "a&b" "a&b")).
  reflexivity.
Defined.

(* ===================================================================== *)
(** ** The filter by missing values *)
(* ===================================================================== *)

Section MissingFilterFacts.
Import Part005Handlers.

Lemma without_missingFilter_idem search :
  without_missingFilter (without_missingFilter search) = without_missingFilter search.
Proof.
  unfold without_missingFilter. induction search as [|f search IH]; [reflexivity|].
  cbn [filter]. destruct (negb (filter_name f =? "missingFilter")) eqn:E.
  - cbn [filter]. rewrite E, IH. reflexivity.
  - exact IH.
Qed.

Lemma named_without search : named_missingFilter (without_missingFilter search) = [].
Proof.
  unfold named_missingFilter, without_missingFilter.
  induction search as [|f search IH]; [reflexivity|].
  cbn [filter]. destruct (filter_name f =? "missingFilter") eqn:E; cbn [negb filter].
  - exact IH.
  - rewrite E. exact IH.
Qed.

Lemma without_input rt max search :
  without_missingFilter (filter_missing_input rt max search) = without_missingFilter search.
Proof.
  unfold filter_missing_input. destruct (max =? ""); [apply without_missingFilter_idem|].
  unfold without_missingFilter at 1. rewrite filter_app. cbn [filter filter_name].
  rewrite String.eqb_refl. cbn [negb]. rewrite app_nil_r.
  apply without_missingFilter_idem.
Qed.

End MissingFilterFacts.

(** X20.  Typing in the missing-values box never stacks filters: after the
    handler the search list holds the other filters as they were, in their
    order, and no entry named missingFilter when the box is empty, exactly
    one otherwise, which is the filter of the bound just typed.  A second
    input therefore replaces the first. *)
Theorem filter_missing_input_replaces :
  forall (rt : Net.Runtime) (max max' : string) (search : list Part005Handlers.Filter),
    Part005Handlers.without_missingFilter (Part005Handlers.filter_missing_input rt max search)
      = Part005Handlers.without_missingFilter search /\
    Part005Handlers.named_missingFilter (Part005Handlers.filter_missing_input rt max search)
      = (if max =? "" then []
         else [Part005Handlers.mkFilter "missingFilter" (Part005Handlers.missingFilter rt max)]) /\
    Part005Handlers.filter_missing_input rt max'
        (Part005Handlers.filter_missing_input rt max search)
      = Part005Handlers.filter_missing_input rt max' search.
Proof.
  intros rt max max' search. split; [apply without_input|]. split.
  - unfold Part005Handlers.filter_missing_input. destruct (max =? "").
    + apply named_without.
    + unfold Part005Handlers.named_missingFilter. rewrite filter_app.
      fold (Part005Handlers.named_missingFilter (Part005Handlers.without_missingFilter search)).
      rewrite named_without. cbn [filter Part005Handlers.filter_name app].
      rewrite String.eqb_refl. reflexivity.
  - unfold Part005Handlers.filter_missing_input at 1 3.
    rewrite without_input. reflexivity.
Qed.

(* ===================================================================== *)
(** ** Download of the cleaned file *)
(* ===================================================================== *)

(** X21.  A click on the download button of the summary page sends at most
    one request to /download-cleaned, and none when the request to
    /summary-data fails or is refused: it then only raises the alert that
    no summary is available.  A file is saved only from an ok
    response, with the body of that response and a name that starts with
    cleaned_; a request that is sent and settles without a file raises the
    alert that the download failed. *)
Theorem download_cleaned_click_outcome :
  forall (rt : Net.Runtime) (os od : Net.outcome) (p : SummaryPage.Page),
    let r := Part005Handlers.download_cleaned_click rt os od p in
    (Part005Handlers.cleaned_requests r <= 1)%nat /\
    (forall after res, os = Net.Responds after res -> Net.ok res = false ->
        Part005Handlers.alerts r = ["No summary available. Please analyze a file first."] /\
        Part005Handlers.cleaned_requests r = 0%nat /\
        Part005Handlers.downloads r = []) /\
    (forall after e, os = Net.Rejects after e ->
        Part005Handlers.alerts r = ["No summary available. Please analyze a file first."] /\
        Part005Handlers.cleaned_requests r = 0%nat /\
        Part005Handlers.downloads r = []) /\
    (forall d, In d (Part005Handlers.downloads r) ->
        Part005Handlers.downloads r = [d] /\
        Part005Handlers.alerts r = [] /\
        exists after res name,
          od = Net.Responds after res /\ Net.ok res = true /\
          Part004Handlers.download_body d = Part004Handlers.mkBlob (Net.text res) /\
          Part004Handlers.download_name d = "cleaned_" ++ name) /\
    (Part005Handlers.cleaned_requests r = 1%nat ->
     Part005Handlers.downloads r = [] ->
     Part005Handlers.cleaned_completion r = Some (Js.Ok tt) ->
     Part005Handlers.alerts r = ["Failed to download cleaned file."]).
Proof.
  intros rt os od p r. subst r. unfold Part005Handlers.download_cleaned_click.
  split; [|split; [|split; [|split]]].
  - destruct (Part005.fetchSummary rt os p) as [[summary p']|]; cbn; [|lia].
    destruct (Js.truthy summary); cbn; [|lia].
    destruct (Js.bind (Js.get summary "file_info") _); cbn; [|lia].
    destruct od as [after res|after e|]; cbn; [destruct (Net.ok res); cbn; lia|lia|lia].
  - intros after res -> Hok.
    unfold Part005.fetchSummary, Part000.fetchSummary. cbn [Net.fetch_plain Js.bind].
    rewrite Hok. cbn. auto.
  - intros after e ->.
    unfold Part005.fetchSummary, Part000.fetchSummary. cbn. auto.
  - intros d.
    destruct (Part005.fetchSummary rt os p) as [[summary p']|]; cbn; [|tauto].
    destruct (Js.truthy summary); cbn; [|tauto].
    destruct (Js.bind (Js.get summary "file_info") _) as [filename|]; cbn; [|tauto].
    destruct od as [after res|after e|]; cbn; [|tauto|tauto].
    destruct (Net.ok res) eqn:Hok; cbn; [|tauto].
    intros [<-|[]]. split; [reflexivity|]. split; [reflexivity|].
    exists after, res, (Js.toString filename). auto.
  - destruct (Part005.fetchSummary rt os p) as [[summary p']|]; cbn; [|discriminate].
    destruct (Js.truthy summary); cbn; [|discriminate].
    destruct (Js.bind (Js.get summary "file_info") _) as [filename|]; cbn; [|discriminate].
    destruct od as [after res|after e|]; cbn; [|reflexivity|discriminate].
    destruct (Net.ok res) eqn:Hok; cbn; [discriminate|reflexivity].
Qed.

(** X21 at a summary request that is refused with status 507. *)
Lemma download_cleaned_click_outcome_witness :
  Part005Handlers.alerts
    (Part005Handlers.download_cleaned_click Samples.runtime
       (Net.Responds 10 Samples.disk_full) Net.Hangs Samples.summary_page)
    = ["No summary available. Please analyze a file first."].
Proof.
  apply (proj1 (proj1 (proj2 (download_cleaned_click_outcome Samples.runtime
           (Net.Responds 10 Samples.disk_full) Net.Hangs Samples.summary_page))
         10%N Samples.disk_full eq_refl eq_refl)).
Defined.

(* ===================================================================== *)
(** ** The two report handlers compared *)
(* ===================================================================== *)

(** X22.  The report button of the Phase-1 script saves the body of
    whatever answers /report, also of a response that is not ok, while
    the later script saves nothing when its two attempts meet responses
    that are not ok.  Whatever file the later script saves, the Phase-1
    script saves the same file from the same answer. *)
Theorem phase1_report_click_saves_any_answer :
  forall (rt : Net.Runtime) (iso : string) (net : Net.network) (p : UploadPage.Page),
    (forall after res,
        Net.ok res = false ->
        fst (ScriptJsHandlers.report_click iso (Net.Responds after res))
          = [Part004Handlers.mkDownload (Part004Handlers.report_name iso)
               (Part004Handlers.mkBlob (Net.text res))]) /\
    ((forall j, (j <= 1)%nat ->
        exists after res, nth j net Net.Hangs = Net.Responds after res /\ Net.ok res = false) ->
     snd (fst (Part004Handlers.report_click rt iso net p)) = []) /\
    (forall d, In d (snd (fst (Part004Handlers.report_click rt iso net p))) ->
       exists i, (i <= 1)%nat /\
         fst (ScriptJsHandlers.report_click iso (nth i net Net.Hangs)) = [d]).
Proof.
  intros rt iso net p. split; [reflexivity|].
  unfold Part004Handlers.report_click, Part004Handlers.fetchBlobWithTimeoutAndRetries.
  destruct (blob_loop_cases 30000 1 1 0 None net eq_refl) as
    [(i & blob & Hi & Hres & _ & Hc & Hn)|(err & _ & _ & Hc & Hn)]; rewrite Hc, Hn.
  - destruct (blob_result_Ok 30000 _ blob Hres) as (after & res & Ho & Hlt & Hok & ->).
    cbn [fst snd]. split.
    + intros Hbad. destruct (Hbad i Hi) as (after' & res' & Ho' & Hok').
      rewrite Ho in Ho'. inversion Ho'. subst. congruence.
    + intros d [<-|[]]. exists i. split; [exact Hi|]. rewrite Ho. reflexivity.
  - destruct (Net.onLine rt); cbn [negb fst snd]; split; try reflexivity; intros d [].
Qed.

(** X22 at two answers with status 507. *)
Lemma phase1_report_click_saves_any_answer_witness :
  snd (fst (Part004Handlers.report_click Samples.runtime "2024-05-01T10:20:30.000Z"
              [Net.Responds 10 Samples.disk_full; Net.Responds 10 Samples.disk_full]
              Samples.upload_page)) = [].
Proof.
  apply (proj1 (proj2 (phase1_report_click_saves_any_answer Samples.runtime
           "2024-05-01T10:20:30.000Z"
           [Net.Responds 10 Samples.disk_full; Net.Responds 10 Samples.disk_full]
           Samples.upload_page))).
  intros j Hj. exists 10%N, Samples.disk_full.
  destruct j as [|[|j]]; [split; reflexivity | split; reflexivity | lia].
Defined.
